(** * Telesense: the telemetry extractor and the three reports

    A shallow embedding of [Telesense_analysis.py] (the reporter) and of
    [Telesense_data.py] (the extractor), followed by the properties of the
    specification that were checked against it.

    Modelling conventions.

    - A pandas [DataFrame] is an ordered list of column names and an ordered
      list of rows; a row maps a column name to a cell.  A cell is one of the
      Python objects a table loaded from the JSON snapshot holds ([None], the
      float [nan], a [bool], a number, a [str]) or, inside the jobs report,
      a parsed timestamp / [NaT].
    - Numbers are integers ([Z]); an integer-valued float and the integer are
      identified, and sums are taken over unbounded integers.
    - Strings are byte strings ([string]); [str.lower] acts on ASCII letters.
    - pandas and Python semantics are those of pandas 1.x/2.x object columns,
      which the source presupposes (it tests a stringified column against the
      text ['nan']).
    - What belongs to other libraries is a field of the class [Lib]
      (timestamp parsing, numeric parsing of text, [tabulate]'s table
      rendering) or of the extractor's class [Outside] (the warehouse, the
      disk, [json]).
    - Exceptions and mutation are explicit: a computation maps a state to an
      outcome ([Return] or [Raise]) and a new state.  *)

From Stdlib Require Import ZArith String Ascii List DecimalString.
From stdpp Require Import base gmap list strings sorting.

Open Scope Z_scope.

(** ** Python: exceptions, outcomes, the state-and-exception monad *)
Module Py.

Inductive exn : Type :=
| KeyError (key : string)
| NameError (name : string)
| TypeError (msg : string)
| ValueError (msg : string)
| DatabaseError (msg : string)
| OSError (msg : string).

(** [str(e)] *)
Definition message (e : exn) : string :=
  match e with
  | KeyError m | NameError m | TypeError m | ValueError m
  | DatabaseError m | OSError m => m
  end.

Inductive outcome (A : Type) : Type :=
| Return (a : A)
| Raise (e : exn).
Arguments Return {A} a.
Arguments Raise {A} e.

Definition M (S A : Type) : Type := S -> outcome A * S.

Definition ret {S A} (a : A) : M S A := fun s => (Return a, s).

Definition bind {S A B} (m : M S A) (k : A -> M S B) : M S B :=
  fun s =>
    match m s with
    | (Return a, s') => k a s'
    | (Raise e, s') => (Raise e, s')
    end.

Definition raise {S A} (e : exn) : M S A := fun s => (Raise e, s).

Definition get {S} : M S S := fun s => (Return s, s).

Definition modify {S} (f : S -> S) : M S unit := fun s => (Return tt, f s).

(** A pure computation that may raise, run inside the monad. *)
Definition lift {S A} (o : outcome A) : M S A := fun s => (o, s).

(** [try: body / except Exception as e: handler e] *)
Definition try_except {S A} (body : M S A) (handler : exn -> M S A) : M S A :=
  fun s =>
    match body s with
    | (Return a, s') => (Return a, s')
    | (Raise e, s') => handler e s'
    end.

(** [try: body / finally: fin]: [fin] runs on every exit of [body]; the
    outcome is that of [body] unless [fin] itself raises. *)
Definition try_finally {S A} (body : M S A) (fin : M S unit) : M S A :=
  fun s =>
    match body s with
    | (o, s') =>
        match fin s' with
        | (Return _, s'') => (o, s'')
        | (Raise e, s'') => (Raise e, s'')
        end
    end.

(** [for x in xs: body x] *)
Fixpoint for_each {S A} (xs : list A) (body : A -> M S unit) : M S unit :=
  match xs with
  | [] => ret tt
  | x :: xs' => bind (body x) (fun _ => for_each xs' body)
  end.

(** Binding the outcome of a pure computation. *)
Definition obind {A B} (o : outcome A) (k : A -> outcome B) : outcome B :=
  match o with
  | Return a => k a
  | Raise e => Raise e
  end.

End Py.

Import Py.

#[global] Instance M_ret {S} : MRet (M S) := fun A => @Py.ret S A.
#[global] Instance M_bind {S} : MBind (M S) := fun A B k m => @Py.bind S A B m k.
#[global] Instance outcome_ret : MRet outcome := fun A => @Return A.
#[global] Instance outcome_bind : MBind outcome := fun A B k o => @Py.obind A B o k.

(** ** Text formatting: [str(int)], [format(x, '.2%')], [format(x, '.0f')] *)
Module Fmt.

(** [str(z)] for a Python [int]. *)
Definition str_int (z : Z) : string := NilZero.string_of_int (Z.to_int z).

(** [p / q] rounded to the nearest integer, ties to even ([0 <= p], [0 < q]). *)
Definition div_half_even (p q : Z) : Z :=
  let d := p / q in
  let r := p mod q in
  match 2 * r ?= q with
  | Lt => d
  | Gt => d + 1
  | Eq => if Z.even d then d else d + 1
  end.

(** A finite non-negative binary64 value is [mant * 2 ^ expo]. *)
Record b64 : Type := { mant : Z; expo : Z }.

(** The rational [mant * 2 ^ expo] as a fraction. *)
Definition b64_num (x : b64) : Z := if 0 <=? expo x then mant x * 2 ^ expo x else mant x.
Definition b64_den (x : b64) : Z := if 0 <=? expo x then 1 else 2 ^ (- expo x).

(** The binary64 nearest to [p / q] ([0 <= p], [0 < q]), ties to even:
    53 significant bits.  Exponent range (overflow, subnormals) is not
    modelled: it is never reached by a ratio of row counts or by an integer
    below [2 ^ 1024]. *)
Definition round_b64 (p q : Z) : b64 :=
  if p =? 0 then {| mant := 0; expo := 0 |} else
  let k := Z.log2 p - Z.log2 q in
  (* floor (log2 (p / q)) is [k] or [k - 1] *)
  let lg := if (if 0 <=? k then q * 2 ^ k <=? p else q <=? p * 2 ^ (- k)) then k else k - 1 in
  let e := lg - 52 in
  let m := if 0 <=? e then div_half_even p (q * 2 ^ e) else div_half_even (p * 2 ^ (- e)) q in
  if m =? 2 ^ 53 then {| mant := 2 ^ 52; expo := e + 1 |} else {| mant := m; expo := e |}.

(** Python's [a / b] on two non-negative [int]s, [b > 0]: the correctly
    rounded quotient. *)
Definition true_div (a b : Z) : b64 := round_b64 a b.

(** Multiplication of a binary64 by the integer constant [c]. *)
Definition b64_mul_int (x : b64) (c : Z) : b64 := round_b64 (b64_num x * c) (b64_den x).

(** The digits of [format(x, '.<d>f')] for a non-negative binary64 [x]:
    the exact value rounded to [d] decimals, ties to even. *)
Definition fixed (d : nat) (x : b64) : string :=
  let scale := 10 ^ Z.of_nat d in
  let n := div_half_even (b64_num x * scale) (b64_den x) in
  let ip := str_int (n / scale) in
  let fp := str_int (n mod scale) in
  match d with
  | O => ip
  | _ => ip +:+ "." +:+ String.concat "" (replicate (d - String.length fp) "0"%string) +:+ fp
  end.

(** [format(x, '.2%')]: CPython multiplies the float by 100, formats it with
    two decimals and appends the percent sign. *)
Definition pct2 (x : b64) : string := fixed 2 (b64_mul_int x 100) +:+ "%".

(** [format(n, '.0f')] for an integer [n] (converted to float first). *)
Definition f0_int (n : Z) : string :=
  if n <? 0 then "-" +:+ fixed 0 (round_b64 (- n) 1) else fixed 0 (round_b64 n 1).

End Fmt.

(** ** pandas: cells, frames and the operations the program calls *)
Module Pandas.

(** The values a cell holds. [VNone], [VNaN] and [VNaT] are the three
    missing values ([None], float [nan], [NaT]); [VTime t] is a timestamp,
    [t] nanoseconds on the clock that [datetime.now()] reads. *)
Inductive cell : Type :=
| VNone
| VNaN
| VNaT
| VBool (b : bool)
| VInt (z : Z)
| VStr (s : string)
| VTime (t : Z).

#[global] Instance cell_eq_dec : EqDecision cell.
Proof. solve_decision. Defined.

Record DataFrame : Type := {
  columns : list string;
  rows : list (gmap string cell)
}.

#[global] Instance DataFrame_eq_dec : EqDecision DataFrame.
Proof. solve_decision. Defined.

(** What the program takes from other libraries. *)
Class Lib : Type := {
  (** [pd.to_datetime(column, errors='coerce')]: a timestamp or [NaT]
      ([None]) per element; the format may be inferred from the column.
      The timestamps are naive (without time zone), as the comparison with
      [datetime.now()] requires. *)
  to_datetime : list cell -> list (option Z);
  to_datetime_length : forall col, length (to_datetime col) = length col;
  (** the number a text denotes for [pd.to_numeric], if any *)
  parse_number : string -> option Z;
  (** [str] of a timestamp *)
  timestamp_str : Z -> string;
  (** [DataFrame.to_markdown(index=False)], rendered by [tabulate] *)
  to_markdown : DataFrame -> string
}.

(** [df.empty]: some axis has length zero. *)
Definition empty (df : DataFrame) : bool :=
  match rows df, columns df with
  | [], _ | _, [] => true
  | _, _ => false
  end.

Definition has_column (c : string) (df : DataFrame) : bool :=
  bool_decide (c ∈ columns df).

(** A field a record did not have is [nan]. *)
Definition row_get (c : string) (r : gmap string cell) : cell :=
  default VNaN (r !! c).

(** [df[c]] *)
Definition get_column (c : string) (df : DataFrame) : outcome (list cell) :=
  if has_column c df then Return (map (row_get c) (rows df))
  else Raise (KeyError c).

(** [df[c] = values], as a new frame value; a new column goes last. *)
Definition set_column (c : string) (values : list cell) (df : DataFrame)
  : outcome DataFrame :=
  if bool_decide (length values = length (rows df)) then
    Return {| columns := if has_column c df then columns df else columns df ++ [c];
              rows := zip_with (fun r v => <[c := v]> r) (rows df) values |}
  else Raise (ValueError "Length of values does not match length of index").

(** [df[mask]] for a boolean mask computed from [df]'s own columns. *)
Definition filter_mask (mask : list bool) (df : DataFrame) : DataFrame :=
  {| columns := columns df;
     rows := map fst (List.filter snd (zip (rows df) mask)) |}.

(** [df[cols]] for a list of column names. *)
Definition select_columns (cols : list string) (df : DataFrame) : outcome DataFrame :=
  match List.filter (fun c => negb (has_column c df)) cols with
  | [] => Return {| columns := cols;
                    rows := map (fun r => list_to_map (map (fun c => (c, row_get c r)) cols))
                                (rows df) |}
  | c :: _ => Raise (KeyError c)
  end.

(** [df.head(n)]: the first [n] rows, or all but the last [-n]. *)
Definition head (n : Z) (df : DataFrame) : DataFrame :=
  {| columns := columns df;
     rows := if 0 <=? n then take (Z.to_nat n) (rows df)
             else take (length (rows df) - Z.to_nat (- n)) (rows df) |}.

(** [df.shape[0]] *)
Definition shape0 (df : DataFrame) : Z := Z.of_nat (length (rows df)).

(** *** Elementwise operations *)

Definition isna (c : cell) : bool :=
  match c with
  | VNone | VNaN | VNaT => true
  | _ => false
  end.

Definition notna (c : cell) : bool := negb (isna c).

(** [series == s] and [series != s] against a text. *)
Definition eq_str (s : string) (c : cell) : bool :=
  match c with
  | VStr s' => bool_decide (s' = s)
  | _ => false
  end.

Definition ne_str (s : string) (c : cell) : bool := negb (eq_str s c).

(** [series >= t] and [series <= t] on a datetime column. *)
Definition ge_time (t : Z) (c : cell) : bool :=
  match c with
  | VTime u => t <=? u
  | _ => false
  end.

Definition le_time (t : Z) (c : cell) : bool :=
  match c with
  | VTime u => u <=? t
  | _ => false
  end.

(** One element of [series.astype(str)]: missing values become the texts
    ['None'], ['nan'] and ['NaT']. *)
Definition astype_str `{Lib} (c : cell) : cell :=
  VStr match c with
       | VNone => "None"
       | VNaN => "nan"
       | VNaT => "NaT"
       | VBool true => "True"
       | VBool false => "False"
       | VInt z => Fmt.str_int z
       | VStr s => s
       | VTime t => timestamp_str t
       end.

Definition lower_ascii (a : ascii) : ascii :=
  let n := nat_of_ascii a in
  if ((65 <=? n) && (n <=? 90))%nat then ascii_of_nat (n + 32) else a.

Fixpoint lower (s : string) : string :=
  match s with
  | EmptyString => EmptyString
  | String a s' => String (lower_ascii a) (lower s')
  end.

(** One element of [series.str.lower()]; a non-text element gives [nan]. *)
Definition str_lower (c : cell) : cell :=
  match c with
  | VStr s => VStr (lower s)
  | _ => VNaN
  end.

(** The number a cell counts as: [True] is 1, [False] is 0. *)
Definition num_of (c : cell) : option Z :=
  match c with
  | VBool b => Some (if b then 1 else 0)
  | VInt z => Some z
  | _ => None
  end.

(** One element of [pd.to_numeric(series, errors='coerce')]. *)
Definition to_numeric `{Lib} (c : cell) : cell :=
  match c with
  | VInt z => VInt z
  | VBool b => VInt (if b then 1 else 0)
  | VStr s => match parse_number s with Some z => VInt z | None => VNaN end
  | _ => VNaN
  end.

(** One element of [series.fillna(v)]. *)
Definition fillna (v : cell) (c : cell) : cell := if isna c then v else c.

(** [series.sum()], then used as a number: missing values are skipped; a
    text (or a timestamp) among the values ends in an exception, raised by
    the addition or by the numeric format applied to the result. *)
Definition series_sum (col : list cell) : outcome Z :=
  let present := List.filter notna col in
  if forallb (fun c => bool_decide (is_Some (num_of c))) present then
    Return (foldr Z.add 0 (omap num_of present))
  else if forallb (fun c => match c with VStr _ => true | _ => false end) col then
    Raise (ValueError "Unknown format code 'f' for object of type 'str'")
  else Raise (TypeError "unsupported operand type(s) for +").

(** *** Ordering and equality of cell values *)

(** What a present value is ordered by. *)
Inductive skey : Type :=
| KNum (z : Z)
| KStr (s : string)
| KTime (t : Z).

#[global] Instance skey_eq_dec : EqDecision skey.
Proof. solve_decision. Defined.

Definition sort_key (c : cell) : option skey :=
  match c with
  | VBool b => Some (KNum (if b then 1 else 0))
  | VInt z => Some (KNum z)
  | VStr s => Some (KStr s)
  | VTime t => Some (KTime t)
  | _ => None
  end.

(** Python orders numbers with numbers, texts with texts; between the two
    [<] raises [TypeError]. *)
Definition comparable (a b : skey) : bool :=
  match a, b with
  | KNum _, KNum _ | KStr _, KStr _ | KTime _, KTime _ => true
  | _, _ => false
  end.

Definition skey_rank (a : skey) : Z :=
  match a with KNum _ => 0 | KStr _ => 1 | KTime _ => 2 end.

(** [a <= b]; on values of different kinds, numbers come first (the order
    pandas uses for group keys of mixed kinds). *)
Definition skey_leb (a b : skey) : bool :=
  match a, b with
  | KNum x, KNum y => x <=? y
  | KStr x, KStr y => String.leb x y
  | KTime x, KTime y => x <=? y
  | _, _ => skey_rank a <=? skey_rank b
  end.

(** Equality of two values as keys: missing values are equal to each
    other, [True == 1] and [False == 0]. *)
Definition key_eqb (a b : cell) : bool :=
  match sort_key a, sort_key b with
  | None, None => true
  | Some x, Some y => bool_decide (x = y)
  | _, _ => false
  end.

(** *** Sorting, deduplication, grouping *)

(** Insertion into a list sorted by [leb], before the first larger-or-equal
    element: the sort below is stable. *)
Fixpoint insert_by {A} (leb : A -> A -> bool) (x : A) (l : list A) : list A :=
  match l with
  | [] => [x]
  | y :: l' => if leb x y then x :: l else y :: insert_by leb x l'
  end.

Definition stable_sort {A} (leb : A -> A -> bool) (l : list A) : list A :=
  foldr (insert_by leb) [] l.

Definition by_key {A} (a b : skey * A) : bool := skey_leb a.1 b.1.

(** The rows with a present value in column [c], each with its sort key,
    and the rows with a missing one. *)
Definition keyed_rows (c : string) (rs : list (gmap string cell))
  : list (skey * gmap string cell) :=
  omap (fun r => match sort_key (row_get c r) with
                 | Some k => Some (k, r)
                 | None => None
                 end) rs.

Definition missing_rows (c : string) (rs : list (gmap string cell))
  : list (gmap string cell) :=
  List.filter (fun r => isna (row_get c r)) rs.

Definition all_comparable {A} (l : list (skey * A)) : bool :=
  match l with
  | [] => true
  | (k0, _) :: rest => forallb (fun kr => comparable k0 kr.1) rest
  end.

(** [df.sort_values(by=c, ascending=...)].  As pandas does, the rows with a
    present key are sorted (a descending sort is the reverse of the ascending
    sort of the reversed rows) and the rows with a missing key go last.
    The ascending sort is taken stable; on rows with pairwise distinct keys
    every sorting algorithm gives the same result. *)
Definition sort_values (c : string) (ascending : bool) (df : DataFrame)
  : outcome DataFrame :=
  if has_column c df then
    let non_nans := keyed_rows c (rows df) in
    if all_comparable non_nans then
      let sorted := if ascending then stable_sort by_key non_nans
                    else reverse (stable_sort by_key (reverse non_nans)) in
      Return {| columns := columns df;
                rows := map snd sorted ++ missing_rows c (rows df) |}
    else Raise (TypeError "'<' not supported between instances of 'str' and 'int'")
  else Raise (KeyError c).

(** The values of a row in the columns [subset]. *)
Definition row_key (subset : list string) (r : gmap string cell) : list cell :=
  map (fun c => row_get c r) subset.

Definition keys_eqb (k1 k2 : list cell) : bool :=
  forallb (fun ab => key_eqb ab.1 ab.2) (zip k1 k2).

(** Keep a row unless an earlier row had the same key. *)
Fixpoint keep_first (subset : list string) (seen : list (list cell))
  (rs : list (gmap string cell)) : list (gmap string cell) :=
  match rs with
  | [] => []
  | r :: rs' =>
      let k := row_key subset r in
      if existsb (keys_eqb k) seen then keep_first subset seen rs'
      else r :: keep_first subset (k :: seen) rs'
  end.

(** [df.drop_duplicates(subset=...)] (keep='first'). *)
Definition drop_duplicates (subset : list string) (df : DataFrame)
  : outcome DataFrame :=
  match List.filter (fun c => negb (has_column c df)) subset with
  | [] => Return {| columns := columns df;
                    rows := keep_first subset [] (rows df) |}
  | c :: _ => Raise (KeyError c)
  end.

(** Lexicographic [<=] on group keys. *)
Fixpoint keys_leb (a b : list skey) : bool :=
  match a, b with
  | [], _ => true
  | _ :: _, [] => false
  | x :: a', y :: b' => if bool_decide (x = y) then keys_leb a' b' else skey_leb x y
  end.

(** Add [v] to the group [k], if there is one. *)
Fixpoint group_add (k : list skey) (v : Z) (acc : list (list skey * Z))
  : option (list (list skey * Z)) :=
  match acc with
  | [] => None
  | (k', v') :: acc' =>
      if bool_decide (k = k') then Some ((k', v' + v) :: acc')
      else cons (k', v') <$> group_add k v acc'
  end.

(** Add [v] to the group [k]; a new group takes its place in key order. *)
Definition group_insert (k : list skey) (v : Z) (acc : list (list skey * Z))
  : list (list skey * Z) :=
  match group_add k v acc with
  | Some acc' => acc'
  | None => insert_by (fun a b => keys_leb a.1 b.1) (k, v) acc
  end.

Definition group_sums (kvs : list (list skey * Z)) : list (list skey * Z) :=
  fold_left (fun acc kv => group_insert kv.1 kv.2 acc) kvs [].

(** The group key of a row, if none of its key values is missing, and the
    number it adds to its group (a missing value adds nothing). *)
Definition group_entry (keys : list string) (val : string) (r : gmap string cell)
  : option (list skey * Z) :=
  ks ← mapM (fun c => sort_key (row_get c r)) keys;
  Some (ks, default 0 (num_of (row_get val r))).

Definition cell_of_skey (k : skey) : cell :=
  match k with
  | KNum z => VInt z
  | KStr s => VStr s
  | KTime t => VTime t
  end.

(** The row of the result for a group. *)
Definition group_row (keys : list string) (val : string) (g : list skey * Z)
  : gmap string cell :=
  list_to_map (zip keys (map cell_of_skey g.1) ++ [(val, VInt g.2)]).

(** [df.groupby(keys)[val].sum().reset_index()]: one row per distinct key,
    in ascending key order, with the sum of [val] over the group. *)
Definition groupby_sum (keys : list string) (val : string) (df : DataFrame)
  : outcome DataFrame :=
  match List.filter (fun c => negb (has_column c df)) (keys ++ [val]) with
  | [] =>
      Return {| columns := keys ++ [val];
                rows := map (group_row keys val)
                            (group_sums (omap (group_entry keys val) (rows df))) |}
  | c :: _ => Raise (KeyError c)
  end.



(** *** Construction from records *)

(** The column names of a list of records, in order of first appearance. *)
Definition record_columns (records : list (list (string * cell))) : list string :=
  fold_left (fun acc k => if bool_decide (k ∈ acc) then acc else acc ++ [k])
            (concat (map (map fst) records)) [].

(** A column holding only numbers and missing values is a float column:
    its [None]s are [nan]. *)
Definition float_column (c : string) (rs : list (gmap string cell)) : bool :=
  forallb (fun r => match row_get c r with
                    | VInt _ | VNone | VNaN => true
                    | _ => false
                    end) rs
  && existsb (fun r => match row_get c r with
                       | VInt _ | VNaN => true
                       | _ => false
                       end) rs.

Definition none_to_nan (c : string) (r : gmap string cell) : gmap string cell :=
  match r !! c with
  | Some VNone => <[c := VNaN]> r
  | _ => r
  end.

(** [pd.DataFrame(records)] for a list of flat records (the values
    [json.load] yields: [None], [nan], [bool], number, [str]); of a field
    given twice the last value stands. *)
Definition DataFrame_of_records (records : list (list (string * cell))) : DataFrame :=
  let cols := record_columns records in
  let rs := map (fun rec => list_to_map (reverse rec)) records in
  {| columns := cols;
     rows := map (fun r => foldr none_to_nan r
                             (List.filter (fun c => float_column c rs) cols)) rs |}.

End Pandas.

Import Pandas.

(** The line feed of the source's string literals. *)
Definition nl : string := String (ascii_of_nat 10) EmptyString.

(** ** The reporter: [Telesense_analysis.py] *)
Module Analysis.

(** The interpreter state the reports run in: the objects on the heap, the
    object the global name [df_combined_telemetry] is bound to, and the
    clock that [datetime.now()] reads. *)
Record state : Type := {
  heap : gmap nat DataFrame;
  df_combined_telemetry : nat;
  clock : Z
}.

Definition global : M state nat :=
  fun s => (Return (df_combined_telemetry s), s).

Definition deref (r : nat) : M state DataFrame :=
  fun s =>
    match heap s !! r with
    | Some df => (Return df, s)
    | None => (Raise (NameError "df_combined_telemetry"), s)
    end.

Definition store (r : nat) (df : DataFrame) : M state unit :=
  modify (fun s => {| heap := <[r := df]> (heap s);
                      df_combined_telemetry := df_combined_telemetry s;
                      clock := clock s |}).

(** [df.copy()]: a new object holding the same table. *)
Definition copy (r : nat) : M state nat :=
  df ← deref r;
  s ← get;
  let r' := fresh (dom (heap s)) in
  _ ← store r' df;
  mret r'.

(** [df[c]] on the object [r]. *)
Definition getitem (r : nat) (c : string) : M state (list cell) :=
  df ← deref r;
  lift (get_column c df).

(** [df[c] = values]: the object [r] is changed in place. *)
Definition setitem (r : nat) (c : string) (values : list cell) : M state unit :=
  df ← deref r;
  df' ← lift (set_column c values df);
  store r df'.

(** [datetime.now()] *)
Definition datetime_now : M state Z :=
  fun s => (Return (clock s), s).

(** [timedelta(days=n)], in nanoseconds.  Times are unbounded integers: the
    range of Python's [datetime] (years 1 to 9999) is not modelled. *)
Definition timedelta_days (n : Z) : Z := n * (86400 * 10 ^ 9).

Definition time_cell (o : option Z) : cell :=
  match o with
  | Some t => VTime t
  | None => VNaT
  end.

(** [df.dropna(subset=[c])] *)
Definition dropna (c : string) (df : DataFrame) : outcome DataFrame :=
  col ← get_column c df;
  Return (filter_mask (map notna col) df).

Section Reports.
Context `{Lib}.

(** Lines 54-72: the report on the jobs of the window. *)
Definition jobs_report (n_days : Z) (df_recent_jobs : DataFrame) : outcome string :=
  let total_jobs := shape0 df_recent_jobs in
  status ← get_column "job_status" df_recent_jobs;
  let successful_jobs := shape0 (filter_mask (map (eq_str "successful") status) df_recent_jobs) in
  let failed_jobs := shape0 (filter_mask (map (eq_str "failed") status) df_recent_jobs) in
  total_hosts_processed_by_jobs ←
    (if has_column "job_host_count" df_recent_jobs
     then hosts ← get_column "job_host_count" df_recent_jobs; series_sum hosts
     else Return 0);
  let output := "## Job Run Summary (Last " +:+ Fmt.str_int n_days +:+ " Days):" +:+ nl +:+ nl in
  let output := output +:+ "- Total Jobs Run: " +:+ Fmt.str_int total_jobs +:+ nl in
  let output := output +:+ "- Successful Jobs: " +:+ Fmt.str_int successful_jobs +:+ nl in
  let output := output +:+ "- Failed Jobs: " +:+ Fmt.str_int failed_jobs +:+ nl in
  let output :=
    if 0 <? total_jobs
    then output +:+ "- Success Rate: "
                +:+ Fmt.pct2 (Fmt.true_div successful_jobs total_jobs) +:+ nl
    else output in
  let output := output +:+ "- Total Hosts Touched by These Jobs: "
                       +:+ Fmt.f0_int total_hosts_processed_by_jobs +:+ nl +:+ nl in
  let output := output +:+ "### Sample Job Data:" +:+ nl in
  let sample_columns :=
    List.filter (fun col => has_column col df_recent_jobs)
      ["job_created_date"; "job_name"; "job_status"; "job_elapsed_seconds"; "job_org_id"] in
  sample ← select_columns sample_columns df_recent_jobs;
  Return (output +:+ to_markdown (head 5 sample)).

(** Lines 32-72. *)
Definition get_jobs_run_summary (n_days : Z) : M state string :=
  g ← global;
  df ← deref g;
  if empty df then
    mret "No combined telemetry data available to analyze for jobs."
  else
    df_jobs ← copy g;
    raw ← getitem df_jobs "job_created_timestamp";
    _ ← setitem df_jobs "job_created_timestamp" (map time_cell (to_datetime raw));
    d ← deref df_jobs;
    df_filtered ← lift (dropna "job_created_timestamp" d);
    end_date ← datetime_now;
    let start_date := end_date - timedelta_days n_days in
    ts ← lift (get_column "job_created_timestamp" df_filtered);
    let df_recent_jobs :=
      filter_mask (zip_with andb (map (ge_time start_date) ts) (map (le_time end_date) ts))
                  df_filtered in
    if empty df_recent_jobs then
      mret ("No job data found in the last " +:+ Fmt.str_int n_days +:+ " days.")
    else
      lift (jobs_report n_days df_recent_jobs).

(** Line 88 on one element: the count as a number, 0 when it is none. *)
Definition count_or_zero (x : cell) : cell := fillna (VInt 0) (to_numeric x).

(** Line 90 on one element of the (stringified) module names. *)
Definition valid_module_name (x : cell) : bool :=
  notna x && ne_str "" x && ne_str "nan" x.

(** Lines 86-90: the cleaning of the three module columns, in place. *)
Definition clean_modules (df_modules : nat) : M state DataFrame :=
  c ← getitem df_modules "collection_name";
  _ ← setitem df_modules "collection_name" (map astype_str c);
  m ← getitem df_modules "module_name";
  _ ← setitem df_modules "module_name" (map astype_str m);
  n ← getitem df_modules "module_invocation_count";
  _ ← setitem df_modules "module_invocation_count" (map count_or_zero n);
  d ← deref df_modules;
  name ← lift (get_column "module_name" d);
  mret (filter_mask (map valid_module_name name) d).

(** Lines 95-96: the ranking. *)
Definition top_modules_of (top_n : Z) (df_clean : DataFrame) : outcome DataFrame :=
  grouped ← groupby_sum ["collection_name"; "module_name"] "module_invocation_count" df_clean;
  sorted ← sort_values "module_invocation_count" false grouped;
  Return (head top_n sorted).

(** Lines 74-100. *)
Definition get_top_modules_used (top_n : Z) : M state string :=
  g ← global;
  df ← deref g;
  if empty df then
    mret "No combined telemetry data available to analyze for modules."
  else
    df_modules ← copy g;
    d ← deref df_modules;
    if negb (has_column "collection_name" d) || negb (has_column "module_name" d)
       || negb (has_column "module_invocation_count" d)
    then
      mret "Missing 'collection_name', 'module_name', or 'module_invocation_count' in combined data for module analysis. Check the combined query in get_telesense_data.py."
    else
      df_clean ← clean_modules df_modules;
      if empty df_clean then
        mret "No valid module usage data after cleaning in combined data."
      else
        top_modules ← lift (top_modules_of top_n df_clean);
        mret ("## Top " +:+ Fmt.str_int top_n +:+ " Ansible Modules Used (Last Year):"
              +:+ nl +:+ nl +:+ to_markdown top_modules).

(** Lines 114-118: normalisation in place, then one row per cluster. *)
Definition unique_clusters (df_clusters : nat) : M state DataFrame :=
  flag ← getitem df_clusters "is_compliant";
  _ ← setitem df_clusters "is_compliant" (map (fun x => str_lower (astype_str x)) flag);
  d ← deref df_clusters;
  df_clusters_sorted ← lift (sort_values "job_created_date" false d);
  lift (drop_duplicates ["job_org_id"; "job_cluster_id"] df_clusters_sorted).

(** The three counts of lines 120-122. *)
Definition compliant_count (df_unique_clusters : DataFrame) : outcome Z :=
  flag ← get_column "is_compliant" df_unique_clusters;
  Return (shape0 (filter_mask (map (eq_str "true") flag) df_unique_clusters)).

Definition non_compliant_count (df_unique_clusters : DataFrame) : outcome Z :=
  flag ← get_column "is_compliant" df_unique_clusters;
  Return (shape0 (filter_mask (map (eq_str "false") flag) df_unique_clusters)).

Definition total_clusters (df_unique_clusters : DataFrame) : Z :=
  shape0 df_unique_clusters.

(** Lines 124-129: the summary lines. *)
Definition compliance_lines (total compliant non_compliant : Z) : string :=
  let output := "## Cluster Compliance Summary (Last Year):" +:+ nl +:+ nl in
  let output := output +:+ "- Total Unique Clusters Monitored: " +:+ Fmt.str_int total +:+ nl in
  let output := output +:+ "- Compliant Clusters: " +:+ Fmt.str_int compliant +:+ nl in
  let output := output +:+ "- Non-Compliant Clusters: " +:+ Fmt.str_int non_compliant +:+ nl in
  if 0 <? total
  then output +:+ "- Compliance Rate: " +:+ Fmt.pct2 (Fmt.true_div compliant total) +:+ nl
  else output.

(** Lines 131-134: the sample appended when a cluster is non-compliant. *)
Definition non_compliant_sample (non_compliant : Z) (df_unique_clusters : DataFrame)
  : outcome string :=
  if 0 <? non_compliant then
    let sample_cols :=
      List.filter (fun col => has_column col df_unique_clusters)
        ["job_org_id"; "job_cluster_id"; "tower_version"; "cluster_url"] in
    flag ← get_column "is_compliant" df_unique_clusters;
    sample ← select_columns sample_cols
               (filter_mask (map (eq_str "false") flag) df_unique_clusters);
    Return (nl +:+ "### Sample Non-Compliant Clusters:" +:+ nl +:+ to_markdown (head 3 sample))
  else Return "".

(** Lines 120-136. *)
Definition compliance_report (df_unique_clusters : DataFrame) : outcome string :=
  compliant ← compliant_count df_unique_clusters;
  non_compliant ← non_compliant_count df_unique_clusters;
  let total := total_clusters df_unique_clusters in
  sample ← non_compliant_sample non_compliant df_unique_clusters;
  Return (compliance_lines total compliant non_compliant +:+ sample).

(** Lines 102-136. *)
Definition get_cluster_compliance_summary : M state string :=
  g ← global;
  df ← deref g;
  if empty df then
    mret "No combined telemetry data available to analyze for cluster compliance."
  else
    df_clusters ← copy g;
    d ← deref df_clusters;
    if negb (has_column "is_compliant" d) then
      mret "Missing 'is_compliant' column in combined data for compliance analysis. Check query in get_telesense_data.py."
    else
      df_unique_clusters ← unique_clusters df_clusters;
      lift (compliance_report df_unique_clusters).

(** *** The reports as functions of the table

    What each report returns, written as a function of the table bound to
    [df_combined_telemetry] and of the clock; the stateful reports above are
    shown to return these values. *)

(** The rows of the window [[now - n_days, now]]: lines 40-49 on a table. *)
Definition recent_jobs_of (n_days now : Z) (df : DataFrame) : outcome DataFrame :=
  raw ← get_column "job_created_timestamp" df;
  d ← set_column "job_created_timestamp" (map time_cell (to_datetime raw)) df;
  df_filtered ← dropna "job_created_timestamp" d;
  let end_date := now in
  let start_date := end_date - timedelta_days n_days in
  ts ← get_column "job_created_timestamp" df_filtered;
  Return (filter_mask (zip_with andb (map (ge_time start_date) ts) (map (le_time end_date) ts))
                      df_filtered).

Definition jobs_summary_of (n_days now : Z) (df : DataFrame) : outcome string :=
  if empty df then
    Return "No combined telemetry data available to analyze for jobs."
  else
    df_recent_jobs ← recent_jobs_of n_days now df;
    if empty df_recent_jobs then
      Return ("No job data found in the last " +:+ Fmt.str_int n_days +:+ " days.")
    else jobs_report n_days df_recent_jobs.

(** The cleaned module rows: lines 86-90 on a table. *)
Definition clean_modules_of (df : DataFrame) : outcome DataFrame :=
  c ← get_column "collection_name" df;
  d1 ← set_column "collection_name" (map astype_str c) df;
  m ← get_column "module_name" d1;
  d2 ← set_column "module_name" (map astype_str m) d1;
  n ← get_column "module_invocation_count" d2;
  d3 ← set_column "module_invocation_count" (map count_or_zero n) d2;
  name ← get_column "module_name" d3;
  Return (filter_mask (map valid_module_name name) d3).

Definition top_modules_summary_of (top_n : Z) (df : DataFrame) : outcome string :=
  if empty df then
    Return "No combined telemetry data available to analyze for modules."
  else if negb (has_column "collection_name" df) || negb (has_column "module_name" df)
          || negb (has_column "module_invocation_count" df)
  then
    Return "Missing 'collection_name', 'module_name', or 'module_invocation_count' in combined data for module analysis. Check the combined query in get_telesense_data.py."
  else
    df_clean ← clean_modules_of df;
    if empty df_clean then
      Return "No valid module usage data after cleaning in combined data."
    else
      top_modules ← top_modules_of top_n df_clean;
      Return ("## Top " +:+ Fmt.str_int top_n +:+ " Ansible Modules Used (Last Year):"
              +:+ nl +:+ nl +:+ to_markdown top_modules).

(** The table with the compliance flag normalised: line 114 on a table. *)
Definition normalized_clusters_of (df : DataFrame) : outcome DataFrame :=
  flag ← get_column "is_compliant" df;
  set_column "is_compliant" (map (fun x => str_lower (astype_str x)) flag) df.

(** One row per cluster: lines 114-118 on a table. *)
Definition unique_clusters_of (df : DataFrame) : outcome DataFrame :=
  d ← normalized_clusters_of df;
  df_clusters_sorted ← sort_values "job_created_date" false d;
  drop_duplicates ["job_org_id"; "job_cluster_id"] df_clusters_sorted.

Definition compliance_summary_of (df : DataFrame) : outcome string :=
  if empty df then
    Return "No combined telemetry data available to analyze for cluster compliance."
  else if negb (has_column "is_compliant" df) then
    Return "Missing 'is_compliant' column in combined data for compliance analysis. Check query in get_telesense_data.py."
  else
    df_unique_clusters ← unique_clusters_of df;
    compliance_report df_unique_clusters.

End Reports.

(** The state with another heap, and with the clock at another time. *)
Definition with_heap (h : gmap nat DataFrame) (s : state) : state :=
  {| heap := h; df_combined_telemetry := df_combined_telemetry s; clock := clock s |}.

Definition at_time (now : Z) (s : state) : state :=
  {| heap := heap s; df_combined_telemetry := df_combined_telemetry s; clock := now |}.

(** The table the global name is bound to. *)
Definition table (s : state) : option DataFrame :=
  heap s !! df_combined_telemetry s.

(** [local_to r s s']: the state [s'] is reached from [s] by allocating and
    updating the one object [r], which [s] did not have. *)
Definition local_to (r : nat) (s s' : state) : Prop :=
  heap s !! r = None /\
  df_combined_telemetry s' = df_combined_telemetry s /\
  clock s' = clock s /\
  forall r', r' <> r -> heap s' !! r' = heap s !! r'.

(** [same_table s s']: the global name is bound to the same object, holding
    the same table, and the clock shows the same time. *)
Definition same_table (s s' : state) : Prop :=
  df_combined_telemetry s' = df_combined_telemetry s /\
  table s' = table s /\
  clock s' = clock s.

(** Two rows are of the same cluster: equal [job_org_id] and
    [job_cluster_id]. *)
Definition same_cluster (u v : gmap string cell) : bool :=
  keys_eqb (row_key ["job_org_id"; "job_cluster_id"] u)
           (row_key ["job_org_id"; "job_cluster_id"] v).

(** The row [u] is not older than the row [r]: [r] has no
    [job_created_date], or both have one and that of [r] is at most that
    of [u]. *)
Definition not_older (u r : gmap string cell) : bool :=
  match sort_key (row_get "job_created_date" r), sort_key (row_get "job_created_date" u) with
  | None, _ => true
  | Some kr, Some ku => skey_leb kr ku
  | Some _, None => false
  end.

(** A row with its compliance flag normalised: line 114 on one row. *)
Definition normalized_row `{Lib} (r : gmap string cell) : gmap string cell :=
  <["is_compliant" := str_lower (astype_str (row_get "is_compliant" r))]> r.

(** The rows of the window, said directly: the rows of [df] whose timestamp
    parses to a time [t] with [now - n_days <= t <= now], their timestamp
    replaced by [t]. *)
Definition in_window (n_days now : Z) (parsed : option Z) : bool :=
  match parsed with
  | Some t => (now - timedelta_days n_days <=? t) && (t <=? now)
  | None => false
  end.

Definition window_rows `{Lib} (n_days now : Z) (df : DataFrame)
  : list (gmap string cell) :=
  map (fun rp => <["job_created_timestamp" := time_cell rp.2]> rp.1)
      (List.filter (fun rp => in_window n_days now rp.2)
         (zip (rows df) (to_datetime (map (row_get "job_created_timestamp") (rows df))))).

(** The state right after the loader: the table is the only object. *)
Definition loaded (df : DataFrame) (now : Z) : state :=
  {| heap := {[ 0%nat := df ]}; df_combined_telemetry := 0%nat; clock := now |}.

End Analysis.

(** ** The extractor: [Telesense_data.py] *)
Module Extractor.

Definition DB_HOST : string := "host_name".
Definition DB_PORT : Z := 5439.
Definition DB_NAME : string := "db_name".
Definition DB_USER : string := "username".
Definition DB_PASSWORD : string := "password".

Definition CONNECT_TIMEOUT_SECONDS : Z := 60.
Definition STATEMENT_TIMEOUT_MS : Z := 120000.

Record query_details : Type := {
  query : string;
  description : string
}.

(** The dictionary of configured queries, in insertion order. *)
Definition TABLE_QUERIES : list (string * query_details) :=
  [ ("ansible_all_telemetry_combined_reliable",
     {| query := "
            SELECT
                aji.created AS job_created_timestamp,
                DATE(aji.created) AS job_created_date,
                aji.job_id,
                aji.job_name,
                aji.status AS job_status,
                aji.failed AS job_failed_flag,
                aji.elapsed AS job_elapsed_seconds,
                aji.launch_type,
                aji.org_id AS job_org_id,
                aji.cluster_id AS job_cluster_id,

                ajr.host_count AS job_host_count,
                ajr.ok_host_count AS job_ok_host_count,
                ajr.failed_host_count AS job_failed_host_count,
                ajr.host_task_count AS job_task_count,
                ajr.host_task_ok_count AS job_task_ok_count,
                ajr.host_task_failed_count AS job_task_failed_count,
                ajr.average_elapsed_per_host AS job_avg_elapsed_per_host,

                aci.tower_version,
                aci.license_type,
                aci.total_licensed_instances,
                aci.automated_instances AS cluster_automated_instances,
                aci.current_instances AS cluster_current_inventory_hosts,
                aci.is_compliant AS cluster_is_compliant,
                aci.subscription_name,
                aci.in_trial AS cluster_in_trial_flag,

                acm.url_base_value AS cluster_url,

                adhc.failed_hosts AS daily_host_failed_count,
                adhc.success_hosts AS daily_host_success_count,
                adhc.total_hosts AS daily_host_total_count,

                ahi.host_id AS daily_host_activity_id,
                ahi.created_date AS daily_host_activity_date,

                ahm.hostname AS host_metric_hostname,
                ahm.deleted AS host_metric_deleted_flag,
                ahm.automated_counter AS host_metric_automation_count,
                ahm.last_seen AS host_metric_last_seen,

                amr.collection_name,
                amr.module_name,
                amr.total_count AS module_invocation_count,

                alpf.rating_value AS lightspeed_feedback_rating,
                alpf.model_name AS lightspeed_feedback_model,

                alr.action AS lightspeed_recommendation_action,
                alr.collection_name AS lightspeed_rec_collection_name,
                alr.module_name AS lightspeed_rec_module_name,

                aed.final_global_customer_name AS customer_global_name,
                aed.entl_nodes_type,
                aed.entl_quantity AS customer_entitled_nodes,
                aed.startdate AS entitlement_start_date,
                aed.enddate AS entitlement_end_date,
                aed.status AS entitlement_status,
                aed.has_entl_info,
                aed.cyq

            FROM
                cee_insights.ansible_job_info aji
            LEFT JOIN
                cee_insights.ansible_job_rollup ajr ON aji.cluster_id = ajr.cluster_id AND aji.job_id = ajr.job_id
            LEFT JOIN
                cee_insights.ansible_cluster_info aci ON aji.cluster_id = aci.cluster_id AND DATE(aji.created) = DATE(aci.created_date)
            LEFT JOIN
                cee_insights.ansible_cluster_meta acm ON aji.cluster_id = acm.cluster_id
            LEFT JOIN
                cee_insights.ansible_daily_host_count adhc ON aji.org_id = adhc.org_id AND DATE(aji.created) = DATE(adhc.created_date)
            LEFT JOIN
                cee_insights.ansible_host_info ahi ON aji.org_id = ahi.org_id AND DATE(aji.created) = DATE(ahi.created_date)
            LEFT JOIN
                cee_insights.ansible_host_metrics ahm ON aji.cluster_id = ahm.cluster_id AND aji.org_id = ahm.org_id
            LEFT JOIN
                cee_insights.ansible_modules_rules amr ON aji.cluster_id = amr.cluster_id AND DATE(aji.created) = DATE(amr.created_date)
            LEFT JOIN
                cee_insights.ansible_lightspeed_product_feedback alpf ON aji.org_id = alpf.org_id AND DATE(alpf.created) = DATE(aji.created) -- Assuming date/org link
            LEFT JOIN
                cee_insights.ansible_lightspeed_recommendation alr ON aji.org_id = alr.org_id AND DATE(alr.created) = DATE(aji.created) -- Assuming date/org link
            LEFT JOIN
                cee_insights.ansible_entitlements_data aed ON aji.org_id = aed.ebs_account

            WHERE
                aji.created >= DATEADD(year, -1, CURRENT_DATE)
            LIMIT 50000;
        ";
        description := "Comprehensive, denormalized Ansible telemetry data: job execution, cluster, host, modules, Lightspeed, and entitlements." |}) ].

(** The keyword arguments of [psycopg2.connect]. *)
Record connect_args : Type := {
  host : string;
  port : Z;
  database : string;
  user : string;
  password : string;
  connect_timeout : Z;
  options : string
}.

(** The document [json.dump] receives. *)
Record snapshot : Type := {
  table_name : string;
  snapshot_description : string;
  data_schema : list (string * string);
  data_records : list (list (string * cell))
}.

(** How writing a file ends: the whole text is written; [open] fails and
    the file is untouched; or the dump fails after [open] truncated the file
    and part of the text reached it. *)
Inductive write_result : Type :=
| Written
| OpenFailed (e : exn)
| DumpFailed (e : exn) (partial : string).

(** What lies outside the process: the warehouse, the operating system and
    the libraries whose output is only passed on. *)
Class Outside : Type := {
  (** [psycopg2.connect(...)] raising, with its message *)
  connect_error : connect_args -> option string;
  (** what the iterator of [pd.read_sql(sql, conn, chunksize=n)] does, in
      order: yield a chunk, or raise (which ends it) *)
  read_sql : string -> Z -> list (string + DataFrame);
  (** [os.makedirs(path, exist_ok=True)] raising *)
  makedirs_error : string -> option string;
  (** [str(series.dtype)] *)
  dtype_name : list cell -> string;
  (** the text [json.dump(doc, f, indent=2, default=str)] writes *)
  json_dump : snapshot -> string;
  (** how writing that text to a path ends *)
  write_outcome : string -> string -> write_result
}.

(** What the process changes: the warehouse connections it holds, the lines
    printed, the directories and the files on disk. *)
Record world : Type := {
  open_conns : gset nat;
  stdout : list string;
  dirs : gset string;
  files : gmap string string
}.

Definition print (line : string) : M world unit :=
  modify (fun w => {| open_conns := open_conns w; stdout := stdout w ++ [line];
                      dirs := dirs w; files := files w |}).

(** [pd.DataFrame()] *)
Definition empty_frame : DataFrame := {| columns := []; rows := [] |}.

(** [pd.concat(frames, ignore_index=True)]: the columns in order of first
    appearance, the rows one frame after the other. *)
Definition concat_frames (frames : list DataFrame) : DataFrame :=
  {| columns := fold_left (fun acc k => if bool_decide (k ∈ acc) then acc else acc ++ [k])
                          (concat (map columns frames)) [];
     rows := concat (map rows frames) |}.

Section Run.
Context `{Outside}.

(** [psycopg2.connect(...)]: a new open connection, or an exception. *)
Definition connect (args : connect_args) : M world nat :=
  fun w =>
    match connect_error args with
    | Some msg => (Raise (DatabaseError msg), w)
    | None =>
        let c := fresh (open_conns w) in
        (Return c, {| open_conns := {[ c ]} ∪ open_conns w; stdout := stdout w;
                      dirs := dirs w; files := files w |})
    end.

(** [conn.close()] *)
Definition close (c : nat) : M world unit :=
  modify (fun w => {| open_conns := open_conns w ∖ {[ c ]}; stdout := stdout w;
                      dirs := dirs w; files := files w |}).

(** A function body runs on its local variable [conn] and the world. *)
Definition in_world {L A} (m : M world A) : M (L * world) A :=
  fun s =>
    match m s.2 with
    | (o, w') => (o, (s.1, w'))
    end.

Definition set_local {L} (v : L) : M (L * world) unit :=
  modify (fun s => (v, s.2)).

Definition get_local {L} : M (L * world) L :=
  fun s => (Return s.1, s).

(** Lines 131-133: the loop over the chunks of the result. *)
Fixpoint fetch_chunks (table_name : string) (i : Z) (events : list (string + DataFrame))
  (all_chunks : list DataFrame) : M world (list DataFrame) :=
  match events with
  | [] => mret all_chunks
  | inl msg :: _ => raise (DatabaseError msg)
  | inr chunk :: events' =>
      _ ← print ("  Fetched chunk " +:+ Fmt.str_int (i + 1) +:+ ": "
                 +:+ Fmt.str_int (shape0 chunk) +:+ " rows.");
      fetch_chunks table_name (i + 1) events' (all_chunks ++ [chunk])
  end.

(** Lines 117-146. *)
Definition fetch_data_from_redshift (query_sql table_name : string) (chunk_size : Z)
  : M world DataFrame :=
  fun w =>
    let body : M (option nat * world) DataFrame :=
      try_finally
        (try_except
           (c ← in_world (connect
                  {| host := DB_HOST; port := DB_PORT; database := DB_NAME;
                     user := DB_USER; password := DB_PASSWORD;
                     connect_timeout := CONNECT_TIMEOUT_SECONDS;
                     options := "-c statement_timeout=" +:+ Fmt.str_int STATEMENT_TIMEOUT_MS |});
            _ ← set_local (Some c);
            _ ← in_world (print ("Fetching data for '" +:+ table_name +:+ "' in chunks of "
                                 +:+ Fmt.str_int chunk_size +:+ "..."));
            all_chunks ← in_world (fetch_chunks table_name 0 (read_sql query_sql chunk_size) []);
            match all_chunks with
            | _ :: _ => mret (concat_frames all_chunks)
            | [] =>
                _ ← in_world (print ("No data fetched for '" +:+ table_name +:+ "'."));
                mret empty_frame
            end)
           (fun e =>
              _ ← in_world (print ("Error fetching data for '" +:+ table_name +:+ "': "
                                   +:+ message e));
              mret empty_frame))
        (conn ← get_local;
         match conn with
         | Some c => in_world (close c)
         | None => mret tt
         end) in
    match body (None, w) with
    | (o, (_, w')) => (o, w')
    end.

(** [os.makedirs(path, exist_ok=True)] *)
Definition makedirs (path : string) : M world unit :=
  fun w =>
    match makedirs_error path with
    | Some msg => (Raise (OSError msg), w)
    | None => (Return tt, {| open_conns := open_conns w; stdout := stdout w;
                             dirs := {[ path ]} ∪ dirs w; files := files w |})
    end.

(** [with open(path, 'w') as f: json.dump(doc, f, indent=2, default=str)] *)
Definition write_json (path : string) (doc : snapshot) : M world unit :=
  fun w =>
    let text := json_dump doc in
    let put content := {| open_conns := open_conns w; stdout := stdout w;
                          dirs := dirs w; files := <[path := content]> (files w) |} in
    match write_outcome path text with
    | Written => (Return tt, put text)
    | OpenFailed e => (Raise e, w)
    | DumpFailed e partial => (Raise e, put partial)
    end.

(** [os.path.join(a, b)] for a relative [b]. *)
Definition path_join (a b : string) : string := a +:+ "/" +:+ b.

(** [df.to_dict(orient='records')] *)
Definition to_dict_records (df : DataFrame) : list (list (string * cell)) :=
  map (fun r => map (fun c => (c, row_get c r)) (columns df)) (rows df).

(** Lines 163-168: the document written for a fetched table. *)
Definition snapshot_of (table_key : string) (details : query_details) (df : DataFrame)
  : snapshot :=
  {| table_name := table_key;
     snapshot_description := description details;
     data_schema := map (fun col => (col, dtype_name (map (row_get col) (rows df))))
                        (columns df);
     data_records := to_dict_records df |}.

(** Lines 157-178: the body of the loop over the configured queries. *)
Definition process_query (output_dir : string) (entry : string * query_details)
  : M world unit :=
  let table_key := entry.1 in
  let details := entry.2 in
  _ ← print (nl +:+ "--- Processing query: " +:+ table_key +:+ " ---");
  df ← fetch_data_from_redshift (query details) table_key 50000;
  if negb (empty df) then
    _ ← print ("Finished fetching all " +:+ Fmt.str_int (shape0 df) +:+ " rows for '"
               +:+ table_key +:+ "'.");
    let structured_entry := snapshot_of table_key details df in
    let output_filename := path_join output_dir (table_key +:+ "_data.json") in
    try_except
      (_ ← write_json output_filename structured_entry;
       print ("Saved data for '" +:+ table_key +:+ "' to '" +:+ output_filename
              +:+ "' successfully."))
      (fun e =>
         print ("Error saving data for '" +:+ table_key +:+ "' to file: "
                +:+ message e))
  else
    print ("No data fetched for '" +:+ table_key
           +:+ "' or an error occurred. Skipping file creation.").

(** Lines 149-180: the script. *)
Definition main : M world unit :=
  let output_dir := "telemetry_json_output" in
  _ ← makedirs output_dir;
  _ ← print "Starting Redshift data extraction...";
  _ ← print ("Output will be saved to '" +:+ output_dir +:+ "' directory.");
  _ ← for_each TABLE_QUERIES (process_query output_dir);
  print (nl +:+ "Data extraction process complete.").

(** *** What a fetch returns, said directly *)

(** The arguments the source connects with. *)
Definition the_connect_args : connect_args :=
  {| host := DB_HOST; port := DB_PORT; database := DB_NAME;
     user := DB_USER; password := DB_PASSWORD;
     connect_timeout := CONNECT_TIMEOUT_SECONDS;
     options := "-c statement_timeout=" +:+ Fmt.str_int STATEMENT_TIMEOUT_MS |}.

(** The chunks an iterator yields before it ends or raises, and the message
    it raises with, if it does. *)
Fixpoint yielded (events : list (string + DataFrame)) : list DataFrame :=
  match events with
  | inr chunk :: events' => chunk :: yielded events'
  | _ => []
  end.

Fixpoint first_error (events : list (string + DataFrame)) : option string :=
  match events with
  | [] => None
  | inl msg :: _ => Some msg
  | inr _ :: events' => first_error events'
  end.

(** The failure of a fetch, if the connection or the query fails. *)
Definition fetch_failure (query_sql : string) (chunk_size : Z) : option string :=
  match connect_error the_connect_args with
  | Some msg => Some msg
  | None => first_error (read_sql query_sql chunk_size)
  end.

(** The table a fetch returns: the chunks put together, or the empty table
    when there is a failure or no chunk. *)
Definition fetched (query_sql : string) (chunk_size : Z) : DataFrame :=
  match fetch_failure query_sql chunk_size with
  | Some _ => empty_frame
  | None =>
      match yielded (read_sql query_sql chunk_size) with
      | [] => empty_frame
      | chunks => concat_frames chunks
      end
  end.

(** The world with more lines printed. *)
Definition printed (lines : list string) (w : world) : world :=
  {| open_conns := open_conns w; stdout := stdout w ++ lines;
     dirs := dirs w; files := files w |}.

(** The files after a query was processed, said directly: as before when
    the fetched table is empty or the file cannot be opened; else the
    snapshot file holds what the dump wrote. *)
Definition files_after (output_dir : string) (entry : string * query_details)
  (fs : gmap string string) : gmap string string :=
  let df := fetched (query entry.2) 50000 in
  let path := path_join output_dir (entry.1 +:+ "_data.json") in
  if empty df then fs
  else match write_outcome path (json_dump (snapshot_of entry.1 entry.2 df)) with
       | Written => <[path := json_dump (snapshot_of entry.1 entry.2 df)]> fs
       | OpenFailed _ => fs
       | DumpFailed _ partial => <[path := partial]> fs
       end.

End Run.

(** The path of the snapshot of the one configured query, and its SQL. *)
Definition snapshot_path : string :=
  "telemetry_json_output/ansible_all_telemetry_combined_reliable_data.json".

Definition configured_sql : string :=
  match TABLE_QUERIES with
  | (_, details) :: _ => query details
  | [] => ""
  end.

End Extractor.

(** ** Concrete libraries and tables, to run the program on examples *)
Module Samples.

Import Analysis.

(** An integer is read as a timestamp in nanoseconds (as pandas reads it);
    nothing else is a time. *)
Definition epoch_ns (c : cell) : option Z :=
  match c with
  | VInt z => Some z
  | _ => None
  end.

(** A text of decimal digits, with an optional sign, denotes a number. *)
Definition decimal (s : string) : option Z :=
  Z.of_int <$> NilZero.int_of_string s.

Definition render_cell (c : cell) : string :=
  match c with
  | VNone => "None"
  | VNaN => "nan"
  | VNaT => "NaT"
  | VBool true => "True"
  | VBool false => "False"
  | VInt z => Fmt.str_int z
  | VStr s => s
  | VTime t => Fmt.str_int t
  end.

(** A table as lines of cells separated by bars, the header first. *)
Definition render (df : DataFrame) : string :=
  String.concat nl
    (String.concat "|" (columns df)
     :: map (fun r => String.concat "|" (map (fun c => render_cell (row_get c r)) (columns df)))
            (rows df)).

Definition lib : Lib :=
  {| to_datetime := map epoch_ns;
     to_datetime_length := fun col => length_map epoch_ns col;
     parse_number := decimal;
     timestamp_str := Fmt.str_int;
     to_markdown := render |}.

(** Two rows of one cluster, the older one not compliant. *)
Definition two_snapshots_of_one_cluster : DataFrame :=
  DataFrame_of_records
    [ [("job_org_id", VInt 1); ("job_cluster_id", VInt 9);
       ("job_created_date", VStr "2024-01-01"); ("is_compliant", VBool false)];
      [("job_org_id", VInt 1); ("job_cluster_id", VInt 9);
       ("job_created_date", VStr "2024-06-01"); ("is_compliant", VBool true)] ].

(** What is left of them: the row of June, its flag normalised. *)
Definition the_later_snapshot : DataFrame :=
  {| columns := ["job_org_id"; "job_cluster_id"; "job_created_date"; "is_compliant"];
     rows := [ list_to_map [("job_org_id", VInt 1); ("job_cluster_id", VInt 9);
                            ("job_created_date", VStr "2024-06-01");
                            ("is_compliant", VStr "true")] ] |}.

(** Three module rows: [(A,x,5)], [(A,x,3)], [(B,y,10)]. *)
Definition three_module_rows : DataFrame :=
  DataFrame_of_records
    [ [("collection_name", VStr "A"); ("module_name", VStr "x");
       ("module_invocation_count", VInt 5)];
      [("collection_name", VStr "A"); ("module_name", VStr "x");
       ("module_invocation_count", VInt 3)];
      [("collection_name", VStr "B"); ("module_name", VStr "y");
       ("module_invocation_count", VInt 10)] ].


(** A table without the column [job_created_timestamp]. *)
Definition only_job_status : DataFrame :=
  DataFrame_of_records [ [("job_status", VStr "successful")] ].

(** A table with the column [is_compliant] and without [job_created_date]. *)
Definition only_is_compliant : DataFrame :=
  DataFrame_of_records [ [("is_compliant", VBool true)] ].

(** Module rows of which one has a null module name:
    [{"collection_name": "A", "module_name": null, "module_invocation_count": 5}]
    and [{"collection_name": "A", "module_name": "x", "module_invocation_count": 1}]. *)
Definition null_module_name : DataFrame :=
  DataFrame_of_records
    [ [("collection_name", VStr "A"); ("module_name", VNone);
       ("module_invocation_count", VInt 5)];
      [("collection_name", VStr "A"); ("module_name", VStr "x");
       ("module_invocation_count", VInt 1)] ].

(** The ranking the report gives for them. *)
Definition ranked_None_then_x : DataFrame :=
  {| columns := ["collection_name"; "module_name"; "module_invocation_count"];
     rows := [ list_to_map [("collection_name", VStr "A"); ("module_name", VStr "None");
                            ("module_invocation_count", VInt 5)];
               list_to_map [("collection_name", VStr "A"); ("module_name", VStr "x");
                            ("module_invocation_count", VInt 1)] ] |}.

(** One job, created at time 0. *)
Definition one_job_at_zero : DataFrame :=
  DataFrame_of_records
    [ [("job_created_timestamp", VInt 0); ("job_status", VStr "successful")] ].

(** Three jobs: one created at the time [now], one a day before, one
    forty days before. *)
Definition three_jobs (now : Z) : DataFrame :=
  DataFrame_of_records
    [ [("job_created_timestamp", VInt now); ("job_status", VStr "successful")];
      [("job_created_timestamp", VInt (now - timedelta_days 1)); ("job_status", VStr "failed")];
      [("job_created_timestamp", VInt (now - timedelta_days 40));
       ("job_status", VStr "successful")] ].

(** Two clusters, the compliance flag of the second one null. *)
Definition one_flag_null : DataFrame :=
  DataFrame_of_records
    [ [("job_org_id", VInt 1); ("job_cluster_id", VInt 9);
       ("job_created_date", VStr "2024-06-01"); ("is_compliant", VBool true)];
      [("job_org_id", VInt 2); ("job_cluster_id", VInt 7);
       ("job_created_date", VStr "2024-05-01"); ("is_compliant", VNone)] ].

(** Its rows after normalisation and deduplication. *)
Definition one_flag_null_unique : DataFrame :=
  {| columns := ["job_org_id"; "job_cluster_id"; "job_created_date"; "is_compliant"];
     rows := [ list_to_map [("job_org_id", VInt 1); ("job_cluster_id", VInt 9);
                            ("job_created_date", VStr "2024-06-01");
                            ("is_compliant", VStr "true")];
               list_to_map [("job_org_id", VInt 2); ("job_cluster_id", VInt 7);
                            ("job_created_date", VStr "2024-05-01");
                            ("is_compliant", VStr "none")] ] |}.

(** A warehouse that refuses the connection. *)
Definition refusing_warehouse : Extractor.Outside :=
  {| Extractor.connect_error := fun _ => Some "connection refused";
     Extractor.read_sql := fun _ _ => [];
     Extractor.makedirs_error := fun _ => None;
     Extractor.dtype_name := fun _ => "object";
     Extractor.json_dump := fun doc => Extractor.table_name doc;
     Extractor.write_outcome := fun _ _ => Extractor.Written |}.

(** A warehouse that answers the query with one chunk of three rows. *)
Definition answering_warehouse : Extractor.Outside :=
  {| Extractor.connect_error := fun _ => None;
     Extractor.read_sql := fun _ _ => [inr three_module_rows];
     Extractor.makedirs_error := fun _ => None;
     Extractor.dtype_name := fun _ => "object";
     Extractor.json_dump := fun doc => Extractor.table_name doc;
     Extractor.write_outcome := fun _ _ => Extractor.Written |}.

(** A disk that holds a snapshot of an earlier run. *)
Definition world_with_snapshot : Extractor.world :=
  {| Extractor.open_conns := ∅;
     Extractor.stdout := [];
     Extractor.dirs := {[ "telemetry_json_output"%string ]};
     Extractor.files := {[ Extractor.snapshot_path := "earlier snapshot"%string ]} |}.

End Samples.

(** ** Notions the further properties are stated with *)
Module Notions.

Import Analysis.

(** Lines 86-88 on one row: both names as text, the count as a number. *)
Definition clean_row `{Lib} (r : gmap string cell) : gmap string cell :=
  <["module_invocation_count" := count_or_zero (row_get "module_invocation_count" r)]>
    (<["module_name" := astype_str (row_get "module_name" r)]>
       (<["collection_name" := astype_str (row_get "collection_name" r)]> r)).


Definition sum_list (l : list Z) : Z := foldr Z.add 0 l.

(** The rows whose [job_status] is the text [status]. *)
Definition with_status (status : string) (rs : list (gmap string cell))
  : list (gmap string cell) :=
  List.filter (fun r => eq_str status (row_get "job_status" r)) rs.

End Notions.

(** ** The reporter as a script: the loader and the main block *)
Module Script.

Import Analysis.

Definition DATA_DIR : string := "telemetry_json_output".
Definition COMBINED_JSON_FILENAME : string :=
  "ansible_all_telemetry_combined_reliable_data.json".
Definition COMBINED_JSON_PATH : string :=
  Extractor.path_join DATA_DIR COMBINED_JSON_FILENAME.

(** The values [json.load] yields. *)
#[warnings="-register-all"] Inductive json : Type :=
| JNull
| JNaN
| JBool (b : bool)
| JNum (z : Z)
| JStr (s : string)
| JArr (items : list json)
| JObj (fields : list (string * json)).

(** How [open(path)] followed by [json.load(f)] ends: a document, a
    [json.JSONDecodeError], or another exception. *)
Inductive load_result : Type :=
| Loaded (doc : json)
| JSONDecodeError
| LoadError (e : exn).

(** What the loader takes from outside the process. *)
Class Disk : Type := {
  (** [os.path.exists(path)] *)
  path_exists : string -> bool;
  (** opening and parsing the file at a path *)
  read_json : string -> load_result;
  (** [pd.DataFrame(items)] for a list that is not a list of flat records *)
  frame_of_items : list json -> outcome DataFrame
}.

(** [key in doc]: a key of an object, an element of a list, a part of a
    text; on other values [in] raises. *)
Definition contains (key : string) (doc : json) : outcome bool :=
  match doc with
  | JObj fields => Return (bool_decide (key ∈ map fst fields))
  | JArr items =>
      Return (existsb (fun j => match j with
                                | JStr s => bool_decide (s = key)
                                | _ => false
                                end) items)
  | JStr s => Return (bool_decide (is_Some (String.index 0 key s)))
  | _ => Raise (TypeError "argument is not iterable")
  end.

(** [doc[key]] for a text key: the value of an object's field (the last one
    given); lists and texts are not indexed by texts. *)
Definition subscript (key : string) (doc : json) : outcome json :=
  match doc with
  | JObj fields =>
      match List.find (fun kv => bool_decide (kv.1 = key)) (reverse fields) with
      | Some kv => Return kv.2
      | None => Raise (KeyError key)
      end
  | _ => Raise (TypeError "indices must be integers")
  end.

(** The cell a scalar becomes, and the record a flat object is. *)
Definition scalar (j : json) : option cell :=
  match j with
  | JNull => Some VNone
  | JNaN => Some VNaN
  | JBool b => Some (VBool b)
  | JNum z => Some (VInt z)
  | JStr s => Some (VStr s)
  | _ => None
  end.

Definition flat_record (j : json) : option (list (string * cell)) :=
  match j with
  | JObj fields => mapM (fun kv => v ← scalar kv.2; Some (kv.1, v)) fields
  | _ => None
  end.

(** Line 17: the list under ['data_records'], if the document has that key
    and its value is a list. *)
Definition data_records_of (combined_data : json) : outcome (option (list json)) :=
  present ← contains "data_records" combined_data;
  if (present : bool) then
    v ← subscript "data_records" combined_data;
    Return (match v with
            | JArr items => Some items
            | _ => None
            end)
  else Return None.

Section Run.
Context `{Lib} `{Disk}.

(** [pd.DataFrame(items)] *)
Definition DataFrame_of_items (items : list json) : outcome DataFrame :=
  match mapM flat_record items with
  | Some records => Return (DataFrame_of_records records)
  | None => frame_of_items items
  end.

Definition say (line : string) : M (list string) unit :=
  modify (fun out => out ++ [line]).

(** Lines 12-27: the table bound to [df_combined_telemetry] at start-up. *)
Definition load_table : M (list string) DataFrame :=
  let df_combined_telemetry := Extractor.empty_frame in
  if path_exists COMBINED_JSON_PATH then
    match read_json COMBINED_JSON_PATH with
    | Loaded combined_data =>
        try_except
          (records ← lift (data_records_of combined_data);
           match records with
           | Some items =>
               df ← lift (DataFrame_of_items items);
               _ ← say ("Successfully loaded " +:+ Fmt.str_int (shape0 df) +:+ " rows from "
                        +:+ COMBINED_JSON_PATH);
               mret df
           | None =>
               _ ← say ("Warning: 'data_records' key not found or not a list in "
                        +:+ COMBINED_JSON_PATH +:+ ". Check JSON structure.");
               mret df_combined_telemetry
           end)
          (fun e =>
             _ ← say ("Error loading combined data from " +:+ COMBINED_JSON_PATH +:+ ": "
                      +:+ message e);
             mret df_combined_telemetry)
    | JSONDecodeError =>
        _ ← say ("Error: Invalid JSON format in " +:+ COMBINED_JSON_PATH
                 +:+ ". File might be corrupted.");
        mret df_combined_telemetry
    | LoadError e =>
        _ ← say ("Error loading combined data from " +:+ COMBINED_JSON_PATH +:+ ": "
                 +:+ message e);
        mret df_combined_telemetry
    end
  else
    _ ← say ("Error: Combined JSON file '" +:+ COMBINED_JSON_PATH
             +:+ "' not found. Please run 'get_telesense_data.py' first.");
    mret df_combined_telemetry.

(** The main block runs on the interpreter state and the lines printed. *)
Definition print (line : string) : M (state * list string) unit :=
  modify (fun s => (s.1, s.2 ++ [line])).

Definition call {A} (m : M state A) : M (state * list string) A :=
  fun s =>
    match m s.1 with
    | (o, s') => (o, (s', s.2))
    end.

(** Lines 140-156. *)
Definition main : M (state * list string) unit :=
  _ ← print "--- Ansible Telemetry Analysis Tool ---";
  g ← call global;
  df ← call (deref g);
  _ ← (if empty df then
         print ("Please ensure 'get_telesense_data.py' was run successfully to create "
                +:+ "'" +:+ COMBINED_JSON_PATH +:+ "' before running analysis.")
       else
         r ← call (get_jobs_run_summary 30);
         _ ← print r;
         r ← call (get_top_modules_used 5);
         _ ← print r;
         r ← call get_cluster_compliance_summary;
         print r);
  print (nl +:+ "--- Analysis Complete ---").

(** The whole script, started at the time [now]: the loader, then the main
    block on the loaded table. *)
Definition script (now : Z) : outcome unit * (state * list string) :=
  match load_table [] with
  | (Return df, out) => main (loaded df now, out)
  | (Raise e, out) => (Raise e, (loaded Extractor.empty_frame now, out))
  end.

End Run.

End Script.

(** ** The columns a query returns *)
Module Sql.

(** The name of the result column an item of a select list ends with: its
    alias or column name, without the table qualifier and the comma. *)
Definition output_name (token : string) : string :=
  string_of_list_ascii
    (fold_left (fun name c =>
                  if Ascii.eqb c "." then []
                  else if Ascii.eqb c "," then name
                  else name ++ [c])
               (list_ascii_of_string token) []).

Definition ends_item (token : string) : bool :=
  match last (list_ascii_of_string token) with
  | Some c => Ascii.eqb c ","
  | None => false
  end.

(** The words between [SELECT] and [FROM]. *)
Fixpoint until_from (ts : list string) : list string :=
  match ts with
  | [] => []
  | t :: ts' => if String.eqb t "FROM" then [] else t :: until_from ts'
  end.

Fixpoint select_list (ts : list string) : list string :=
  match ts with
  | [] => []
  | t :: ts' => if String.eqb t "SELECT" then until_from ts' else select_list ts'
  end.

(** The last word of every item of the list: the words that end with a
    comma, and the last word of all. *)
Fixpoint item_ends (ts : list string) : list string :=
  match ts with
  | [] => []
  | [t] => [t]
  | t :: ts' => if ends_item t then t :: item_ends ts' else item_ends ts'
  end.

(** The column names of the result of [SELECT item, ..., item FROM ...],
    where every item is a column, or an expression with an alias. *)
Definition result_columns (sql : string) : list string :=
  map output_name (item_ends (select_list (String.words sql))).

End Sql.

(** ** Concrete disks, to run the loader on examples *)
Module Disks.

Import Script.

(** A disk without the snapshot file. *)
Definition no_file : Disk :=
  {| path_exists := fun _ => false;
     read_json := fun _ => LoadError (OSError "No such file or directory");
     frame_of_items := fun _ => Raise (ValueError "DataFrame constructor not properly called!") |}.

(** A disk whose snapshot file holds the document [doc]. *)
Definition holding (doc : json) : Disk :=
  {| path_exists := fun path => bool_decide (path = COMBINED_JSON_PATH);
     read_json := fun _ => Loaded doc;
     frame_of_items := fun _ => Raise (ValueError "DataFrame constructor not properly called!") |}.

(** One record of telemetry: a successful job on three hosts, created at
    time 0, of a compliant cluster, with one module used five times. *)
Definition one_record : json :=
  JObj [ ("job_created_timestamp", JNum 0); ("job_created_date", JStr "2024-06-01");
         ("job_name", JStr "deploy"); ("job_status", JStr "successful");
         ("job_host_count", JNum 3);
         ("job_org_id", JNum 1); ("job_cluster_id", JNum 9);
         ("is_compliant", JBool true);
         ("collection_name", JStr "A"); ("module_name", JStr "x");
         ("module_invocation_count", JNum 5) ].

(** A snapshot as the extractor lays it out, with that record. *)
Definition snapshot_document : json :=
  JObj [ ("table_name", JStr "ansible_all_telemetry_combined_reliable");
         ("description", JStr "Combined telemetry");
         ("data_schema", JObj [("job_status", JStr "object")]);
         ("data_records", JArr [one_record]) ].

(** The records alone, not wrapped in a snapshot. *)
Definition bare_list : json := JArr [one_record].

(** The table that record makes. *)
Definition one_record_table : DataFrame :=
  match mapM flat_record [one_record] with
  | Some records => DataFrame_of_records records
  | None => Extractor.empty_frame
  end.

(** A warehouse that answers with one chunk of three rows, on a disk that
    fills up while the snapshot is written. *)
Definition full_disk : Extractor.Outside :=
  {| Extractor.connect_error := fun _ => None;
     Extractor.read_sql := fun _ _ => [inr Samples.three_module_rows];
     Extractor.makedirs_error := fun _ => None;
     Extractor.dtype_name := fun _ => "object";
     Extractor.json_dump := fun doc => Extractor.table_name doc;
     Extractor.write_outcome :=
       fun _ _ => Extractor.DumpFailed (OSError "No space left on device") "{" |}.

(** A disk on which the output directory cannot be made. *)
Definition read_only : Extractor.Outside :=
  {| Extractor.connect_error := fun _ => None;
     Extractor.read_sql := fun _ _ => [inr Samples.three_module_rows];
     Extractor.makedirs_error := fun _ => Some "Read-only file system";
     Extractor.dtype_name := fun _ => "object";
     Extractor.json_dump := fun doc => Extractor.table_name doc;
     Extractor.write_outcome := fun _ _ => Extractor.Written |}.

End Disks.

(** * Properties of the reporter *)

Import Analysis.

(** ** Text *)

Lemma string_app_assoc (a b c : string) : (a +:+ b) +:+ c = a +:+ (b +:+ c).
Proof.
  induction a as [| x a IH]; [reflexivity |].
  change (String x ((a +:+ b) +:+ c) = String x (a +:+ (b +:+ c))).
  by rewrite IH.
Qed.

(** ** Running the monad *)

Lemma bind_run {S A B} (m : M S A) (k : A -> M S B) (s s' : S) (o : outcome A) :
  m s = (o, s') ->
  (m ≫= k) s = match o with
               | Return a => k a s'
               | Raise e => (Raise e, s')
               end.
Proof.
  intros Hm. unfold mbind, M_bind, Py.bind. rewrite Hm. by destruct o.
Qed.

Lemma bind_return {S A B} (m : M S A) (k : A -> M S B) (s s' : S) (a : A) :
  m s = (Return a, s') -> (m ≫= k) s = k a s'.
Proof. intros Hm. by rewrite (bind_run _ _ _ _ _ Hm). Qed.

Lemma lift_run {S A} (o : outcome A) (s : S) : lift o s = (o, s).
Proof. reflexivity. Qed.

Lemma deref_run (r : nat) (s : state) (df : DataFrame) :
  heap s !! r = Some df -> deref r s = (Return df, s).
Proof. intros Hr. unfold deref. by rewrite Hr. Qed.

Lemma store_run (r : nat) (df : DataFrame) (s : state) :
  store r df s = (Return tt, with_heap (<[r := df]> (heap s)) s).
Proof. reflexivity. Qed.

Lemma copy_run (r : nat) (s : state) (df : DataFrame) :
  heap s !! r = Some df ->
  copy r s = (Return (fresh (dom (heap s))),
              with_heap (<[fresh (dom (heap s)) := df]> (heap s)) s).
Proof.
  intros Hr. unfold copy.
  rewrite (bind_return _ _ _ _ _ (deref_run _ _ _ Hr)).
  reflexivity.
Qed.

Lemma getitem_run (r : nat) (c : string) (s : state) (df : DataFrame) :
  heap s !! r = Some df -> getitem r c s = (get_column c df, s).
Proof.
  intros Hr. unfold getitem.
  by rewrite (bind_return _ _ _ _ _ (deref_run _ _ _ Hr)).
Qed.

Lemma setitem_return (r : nat) (c : string) (values : list cell) (s : state)
  (df df' : DataFrame) :
  heap s !! r = Some df -> set_column c values df = Return df' ->
  setitem r c values s = (Return tt, with_heap (<[r := df']> (heap s)) s).
Proof.
  intros Hr Hset. unfold setitem.
  rewrite (bind_return _ _ _ _ _ (deref_run _ _ _ Hr)).
  rewrite (bind_run _ _ _ _ _ (lift_run _ _)). by rewrite Hset.
Qed.

Lemma setitem_raise (r : nat) (c : string) (values : list cell) (s : state)
  (df : DataFrame) (e : exn) :
  heap s !! r = Some df -> set_column c values df = Raise e ->
  setitem r c values s = (Raise e, s).
Proof.
  intros Hr Hset. unfold setitem.
  rewrite (bind_return _ _ _ _ _ (deref_run _ _ _ Hr)).
  rewrite (bind_run _ _ _ _ _ (lift_run _ _)). by rewrite Hset.
Qed.

(** ** The local copy *)

Lemma local_to_with_heap (r : nat) (s s' : state) (df : DataFrame) :
  local_to r s s' -> local_to r s (with_heap (<[r := df]> (heap s')) s').
Proof.
  intros (Hnew & Hg & Hc & Hother). repeat split; try done.
  intros r' Hr'. simpl. rewrite lookup_insert_ne; auto.
Qed.

Lemma local_to_table (r : nat) (s s' : state) (df : DataFrame) :
  table s = Some df -> local_to r s s' -> table s' = Some df.
Proof.
  unfold table. intros Ht (Hnew & Hg & Hc & Hother).
  rewrite Hg. rewrite Hother; [done |]. intros Heq. rewrite Heq in Ht. congruence.
Qed.

Lemma copy_local (s : state) (r : nat) (df : DataFrame) :
  heap s !! r = Some df ->
  let r' := fresh (dom (heap s)) in
  local_to r' s (with_heap (<[r' := df]> (heap s)) s).
Proof.
  intros Hr r'. repeat split; try done.
  - apply not_elem_of_dom, is_fresh.
  - intros r'' Hne. simpl. by rewrite lookup_insert_ne.
Qed.

(** ** Columns of a frame *)

Lemma get_column_present (c : string) (df : DataFrame) :
  has_column c df = true -> get_column c df = Return (map (row_get c) (rows df)).
Proof. intros Hc. unfold get_column. by rewrite Hc. Qed.

Lemma get_column_absent (c : string) (df : DataFrame) :
  has_column c df = false -> get_column c df = Raise (KeyError c).
Proof. intros Hc. unfold get_column. by rewrite Hc. Qed.

Lemma set_column_present (c : string) (values : list cell) (df : DataFrame) :
  has_column c df = true -> length values = length (rows df) ->
  set_column c values df =
    Return {| columns := columns df;
              rows := zip_with (fun r v => <[c := v]> r) (rows df) values |}.
Proof.
  intros Hc Hlen. unfold set_column.
  by rewrite bool_decide_eq_true_2, Hc.
Qed.

Lemma has_column_columns (c : string) (df df' : DataFrame) :
  columns df' = columns df -> has_column c df' = has_column c df.
Proof. intros Hcols. unfold has_column. by rewrite Hcols. Qed.

Lemma local_to_same_table (r : nat) (s s' : state) (df : DataFrame) :
  table s = Some df -> local_to r s s' -> same_table s s'.
Proof.
  intros Ht Hl. pose proof (local_to_table _ _ _ _ Ht Hl) as Ht'.
  destruct Hl as (_ & Hg & Hc & _). repeat split; [done | congruence | done].
Qed.

Lemma same_table_refl (s : state) : same_table s s.
Proof. by repeat split. Qed.

Lemma obind_return {A B} (a : A) (k : A -> outcome B) : (Return a ≫= k) = k a.
Proof. reflexivity. Qed.

Lemma obind_raise {A B} (e : exn) (k : A -> outcome B) : (Raise e ≫= k) = Raise e.
Proof. reflexivity. Qed.

(** ** The reports return the values of their functional forms *)

Section Runs.
Context `{Lib}.

Lemma get_jobs_run_summary_run (n_days : Z) (s : state) (df : DataFrame) :
  table s = Some df ->
  exists s', get_jobs_run_summary n_days s = (jobs_summary_of n_days (clock s) df, s')
             /\ same_table s s'.
Proof.
  intros Ht. unfold get_jobs_run_summary, jobs_summary_of.
  rewrite (bind_return global _ s s (df_combined_telemetry s)) by reflexivity.
  rewrite (bind_return _ _ _ _ _ (deref_run _ _ _ Ht)).
  destruct (empty df).
  { exists s. split; [reflexivity | apply same_table_refl]. }
  rewrite (bind_return _ _ _ _ _ (copy_run _ _ _ Ht)).
  pose proof (copy_local _ _ _ Ht) as Hloc. simpl in Hloc.
  set (r := fresh (dom (heap s))) in *.
  set (s1 := with_heap (<[r := df]> (heap s)) s) in *.
  assert (heap s1 !! r = Some df) as H1 by apply lookup_insert_eq.
  rewrite (bind_run _ _ _ _ _ (getitem_run _ _ _ _ H1)).
  unfold recent_jobs_of.
  destruct (get_column "job_created_timestamp" df) as [raw | e].
  2: { exists s1. split; [reflexivity | by eapply local_to_same_table]. }
  rewrite obind_return.
  destruct (set_column _ _ df) as [d | e] eqn:Hset.
  2: { rewrite (bind_run _ _ _ _ _ (setitem_raise _ _ _ _ _ _ H1 Hset)).
       exists s1. split; [reflexivity | by eapply local_to_same_table]. }
  rewrite (bind_return _ _ _ _ _ (setitem_return _ _ _ _ _ _ H1 Hset)).
  rewrite obind_return.
  pose proof (local_to_with_heap _ _ _ d Hloc) as Hloc2.
  set (s2 := with_heap (<[r := d]> (heap s1)) s1) in *.
  assert (heap s2 !! r = Some d) as H2 by apply lookup_insert_eq.
  rewrite (bind_return _ _ _ _ _ (deref_run _ _ _ H2)).
  rewrite (bind_run _ _ _ _ _ (lift_run _ _)).
  destruct (dropna _ d) as [df_filtered | e].
  2: { exists s2. split; [reflexivity | by eapply local_to_same_table]. }
  rewrite obind_return.
  rewrite (bind_return datetime_now _ s2 s2 (clock s2)) by reflexivity.
  rewrite (bind_run _ _ _ _ _ (lift_run _ _)).
  change (clock s2) with (clock s).
  destruct (get_column _ df_filtered) as [ts | e].
  2: { exists s2. split; [reflexivity | by eapply local_to_same_table]. }
  rewrite !obind_return.
  exists s2. split; [| by eapply local_to_same_table].
  by destruct (empty _).
Qed.

Lemma clean_modules_run (r : nat) (s0 s : state) (df : DataFrame) :
  local_to r s0 s -> heap s !! r = Some df ->
  exists s', clean_modules r s = (clean_modules_of df, s') /\ local_to r s0 s'.
Proof.
  intros Hloc H0. unfold clean_modules, clean_modules_of.
  rewrite (bind_run _ _ _ _ _ (getitem_run _ _ _ _ H0)).
  destruct (get_column "collection_name" df) as [c | e]; [| by exists s].
  rewrite obind_return.
  destruct (set_column "collection_name" _ df) as [d1 | e] eqn:Hset1.
  2: { rewrite (bind_run _ _ _ _ _ (setitem_raise _ _ _ _ _ _ H0 Hset1)). by exists s. }
  rewrite (bind_return _ _ _ _ _ (setitem_return _ _ _ _ _ _ H0 Hset1)), obind_return.
  pose proof (local_to_with_heap _ _ _ d1 Hloc) as Hloc1.
  set (s1 := with_heap (<[r := d1]> (heap s)) s) in *.
  assert (heap s1 !! r = Some d1) as H1 by apply lookup_insert_eq.
  rewrite (bind_run _ _ _ _ _ (getitem_run _ _ _ _ H1)).
  destruct (get_column "module_name" d1) as [m | e]; [| by exists s1].
  rewrite obind_return.
  destruct (set_column "module_name" _ d1) as [d2 | e] eqn:Hset2.
  2: { rewrite (bind_run _ _ _ _ _ (setitem_raise _ _ _ _ _ _ H1 Hset2)). by exists s1. }
  rewrite (bind_return _ _ _ _ _ (setitem_return _ _ _ _ _ _ H1 Hset2)), obind_return.
  pose proof (local_to_with_heap _ _ _ d2 Hloc1) as Hloc2.
  set (s2 := with_heap (<[r := d2]> (heap s1)) s1) in *.
  assert (heap s2 !! r = Some d2) as H2 by apply lookup_insert_eq.
  rewrite (bind_run _ _ _ _ _ (getitem_run _ _ _ _ H2)).
  destruct (get_column "module_invocation_count" d2) as [n | e]; [| by exists s2].
  rewrite obind_return.
  destruct (set_column "module_invocation_count" _ d2) as [d3 | e] eqn:Hset3.
  2: { rewrite (bind_run _ _ _ _ _ (setitem_raise _ _ _ _ _ _ H2 Hset3)). by exists s2. }
  rewrite (bind_return _ _ _ _ _ (setitem_return _ _ _ _ _ _ H2 Hset3)), obind_return.
  pose proof (local_to_with_heap _ _ _ d3 Hloc2) as Hloc3.
  set (s3 := with_heap (<[r := d3]> (heap s2)) s2) in *.
  assert (heap s3 !! r = Some d3) as H3 by apply lookup_insert_eq.
  rewrite (bind_return _ _ _ _ _ (deref_run _ _ _ H3)).
  rewrite (bind_run _ _ _ _ _ (lift_run _ _)).
  exists s3. split; [| done].
  by destruct (get_column "module_name" d3).
Qed.

Lemma get_top_modules_used_run (top_n : Z) (s : state) (df : DataFrame) :
  table s = Some df ->
  exists s', get_top_modules_used top_n s = (top_modules_summary_of top_n df, s')
             /\ same_table s s'.
Proof.
  intros Ht. unfold get_top_modules_used, top_modules_summary_of.
  rewrite (bind_return global _ s s (df_combined_telemetry s)) by reflexivity.
  rewrite (bind_return _ _ _ _ _ (deref_run _ _ _ Ht)).
  destruct (empty df).
  { exists s. split; [reflexivity | apply same_table_refl]. }
  rewrite (bind_return _ _ _ _ _ (copy_run _ _ _ Ht)).
  pose proof (copy_local _ _ _ Ht) as Hloc. simpl in Hloc.
  set (r := fresh (dom (heap s))) in *.
  set (s1 := with_heap (<[r := df]> (heap s)) s) in *.
  assert (heap s1 !! r = Some df) as H1 by apply lookup_insert_eq.
  rewrite (bind_return _ _ _ _ _ (deref_run _ _ _ H1)).
  destruct (negb _ || negb _ || negb _).
  { exists s1. split; [reflexivity | by eapply local_to_same_table]. }
  destruct (clean_modules_run _ _ _ _ Hloc H1) as (s2 & Hrun & Hloc2).
  rewrite (bind_run _ _ _ _ _ Hrun).
  destruct (clean_modules_of df) as [df_clean | e].
  2: { exists s2. split; [reflexivity | by eapply local_to_same_table]. }
  rewrite obind_return.
  destruct (empty df_clean).
  { exists s2. split; [reflexivity | by eapply local_to_same_table]. }
  rewrite (bind_run _ _ _ _ _ (lift_run _ _)).
  exists s2. split; [| by eapply local_to_same_table].
  by destruct (top_modules_of top_n df_clean).
Qed.

Lemma unique_clusters_run (r : nat) (s0 s : state) (df : DataFrame) :
  local_to r s0 s -> heap s !! r = Some df ->
  exists s', unique_clusters r s = (unique_clusters_of df, s') /\ local_to r s0 s'.
Proof.
  intros Hloc H0. unfold unique_clusters, unique_clusters_of, normalized_clusters_of.
  rewrite (bind_run _ _ _ _ _ (getitem_run _ _ _ _ H0)).
  destruct (get_column "is_compliant" df) as [flag | e]; [| by exists s].
  rewrite obind_return.
  destruct (set_column "is_compliant" _ df) as [d | e] eqn:Hset.
  2: { rewrite (bind_run _ _ _ _ _ (setitem_raise _ _ _ _ _ _ H0 Hset)). by exists s. }
  rewrite (bind_return _ _ _ _ _ (setitem_return _ _ _ _ _ _ H0 Hset)), obind_return.
  pose proof (local_to_with_heap _ _ _ d Hloc) as Hloc1.
  set (s1 := with_heap (<[r := d]> (heap s)) s) in *.
  assert (heap s1 !! r = Some d) as H1 by apply lookup_insert_eq.
  rewrite (bind_return _ _ _ _ _ (deref_run _ _ _ H1)).
  rewrite (bind_run _ _ _ _ _ (lift_run _ _)).
  exists s1. split; [| done].
  by destruct (sort_values "job_created_date" false d).
Qed.

Lemma get_cluster_compliance_summary_run (s : state) (df : DataFrame) :
  table s = Some df ->
  exists s', get_cluster_compliance_summary s = (compliance_summary_of df, s')
             /\ same_table s s'.
Proof.
  intros Ht. unfold get_cluster_compliance_summary, compliance_summary_of.
  rewrite (bind_return global _ s s (df_combined_telemetry s)) by reflexivity.
  rewrite (bind_return _ _ _ _ _ (deref_run _ _ _ Ht)).
  destruct (empty df).
  { exists s. split; [reflexivity | apply same_table_refl]. }
  rewrite (bind_return _ _ _ _ _ (copy_run _ _ _ Ht)).
  pose proof (copy_local _ _ _ Ht) as Hloc. simpl in Hloc.
  set (r := fresh (dom (heap s))) in *.
  set (s1 := with_heap (<[r := df]> (heap s)) s) in *.
  assert (heap s1 !! r = Some df) as H1 by apply lookup_insert_eq.
  rewrite (bind_return _ _ _ _ _ (deref_run _ _ _ H1)).
  destruct (negb _).
  { exists s1. split; [reflexivity | by eapply local_to_same_table]. }
  destruct (unique_clusters_run _ _ _ _ Hloc H1) as (s2 & Hrun & Hloc2).
  rewrite (bind_run _ _ _ _ _ Hrun).
  exists s2. split; [| by eapply local_to_same_table].
  by destruct (unique_clusters_of df).
Qed.

End Runs.

(** ** Missing columns (C1) *)

(** C1 (the code departs from the claim).  The claim says that a report on a
    non-empty table that lacks a column the report requires returns an error
    text and never raises.  The module report does so, and the compliance
    report does so for [is_compliant]; but the jobs report on a non-empty
    table without [job_created_timestamp] raises [KeyError], and so does the
    compliance report on a non-empty table that has [is_compliant] and lacks
    [job_created_date]. *)
Theorem missing_column_raises_KeyError `{Lib} (s : state) (df : DataFrame) (n_days : Z) :
  table s = Some df ->
  empty df = false ->
  (has_column "job_created_timestamp" df = false ->
   (get_jobs_run_summary n_days s).1 = Raise (KeyError "job_created_timestamp"))
  /\ (has_column "is_compliant" df = true ->
      has_column "job_created_date" df = false ->
      (get_cluster_compliance_summary s).1 = Raise (KeyError "job_created_date")).
Proof.
  intros Ht Hne. split.
  - intros Hcol.
    destruct (get_jobs_run_summary_run n_days s df Ht) as (s' & -> & _). simpl.
    unfold jobs_summary_of, recent_jobs_of, get_column. by rewrite Hne, Hcol.
  - intros Hflag Hdate.
    destruct (get_cluster_compliance_summary_run s df Ht) as (s' & -> & _).
    cbn [fst].
    unfold compliance_summary_of, unique_clusters_of, normalized_clusters_of.
    rewrite Hne, Hflag. cbn [negb].
    rewrite (get_column_present _ _ Hflag), obind_return.
    rewrite (set_column_present _ _ _ Hflag) by (by rewrite !length_map).
    rewrite obind_return. unfold sort_values.
    rewrite (has_column_columns _ df) by reflexivity.
    by rewrite Hdate.
Qed.

Lemma missing_column_raises_KeyError_witness :
  (get_jobs_run_summary (H := Samples.lib) 30 (loaded Samples.only_job_status 0)).1
    = Raise (KeyError "job_created_timestamp")
  /\ (get_cluster_compliance_summary (H := Samples.lib) (loaded Samples.only_is_compliant 0)).1
     = Raise (KeyError "job_created_date").
Proof.
  split.
  - apply (missing_column_raises_KeyError (H := Samples.lib)
             (loaded Samples.only_job_status 0) Samples.only_job_status 30);
      reflexivity.
  - apply (missing_column_raises_KeyError (H := Samples.lib)
             (loaded Samples.only_is_compliant 0) Samples.only_is_compliant 30);
      reflexivity.
Defined.

(** ** The loaded table is never changed (C8) *)

(** C8.  No call of a report changes the table bound to
    [df_combined_telemetry]: after the call the global name is bound to the
    same object and the object holds the same table, whether the report
    returned or raised.  In particular the module report on a non-empty
    table without [module_name] returns its error text and leaves the table
    as it was. *)
Theorem reports_leave_loaded_table_unchanged `{Lib}
  (s : state) (df : DataFrame) (n_days top_n : Z) :
  table s = Some df ->
  (table (get_jobs_run_summary n_days s).2 = Some df
   /\ df_combined_telemetry (get_jobs_run_summary n_days s).2 = df_combined_telemetry s)
  /\ (table (get_top_modules_used top_n s).2 = Some df
      /\ df_combined_telemetry (get_top_modules_used top_n s).2 = df_combined_telemetry s)
  /\ (table (get_cluster_compliance_summary s).2 = Some df
      /\ df_combined_telemetry (get_cluster_compliance_summary s).2 = df_combined_telemetry s)
  /\ (empty df = false -> has_column "module_name" df = false ->
      (get_top_modules_used top_n s).1 =
        Return "Missing 'collection_name', 'module_name', or 'module_invocation_count' in combined data for module analysis. Check the combined query in get_telesense_data.py.").
Proof.
  intros Ht.
  destruct (get_jobs_run_summary_run n_days s df Ht) as (s1 & -> & Hg1 & Ht1 & _).
  destruct (get_top_modules_used_run top_n s df Ht) as (s2 & -> & Hg2 & Ht2 & _).
  destruct (get_cluster_compliance_summary_run s df Ht) as (s3 & -> & Hg3 & Ht3 & _).
  cbn [fst snd]. repeat split; try congruence.
  intros Hne Hcol. unfold top_modules_summary_of.
  rewrite Hne, Hcol. cbn [negb]. by rewrite orb_true_r.
Qed.

Lemma reports_leave_loaded_table_unchanged_witness :
  table (loaded Samples.only_job_status 0) = Some Samples.only_job_status
  /\ table (get_top_modules_used (H := Samples.lib) 10 (loaded Samples.only_job_status 0)).2
     = Some Samples.only_job_status
  /\ (get_top_modules_used (H := Samples.lib) 10 (loaded Samples.only_job_status 0)).1
     = Return "Missing 'collection_name', 'module_name', or 'module_invocation_count' in combined data for module analysis. Check the combined query in get_telesense_data.py.".
Proof.
  assert (table (loaded Samples.only_job_status 0) = Some Samples.only_job_status) as Ht
    by reflexivity.
  split; [exact Ht |].
  pose proof (reports_leave_loaded_table_unchanged (H := Samples.lib)
                (loaded Samples.only_job_status 0) Samples.only_job_status 30 10 Ht)
    as (_ & (Hm & _) & _ & Herr).
  split; [exact Hm | apply Herr; reflexivity].
Defined.

(** ** Calling a report twice (C9) *)

(** C9, as stated, fails for the jobs report: its window ends at the time
    the clock shows when it is called.  A job created at time 0 is in the
    window of one day when the clock shows exactly one day, and out of it one
    nanosecond later, on the same table with the same parameter. *)
Lemma jobs_report_twice_differs :
  let first := get_jobs_run_summary (H := Samples.lib) 1
                 (loaded Samples.one_job_at_zero (timedelta_days 1)) in
  let second := get_jobs_run_summary (H := Samples.lib) 1
                  (at_time (timedelta_days 1 + 1) first.2) in
  table first.2 = table (loaded Samples.one_job_at_zero (timedelta_days 1))
  /\ table (at_time (timedelta_days 1 + 1) first.2) = table first.2
  /\ first.1 <> second.1.
Proof.
  vm_compute. repeat split; discriminate.
Qed.

(** C9 (amended).  Called twice on the same table with the same parameter,
    whatever time passes between the two calls, the module report and the
    compliance report return the same text (or raise the same exception);
    the jobs report does so when the clock shows the same time at both
    calls. *)
Theorem reports_twice_same_output `{Lib}
  (s : state) (df : DataFrame) (n_days top_n now' : Z) :
  table s = Some df ->
  (get_top_modules_used top_n (at_time now' (get_top_modules_used top_n s).2)).1
    = (get_top_modules_used top_n s).1
  /\ (get_cluster_compliance_summary (at_time now' (get_cluster_compliance_summary s).2)).1
     = (get_cluster_compliance_summary s).1
  /\ (now' = clock s ->
      (get_jobs_run_summary n_days (at_time now' (get_jobs_run_summary n_days s).2)).1
      = (get_jobs_run_summary n_days s).1).
Proof.
  intros Ht.
  assert (forall s', same_table s s' -> table (at_time now' s') = Some df) as Hat.
  { intros s' (_ & Ht' & _). unfold table in *. simpl. congruence. }
  split; [| split].
  - destruct (get_top_modules_used_run top_n s df Ht) as (s1 & -> & Hs1).
    cbn [fst snd].
    by destruct (get_top_modules_used_run top_n _ df (Hat _ Hs1)) as (s2 & -> & _).
  - destruct (get_cluster_compliance_summary_run s df Ht) as (s1 & -> & Hs1).
    cbn [fst snd].
    by destruct (get_cluster_compliance_summary_run _ df (Hat _ Hs1)) as (s2 & -> & _).
  - intros ->.
    destruct (get_jobs_run_summary_run n_days s df Ht) as (s1 & -> & Hs1).
    cbn [fst snd].
    by destruct (get_jobs_run_summary_run n_days _ df (Hat _ Hs1)) as (s2 & -> & _).
Qed.

Lemma reports_twice_same_output_witness :
  table (loaded Samples.one_job_at_zero 7) = Some Samples.one_job_at_zero
  /\ (get_top_modules_used (H := Samples.lib) 2
        (at_time 7 (get_top_modules_used (H := Samples.lib) 2
                      (loaded Samples.one_job_at_zero 7)).2)).1
     = (get_top_modules_used (H := Samples.lib) 2 (loaded Samples.one_job_at_zero 7)).1
  /\ (get_cluster_compliance_summary (H := Samples.lib)
        (at_time 7 (get_cluster_compliance_summary (H := Samples.lib)
                      (loaded Samples.one_job_at_zero 7)).2)).1
     = (get_cluster_compliance_summary (H := Samples.lib) (loaded Samples.one_job_at_zero 7)).1
  /\ (get_jobs_run_summary (H := Samples.lib) 30
        (at_time 7 (get_jobs_run_summary (H := Samples.lib) 30
                      (loaded Samples.one_job_at_zero 7)).2)).1
     = (get_jobs_run_summary (H := Samples.lib) 30 (loaded Samples.one_job_at_zero 7)).1.
Proof.
  assert (table (loaded Samples.one_job_at_zero 7) = Some Samples.one_job_at_zero) as Ht
    by reflexivity.
  split; [exact Ht |].
  destruct (reports_twice_same_output (H := Samples.lib)
              (loaded Samples.one_job_at_zero 7) Samples.one_job_at_zero 30 2 7 Ht)
    as (Hm & Hc & Hj).
  split; [exact Hm |]. split; [exact Hc |]. apply Hj. reflexivity.
Defined.

(** ** The examples of the specification, run *)

(** C5 (the code departs from the claim).  The claim says that a row whose
    module name is null is left out of the grouping.  The source turns the
    column into text before it tests for nulls, so the null [None] of a text
    column has become the text ['None'], which passes the three tests: on the
    rows [(A, null, 5)] and [(A, x, 1)] the ranking has a group for the
    module ['None'] with count 5.  The rest of the claim holds: a missing
    field ([nan]), the empty text and the text ['nan'] fail the tests, and a
    count that is missing or is a text denoting no number counts as 0. *)
Theorem null_module_name_is_ranked `{Lib} (s : state) :
  table s = Some Samples.null_module_name ->
  (get_top_modules_used 10 s).1 =
    Return ("## Top 10 Ansible Modules Used (Last Year):" +:+ nl +:+ nl
            +:+ to_markdown Samples.ranked_None_then_x)
  /\ valid_module_name (astype_str VNone) = true
  /\ valid_module_name (astype_str VNaN) = false
  /\ valid_module_name (astype_str (VStr "")) = false
  /\ valid_module_name (astype_str (VStr "nan")) = false
  /\ count_or_zero VNone = VInt 0
  /\ count_or_zero VNaN = VInt 0
  /\ (forall text, parse_number text = None -> count_or_zero (VStr text) = VInt 0)
  /\ (forall z, count_or_zero (VInt z) = VInt z).
Proof.
  intros Ht. split.
  - destruct (get_top_modules_used_run 10 s _ Ht) as (s' & -> & _).
    cbn [fst]. vm_compute. reflexivity.
  - repeat split; try reflexivity.
    intros text Hparse. unfold count_or_zero, to_numeric. by rewrite Hparse.
Qed.

Lemma null_module_name_is_ranked_witness :
  table (loaded Samples.null_module_name 0) = Some Samples.null_module_name
  /\ (get_top_modules_used (H := Samples.lib) 10 (loaded Samples.null_module_name 0)).1 =
     Return ("## Top 10 Ansible Modules Used (Last Year):" +:+ nl +:+ nl
             +:+ to_markdown (Lib := Samples.lib) Samples.ranked_None_then_x).
Proof.
  split; [reflexivity |].
  apply (null_module_name_is_ranked (H := Samples.lib)). reflexivity.
Defined.

(** ** The window of the jobs report (C4) *)

Lemma row_get_insert (c : string) (v : cell) (r : gmap string cell) :
  row_get c (<[c := v]> r) = v.
Proof. unfold row_get. by rewrite lookup_insert_eq. Qed.

Lemma notna_time_cell (p : option Z) : notna (time_cell p) = bool_decide (is_Some p).
Proof. by destruct p. Qed.

(** The rows lines 40-49 keep, computed on lists. *)
Lemma window_rows_lists (start_date end_date : Z)
  (rs : list (gmap string cell)) (parsed : list (option Z)) :
  let c := "job_created_timestamp"%string in
  let d := zip_with (fun r v => <[c := v]> r) rs (map time_cell parsed) in
  let filtered := map fst (List.filter snd (zip d (map notna (map (row_get c) d)))) in
  let ts := map (row_get c) filtered in
  map fst (List.filter snd
             (zip filtered
                  (zip_with andb (map (ge_time start_date) ts) (map (le_time end_date) ts))))
  = map (fun rp => <[c := time_cell rp.2]> rp.1)
        (List.filter (fun rp => match rp.2 with
                                | Some t => (start_date <=? t) && (t <=? end_date)
                                | None => false
                                end) (zip rs parsed)).
Proof.
  intros c. revert parsed.
  induction rs as [| r rs IH]; intros [| p parsed]; try reflexivity.
  specialize (IH parsed). cbn zeta in IH.
  cbn [map zip_with zip List.filter fst snd].
  rewrite row_get_insert.
  destruct p as [t |]; cbn [time_cell notna isna negb List.filter map fst snd zip_with zip].
  - rewrite row_get_insert. cbn [ge_time le_time].
    destruct ((start_date <=? t) && (t <=? end_date)); cbn [map fst snd];
      by rewrite IH.
  - apply IH.
Qed.

Lemma recent_jobs_of_window `{Lib} (n_days now : Z) (df : DataFrame) :
  has_column "job_created_timestamp" df = true ->
  recent_jobs_of n_days now df =
    Return {| columns := columns df; rows := window_rows n_days now df |}.
Proof.
  intros Hc. unfold recent_jobs_of.
  rewrite (get_column_present _ _ Hc), obind_return.
  rewrite (set_column_present _ _ _ Hc)
    by (by rewrite length_map, to_datetime_length, length_map).
  rewrite obind_return. unfold dropna.
  rewrite get_column_present by (by rewrite (has_column_columns _ df)).
  rewrite obind_return, obind_return.
  rewrite get_column_present by (by rewrite (has_column_columns _ df)).
  rewrite obind_return. unfold filter_mask. cbn [rows columns].
  f_equal. f_equal. apply window_rows_lists.
Qed.




(** ** The counts of the compliance report (C10) *)

Lemma filter_mask_lists {A} (f : A -> bool) (l : list A) :
  map fst (List.filter snd (zip l (map f l))) = List.filter f l.
Proof.
  induction l as [| x l IH]; [reflexivity |].
  cbn [map zip zip_with List.filter snd]. fold (zip l (map f l)).
  destruct (f x); cbn [map fst]; by rewrite IH.
Qed.

Lemma filter_mask_column (f : cell -> bool) (c : string) (df : DataFrame) :
  rows (filter_mask (map f (map (row_get c) (rows df))) df)
  = List.filter (fun r => f (row_get c r)) (rows df).
Proof.
  unfold filter_mask. cbn [rows]. rewrite map_map.
  apply (filter_mask_lists (fun r => f (row_get c r))).
Qed.

Lemma filter_disjoint_length {A} (p q : A -> bool) (l : list A) :
  (forall x, p x = true -> q x = false) ->
  (length (List.filter p l) + length (List.filter q l) <= length l)%nat
  /\ ((exists x, In x l /\ p x = false /\ q x = false) ->
      (length (List.filter p l) + length (List.filter q l) < length l)%nat).
Proof.
  intros Hpq. induction l as [| x l [IHle IHlt]].
  - split; [done |]. by intros (x & [] & _).
  - cbn [List.filter length].
    destruct (p x) eqn:Hp, (q x) eqn:Hq; cbn [length].
    + by rewrite (Hpq x Hp) in Hq.
    + split; [lia |]. intros (y & [-> | Hy] & Hpy & Hqy); [congruence |].
      assert (length (List.filter p l) + length (List.filter q l) < length l)%nat
        by (apply IHlt; eauto). lia.
    + split; [lia |]. intros (y & [-> | Hy] & Hpy & Hqy); [congruence |].
      assert (length (List.filter p l) + length (List.filter q l) < length l)%nat
        by (apply IHlt; eauto). lia.
    + split; [lia |]. intros _. lia.
Qed.

Lemma select_columns_present (cols : list string) (df : DataFrame) :
  exists sample, select_columns (List.filter (fun c => has_column c df) cols) df = Return sample.
Proof.
  unfold select_columns.
  assert (List.filter (fun c => negb (has_column c df))
            (List.filter (fun c => has_column c df) cols) = []) as ->; [| by eexists].
  induction cols as [| c cols IH]; [reflexivity |].
  cbn [List.filter]. destruct (has_column c df) eqn:Hc; [| done].
  cbn [List.filter]. by rewrite Hc.
Qed.

Lemma unique_clusters_of_columns `{Lib} (df uniq : DataFrame) :
  has_column "is_compliant" df = true ->
  unique_clusters_of df = Return uniq ->
  columns uniq = columns df.
Proof.
  intros Hc. unfold unique_clusters_of, normalized_clusters_of.
  rewrite (get_column_present _ _ Hc), obind_return.
  rewrite (set_column_present _ _ _ Hc) by (by rewrite !length_map).
  rewrite obind_return. unfold sort_values.
  destruct (has_column "job_created_date" _); [| discriminate].
  destruct (all_comparable _); [| discriminate].
  rewrite obind_return. unfold drop_duplicates.
  destruct (List.filter _ _); [| discriminate].
  by intros [= <-].
Qed.

(** C10.  In the compliance report the count of compliant clusters plus the
    count of non-compliant clusters is at most the count of all clusters, and
    it is smaller as soon as the normalised flag of some deduplicated row is
    neither ['true'] nor ['false'] (a null, normalised to ['none'], is such a
    flag): the two counts need not add up to the total. *)
Theorem compliance_counts_within_total `{Lib} (s : state) (df uniq : DataFrame) :
  table s = Some df ->
  empty df = false ->
  has_column "is_compliant" df = true ->
  unique_clusters_of df = Return uniq ->
  exists compliant non_compliant sample,
    compliant_count uniq = Return compliant
    /\ non_compliant_count uniq = Return non_compliant
    /\ (get_cluster_compliance_summary s).1 =
       Return (compliance_lines (total_clusters uniq) compliant non_compliant +:+ sample)
    /\ compliant + non_compliant <= total_clusters uniq
    /\ ((exists r, In r (rows uniq)
                   /\ row_get "is_compliant" r <> VStr "true"
                   /\ row_get "is_compliant" r <> VStr "false") ->
        compliant + non_compliant < total_clusters uniq).
Proof.
  intros Ht Hne Hc Huniq.
  assert (has_column "is_compliant" uniq = true) as Hcu.
  { by rewrite (has_column_columns _ df) by by eapply unique_clusters_of_columns. }
  destruct (get_cluster_compliance_summary_run s df Ht) as (s' & -> & _). cbn [fst].
  unfold compliance_summary_of. rewrite Hne, Hc, Huniq. cbn [negb].
  rewrite obind_return. unfold compliance_report, compliant_count, non_compliant_count.
  rewrite (get_column_present _ _ Hcu), !obind_return.
  unfold shape0, total_clusters, shape0. rewrite !filter_mask_column.
  set (yes := List.filter (fun r => eq_str "true" (row_get "is_compliant" r)) (rows uniq)).
  set (no := List.filter (fun r => eq_str "false" (row_get "is_compliant" r)) (rows uniq)).
  assert (exists sample, non_compliant_sample (Z.of_nat (length no)) uniq = Return sample)
    as (sample & Hsample).
  { unfold non_compliant_sample. destruct (0 <? _); [| by eexists].
    rewrite (get_column_present _ _ Hcu), obind_return.
    set (bad := filter_mask _ uniq).
    destruct (select_columns_present
                ["job_org_id"; "job_cluster_id"; "tower_version"; "cluster_url"] bad)
      as (smp & Hsmp).
    assert (forall c, has_column c bad = has_column c uniq) as Hsame
      by (intros c; by apply has_column_columns).
    erewrite (filter_ext _ (fun c => has_column c bad)) by (intros c; by rewrite Hsame).
    rewrite Hsmp, obind_return. by eexists. }
  exists (Z.of_nat (length yes)), (Z.of_nat (length no)), sample.
  rewrite Hsample, obind_return.
  destruct (filter_disjoint_length
              (fun r => eq_str "true" (row_get "is_compliant" r))
              (fun r => eq_str "false" (row_get "is_compliant" r)) (rows uniq)) as (Hle & Hlt).
  { intros r. unfold eq_str. destruct (row_get "is_compliant" r); try done.
    intros Heq%bool_decide_eq_true. subst. reflexivity. }
  fold yes no in Hle, Hlt.
  repeat split; [lia |].
  intros (r & Hr & Hyes & Hno).
  assert (length yes + length no < length (rows uniq))%nat; [| lia].
  apply Hlt. exists r. split; [done |]. unfold eq_str.
  destruct (row_get "is_compliant" r); try done.
  split; apply bool_decide_eq_false; congruence.
Qed.

Lemma compliance_counts_within_total_witness :
  let s := loaded Samples.one_flag_null 0 in
  table s = Some Samples.one_flag_null
  /\ empty Samples.one_flag_null = false
  /\ has_column "is_compliant" Samples.one_flag_null = true
  /\ unique_clusters_of (H := Samples.lib) Samples.one_flag_null
     = Return Samples.one_flag_null_unique
  /\ (exists r, In r (rows Samples.one_flag_null_unique)
                /\ row_get "is_compliant" r <> VStr "true"
                /\ row_get "is_compliant" r <> VStr "false")
  /\ exists compliant non_compliant sample,
       (get_cluster_compliance_summary (H := Samples.lib) s).1 =
         Return (compliance_lines (total_clusters Samples.one_flag_null_unique)
                                  compliant non_compliant +:+ sample)
       /\ compliant + non_compliant < total_clusters Samples.one_flag_null_unique.
Proof.
  intros s.
  assert (table s = Some Samples.one_flag_null) as Ht by reflexivity.
  assert (empty Samples.one_flag_null = false) as Hne by reflexivity.
  assert (has_column "is_compliant" Samples.one_flag_null = true) as Hc by reflexivity.
  assert (unique_clusters_of (H := Samples.lib) Samples.one_flag_null
          = Return Samples.one_flag_null_unique) as Hu by (vm_compute; reflexivity).
  assert (exists r, In r (rows Samples.one_flag_null_unique)
                    /\ row_get "is_compliant" r <> VStr "true"
                    /\ row_get "is_compliant" r <> VStr "false") as Hnull.
  { eexists. split; [right; left; reflexivity |]. vm_compute. split; discriminate. }
  repeat (split; [assumption |]).
  destruct (compliance_counts_within_total (H := Samples.lib) s _ _ Ht Hne Hc Hu)
    as (c & n & sample & _ & _ & Hrun & _ & Hlt).
  exists c, n, sample. split; [exact Hrun | exact (Hlt Hnull)].
Defined.

(** * Properties of the extractor *)

Import Extractor.

Section ExtractorFacts.
Context `{Outside}.

Lemma printed_printed (l1 l2 : list string) (w : world) :
  printed l2 (printed l1 w) = printed (l1 ++ l2) w.
Proof. unfold printed. cbn. by rewrite <- app_assoc. Qed.

Lemma printed_nil (w : world) : printed [] w = w.
Proof. unfold printed. rewrite app_nil_r. by destruct w. Qed.

Lemma print_run (line : string) (w : world) : print line w = (Return tt, printed [line] w).
Proof. reflexivity. Qed.

Lemma fetch_chunks_run (table_name : string) (events : list (string + DataFrame)) :
  forall (i : Z) (acc : list DataFrame) (w : world),
  exists lines,
    fetch_chunks table_name i events acc w =
      (match first_error events with
       | None => Return (acc ++ yielded events)
       | Some msg => Raise (DatabaseError msg)
       end, printed lines w).
Proof.
  induction events as [| [msg | chunk] events IH]; intros i acc w.
  - exists []. rewrite printed_nil. cbn. by rewrite app_nil_r.
  - exists []. by rewrite printed_nil.
  - cbn [fetch_chunks first_error yielded].
    rewrite (bind_return _ _ _ _ _ (print_run _ w)).
    destruct (IH (i + 1) (acc ++ [chunk]) (printed [("  Fetched chunk " +:+ Fmt.str_int (i + 1)
                 +:+ ": " +:+ Fmt.str_int (shape0 chunk) +:+ " rows.")] w))
      as (lines & ->).
    eexists. rewrite printed_printed, <- app_assoc. reflexivity.
Qed.
Lemma closed_again (c : nat) (w : world) (lines : list string) :
  c ∉ open_conns w ->
  {| open_conns := ({[c]} ∪ open_conns w) ∖ {[c]}; stdout := stdout w ++ lines;
     dirs := dirs w; files := files w |} = printed lines w.
Proof.
  intros Hc. unfold printed. f_equal.
  apply set_eq. intros x.
  rewrite elem_of_difference, elem_of_union, elem_of_singleton.
  split; [by intros [[-> | Hx] Hne] | intros Hx; split; [by right | by intros ->]].
Qed.

(** A fetch returns [fetched], prints, and changes nothing else; a failure
    is the last line it prints. *)
Lemma fetch_run (query_sql table_name : string) (chunk_size : Z) (w : world) :
  exists lines,
    fetch_data_from_redshift query_sql table_name chunk_size w
    = (Return (fetched query_sql chunk_size), printed lines w)
    /\ forall msg, fetch_failure query_sql chunk_size = Some msg ->
         last lines = Some ("Error fetching data for '" +:+ table_name +:+ "': " +:+ msg).
Proof.
  unfold fetch_data_from_redshift, fetched, fetch_failure.
  unfold try_finally, try_except.
  unfold mbind, M_bind, Py.bind, in_world, connect.
  change ({| host := DB_HOST; port := DB_PORT; database := DB_NAME; user := DB_USER;
             password := DB_PASSWORD; connect_timeout := CONNECT_TIMEOUT_SECONDS;
             options := "-c statement_timeout=" +:+ Fmt.str_int STATEMENT_TIMEOUT_MS |})
    with the_connect_args.
  cbn [fst snd].
  destruct (connect_error the_connect_args) as [msg |].
  - eexists [_]. split; [reflexivity |]. by intros ? [= <-].
  - cbn [set_local modify fst snd print open_conns stdout dirs files].
    pose proof (is_fresh (open_conns w)) as Hfresh.
    set (c := fresh (open_conns w)) in *.
    match goal with
    | |- context [fetch_chunks ?k ?i ?ev ?acc ?w2] =>
        destruct (fetch_chunks_run k ev i acc w2) as (lines & ->)
    end.
    destruct (first_error (read_sql query_sql chunk_size)) as [msg |].
    + cbn. rewrite <- !app_assoc. eexists. split; [by rewrite closed_again |].
      intros ? [= <-]. by rewrite !app_assoc, last_snoc.
    + cbn [app]. destruct (yielded (read_sql query_sql chunk_size)) as [| chunk chunks].
      * cbn. rewrite <- !app_assoc. eexists. split; [by rewrite closed_again | done].
      * cbn. rewrite <- !app_assoc. eexists. split; [by rewrite closed_again | done].
Qed.

Lemma process_query_run (output_dir : string) (entry : string * query_details) (w : world) :
  exists w',
    process_query output_dir entry w = (Return tt, w')
    /\ files w' = files_after output_dir entry (files w)
    /\ open_conns w' = open_conns w.
Proof.
  unfold process_query, files_after.
  rewrite (bind_return _ _ _ _ _ (print_run _ w)).
  destruct (fetch_run (query entry.2) entry.1 50000 (printed [(nl +:+ "--- Processing query: " +:+ entry.1 +:+ " ---")] w))
    as (lines & Hfetch & _).
  rewrite (bind_return _ _ _ _ _ Hfetch).
  destruct (empty (fetched (query entry.2) 50000)); cbn [negb].
  - eexists. split; [apply print_run | done].
  - rewrite (bind_return _ _ _ _ _ (print_run _ _)).
    unfold try_except, write_json, mbind, M_bind, Py.bind.
    destruct (write_outcome _ _); eexists; (split; [reflexivity | done]).
Qed.

Lemma main_run (w : world) :
  exists o w',
    main w = (o, w')
    /\ open_conns w' = open_conns w
    /\ (files w' = files w
        \/ (o = Return tt
            /\ forall entry, TABLE_QUERIES = [entry] ->
                 files w' = files_after "telemetry_json_output" entry (files w))).
Proof.
  unfold main, makedirs.
  unfold mbind at 1. unfold M_bind, Py.bind at 1.
  destruct (makedirs_error _).
  { eexists _, _. split; [reflexivity |]. split; [done | by left]. }
  rewrite (bind_return _ _ _ _ _ (print_run _ _)).
  rewrite (bind_return _ _ _ _ _ (print_run _ _)).
  unfold TABLE_QUERIES at 1. cbn [for_each].
  match goal with
  | |- context [Py.bind (process_query ?d ?e) _] => set (entry := e)
  end.
  match goal with
  | |- context [(_ ≫= _) ?w1] =>
      destruct (process_query_run "telemetry_json_output" entry w1)
        as (w2 & Hrun & Hfiles & Hconns)
  end.
  unfold mbind, M_bind. unfold Py.bind at 1 2. rewrite Hrun. cbn [Py.ret].
  eexists _, _. split; [apply print_run |]. split; [done |].
  right. split; [done |]. intros entry' [= <-]. exact Hfiles.
Qed.

End ExtractorFacts.

(** ** The fetch never raises and closes its connection (C7) *)

(** C7.  A fetch always returns a table; it never raises.  When the
    connection or the query fails it prints the error and returns the empty
    table.  On every path the connections open afterwards are those that
    were open before: the connection the fetch opened, if any, is closed. *)
Theorem fetch_never_raises_and_closes `{Outside}
  (query_sql table_name : string) (chunk_size : Z) (w : world) :
  exists df w',
    fetch_data_from_redshift query_sql table_name chunk_size w = (Return df, w')
    /\ open_conns w' = open_conns w
    /\ forall msg, fetch_failure query_sql chunk_size = Some msg ->
         df = empty_frame
         /\ last (stdout w')
            = Some ("Error fetching data for '" +:+ table_name +:+ "': " +:+ msg).
Proof.
  destruct (fetch_run query_sql table_name chunk_size w) as (lines & Hrun & Herr).
  eexists _, _. split; [exact Hrun |]. split; [reflexivity |].
  intros msg Hfail. split.
  - unfold fetched. by rewrite Hfail.
  - cbn [printed stdout]. rewrite last_app, (Herr msg Hfail). reflexivity.
Qed.

Lemma fetch_never_raises_and_closes_witness :
  exists df w',
    fetch_data_from_redshift (H := Samples.refusing_warehouse)
      configured_sql "ansible_all_telemetry_combined_reliable" 50000
      Samples.world_with_snapshot = (Return df, w')
    /\ open_conns w' = open_conns Samples.world_with_snapshot
    /\ df = empty_frame
    /\ last (stdout w')
       = Some "Error fetching data for 'ansible_all_telemetry_combined_reliable': connection refused".
Proof.
  destruct (fetch_never_raises_and_closes (H := Samples.refusing_warehouse)
              configured_sql "ansible_all_telemetry_combined_reliable" 50000
              Samples.world_with_snapshot) as (df & w' & Hrun & Hconns & Hfail).
  exists df, w'. split; [exact Hrun |]. split; [exact Hconns |].
  apply (Hfail "connection refused"). reflexivity.
Defined.

(** ** No snapshot is written for an empty fetch (C6) *)

Lemma rows_nil_empty (df : DataFrame) : rows df = [] -> empty df = true.
Proof. unfold empty. by intros ->. Qed.

Lemma empty_false_rows (df : DataFrame) : empty df = false -> rows df <> [].
Proof. intros Hne Hrows. by rewrite (rows_nil_empty _ Hrows) in Hne. Qed.

(** C6.  When the fetched table has no row, the run writes no file: the
    files on disk after the run are the files before it, so a snapshot of an
    earlier run is left as it was.  A fetch that fails, and a fetch all of
    whose chunks are empty, have no row.  Conversely a file that differs
    after the run is the snapshot file, and then the fetched table has at
    least one row. *)
Theorem zero_rows_no_snapshot_write `{Outside} (w : world) :
  let df := fetched configured_sql 50000 in
  (rows df = [] -> files (main w).2 = files w)
  /\ (forall msg, fetch_failure configured_sql 50000 = Some msg -> rows df = [])
  /\ (Forall (fun chunk => rows chunk = []) (yielded (read_sql configured_sql 50000)) ->
      rows df = [])
  /\ (forall path, files (main w).2 !! path <> files w !! path ->
      path = snapshot_path /\ rows df <> []).
Proof.
  intros df.
  destruct (main_run w) as (o & w' & Hrun & _ & Hfiles). rewrite Hrun. cbn [snd].
  assert (files w' = files_after "telemetry_json_output"
                       ("ansible_all_telemetry_combined_reliable",
                        {| query := configured_sql;
                           description := "Comprehensive, denormalized Ansible telemetry data: job execution, cluster, host, modules, Lightspeed, and entitlements." |})
                       (files w)
          \/ files w' = files w) as Hafter.
  { destruct Hfiles as [-> | (_ & Hentry)]; [by right | left]. by apply Hentry. }
  unfold files_after in Hafter. cbn [fst snd query] in Hafter. fold df in Hafter.
  change (path_join _ _) with snapshot_path in Hafter.
  split; [| split; [| split]].
  - intros Hrows. destruct Hafter as [-> | ->]; [| done].
    by rewrite (rows_nil_empty _ Hrows).
  - intros msg Hfail. subst df. unfold fetched. by rewrite Hfail.
  - intros Hall. subst df. unfold fetched.
    destruct (fetch_failure _ _); [done |].
    destruct (yielded _) as [| chunk chunks]; [done |].
    unfold concat_frames. cbn [rows].
    induction Hall as [| c cs Hc _ IH]; [done |].
    cbn [map concat]. by rewrite Hc, IH.
  - intros path Hdiff. destruct Hafter as [Hw' | Hw']; rewrite Hw' in Hdiff; [| done].
    destruct (empty df) eqn:Hne; [done |].
    split; [| by apply empty_false_rows].
    destruct (write_outcome _ _); [| done |];
      (destruct (decide (path = snapshot_path)) as [-> | Hp]; [done |];
       by rewrite lookup_insert_ne in Hdiff).
Qed.

Lemma zero_rows_no_snapshot_write_witness :
  (rows (fetched (H := Samples.refusing_warehouse) configured_sql 50000) = []
   /\ files (main (H := Samples.refusing_warehouse) Samples.world_with_snapshot).2
      = files Samples.world_with_snapshot)
  /\ (files (main (H := Samples.answering_warehouse) Samples.world_with_snapshot).2
        !! snapshot_path
      <> files Samples.world_with_snapshot !! snapshot_path
      /\ rows (fetched (H := Samples.answering_warehouse) configured_sql 50000) <> []).
Proof.
  split.
  - assert (rows (fetched (H := Samples.refusing_warehouse) configured_sql 50000) = [])
      as Hrows by reflexivity.
    split; [exact Hrows |].
    exact (proj1 (zero_rows_no_snapshot_write (H := Samples.refusing_warehouse)
                    Samples.world_with_snapshot) Hrows).
  - assert (files (main (H := Samples.answering_warehouse) Samples.world_with_snapshot).2
              !! snapshot_path
            <> files Samples.world_with_snapshot !! snapshot_path) as Hdiff
      by (vm_compute; discriminate).
    split; [exact Hdiff |].
    exact (proj2 (proj2 (proj2 (proj2 (zero_rows_no_snapshot_write
                                         (H := Samples.answering_warehouse)
                                         Samples.world_with_snapshot)))
                    snapshot_path Hdiff)).
Defined.

(** * Sorting, deduplication and grouping *)

(** ** The order on keys *)

Lemma ascii_compare_refl (a : ascii) : Ascii.compare a a = Eq.
Proof. unfold Ascii.compare. apply N.compare_refl. Qed.

Lemma string_compare_trans_le (a b c : string) :
  String.compare a b <> Gt -> String.compare b c <> Gt -> String.compare a c <> Gt.
Proof.
  revert b c. induction a as [| x a IH]; intros [| y b] [| z c]; cbn; try done.
  unfold Ascii.compare.
  destruct (N.compare_spec (N_of_ascii x) (N_of_ascii y)) as [Hxy | Hxy | Hxy];
    destruct (N.compare_spec (N_of_ascii y) (N_of_ascii z)) as [Hyz | Hyz | Hyz];
    destruct (N.compare_spec (N_of_ascii x) (N_of_ascii z)) as [Hxz | Hxz | Hxz];
    try done; try lia.
  apply IH.
Qed.

Lemma string_leb_trans (a b c : string) :
  String.leb a b = true -> String.leb b c = true -> String.leb a c = true.
Proof.
  unfold String.leb. intros Hab Hbc.
  pose proof (string_compare_trans_le a b c) as Htr.
  destruct (String.compare a b), (String.compare b c), (String.compare a c);
    try done; exfalso; by apply Htr.
Qed.

Lemma skey_leb_total (a b : skey) : skey_leb a b = true \/ skey_leb b a = true.
Proof.
  destruct a, b; cbn; try (by left); try (by right).
  - destruct (Z.leb_spec z z0); [by left | right; apply Z.leb_le; lia].
  - apply String.leb_total.
  - destruct (Z.leb_spec t t0); [by left | right; apply Z.leb_le; lia].
Qed.

Lemma skey_leb_trans (a b c : skey) :
  skey_leb a b = true -> skey_leb b c = true -> skey_leb a c = true.
Proof.
  destruct a, b, c; cbn; try done.
  - rewrite !Z.leb_le. lia.
  - apply string_leb_trans.
  - rewrite !Z.leb_le. lia.
Qed.

(** ** The stable sort *)

Section StableSort.
Context {A : Type} (leb : A -> A -> bool).
Hypothesis leb_total : forall a b, leb a b = true \/ leb b a = true.
Hypothesis leb_trans : forall a b c, leb a b = true -> leb b c = true -> leb a c = true.

Lemma insert_by_perm (x : A) (l : list A) : insert_by leb x l ≡ₚ x :: l.
Proof.
  induction l as [| y l IH]; [done |]. cbn.
  destruct (leb x y); [done |]. rewrite IH. apply Permutation_swap.
Qed.

Lemma stable_sort_perm (l : list A) : stable_sort leb l ≡ₚ l.
Proof.
  induction l as [| x l IH]; [done |].
  cbn. rewrite insert_by_perm. by rewrite IH.
Qed.

Lemma insert_by_sorted (x : A) (l : list A) :
  StronglySorted (fun a b => leb a b = true) l ->
  StronglySorted (fun a b => leb a b = true) (insert_by leb x l).
Proof.
  induction 1 as [| y l Hsorted IH Hall]; cbn.
  - repeat constructor.
  - destruct (leb x y) eqn:Hxy.
    + constructor; [by constructor |].
      constructor; [done |].
      eapply Forall_impl; [exact Hall |]. intros z Hz. by eapply leb_trans.
    + constructor; [done |].
      rewrite insert_by_perm. constructor; [| done].
      destruct (leb_total x y); congruence.
Qed.

Lemma stable_sort_sorted (l : list A) :
  StronglySorted (fun a b => leb a b = true) (stable_sort leb l).
Proof.
  induction l as [| x l IH]; [constructor |]. by apply insert_by_sorted.
Qed.

Lemma StronglySorted_reverse (R : A -> A -> Prop) (l : list A) :
  StronglySorted R l -> StronglySorted (fun a b => R b a) (reverse l).
Proof.
  induction 1 as [| x l Hsorted IH Hall]; [constructor |].
  rewrite reverse_cons. apply StronglySorted_app. split; [| split].
  - intros a b Ha Hb. apply list_elem_of_singleton in Hb as ->.
    rewrite Forall_forall in Hall. apply Hall. by apply elem_of_reverse.
  - done.
  - repeat constructor.
Qed.

(** The descending sort of [sort_values]. *)
Lemma descending_sorted (l : list A) :
  StronglySorted (fun a b => leb b a = true) (reverse (stable_sort leb (reverse l))).
Proof. apply StronglySorted_reverse, stable_sort_sorted. Qed.

Lemma descending_perm (l : list A) : reverse (stable_sort leb (reverse l)) ≡ₚ l.
Proof. by rewrite reverse_Permutation, stable_sort_perm, reverse_Permutation. Qed.

End StableSort.




(** ** Grouping *)










(** ** The ranking of the modules (C3) *)









(** ** One row per cluster, the most recent one (C2) *)

Lemma isna_sort_key (c : cell) : isna c = true <-> sort_key c = None.
Proof. by destruct c. Qed.

Lemma keyed_missing_perm (c : string) (rs : list (gmap string cell)) :
  map snd (keyed_rows c rs) ++ missing_rows c rs ≡ₚ rs.
Proof.
  unfold keyed_rows, missing_rows. induction rs as [| r rs IH]; [done |].
  cbn [omap list_omap List.filter].
  destruct (sort_key (row_get c r)) as [k |] eqn:Hk.
  - assert (isna (row_get c r) = false) as ->.
    { destruct (isna (row_get c r)) eqn:Hna; [| done].
      apply isna_sort_key in Hna. congruence. }
    cbn [map snd app]. by rewrite IH.
  - rewrite (proj2 (isna_sort_key _) Hk).
    rewrite <- Permutation_middle. by rewrite IH.
Qed.

Lemma keyed_rows_key (c : string) (rs : list (gmap string cell)) (k : skey)
  (r : gmap string cell) :
  (k, r) ∈ keyed_rows c rs -> sort_key (row_get c r) = Some k.
Proof.
  unfold keyed_rows. rewrite list_elem_of_omap. intros (r' & _ & Hr').
  destruct (sort_key (row_get c r')) eqn:Hk; [| done]. by inv Hr'.
Qed.

Lemma missing_rows_key (c : string) (rs : list (gmap string cell)) (r : gmap string cell) :
  r ∈ missing_rows c rs -> sort_key (row_get c r) = None.
Proof.
  unfold missing_rows. rewrite list_elem_of_In, filter_In. intros [_ Hna].
  by apply isna_sort_key.
Qed.

(** In the rows sorted by descending date, a row is not older than the rows
    after it. *)
Lemma sort_values_descending (c : string) (df sorted : DataFrame) :
  sort_values c false df = Return sorted ->
  rows sorted ≡ₚ rows df
  /\ columns sorted = columns df
  /\ forall i j u r,
       (i <= j)%nat -> rows sorted !! i = Some u -> rows sorted !! j = Some r ->
       match sort_key (row_get c r), sort_key (row_get c u) with
       | None, _ => True
       | Some kr, Some ku => skey_leb kr ku = true
       | Some _, None => False
       end.
Proof.
  unfold sort_values. destruct (has_column c df); [| done].
  destruct (all_comparable _); [| done]. intros [= <-]. cbn [rows columns].
  set (desc := reverse (stable_sort by_key (reverse (keyed_rows c (rows df))))).
  assert (desc ≡ₚ keyed_rows c (rows df)) as Hperm by apply descending_perm.
  assert (StronglySorted (fun a b : skey * gmap string cell => by_key b a = true) desc)
    as Hsorted.
  { apply descending_sorted.
    - intros a b. apply skey_leb_total.
    - intros a b d. apply skey_leb_trans. }
  split; [| split; [done |]].
  - rewrite (fmap_Permutation snd _ _ Hperm). apply keyed_missing_perm.
  - intros i j u r Hij Hu Hr.
    destruct (sort_key (row_get c r)) as [kr |] eqn:Hkr; [| done].
    assert (j < length (map snd desc))%nat as Hj.
    { destruct (decide (j < length (map snd desc))%nat) as [| Hge]; [done |].
      rewrite lookup_app_r in Hr by lia.
      apply list_elem_of_lookup_2, missing_rows_key in Hr. congruence. }
    rewrite lookup_app_l in Hr by done. rewrite lookup_app_l in Hu by lia.
    rewrite list_lookup_fmap in Hr. rewrite list_lookup_fmap in Hu.
    destruct (desc !! j) as [[kr' r'] |] eqn:Hdj; [| done].
    destruct (desc !! i) as [[ku u'] |] eqn:Hdi; [| done].
    cbn in Hr, Hu. injection Hr as ->. injection Hu as ->.
    assert (sort_key (row_get c r) = Some kr') as Hkr'.
    { eapply keyed_rows_key. rewrite <- Hperm. by eapply list_elem_of_lookup_2. }
    assert (sort_key (row_get c u) = Some ku) as Hku.
    { eapply keyed_rows_key. rewrite <- Hperm. by eapply list_elem_of_lookup_2. }
    rewrite Hku. assert (kr = kr') as -> by congruence.
    destruct (decide (i = j)) as [-> | Hne].
    + assert (ku = kr') as -> by congruence.
      by destruct (skey_leb_total kr' kr').
    + assert (i < j)%nat as Hlt by lia.
      clear -Hsorted Hdi Hdj Hlt. revert i j Hdi Hdj Hlt.
      induction Hsorted as [| x l _ IH Hall]; intros i j Hdi Hdj Hlt; [done |].
      destruct j as [| j]; [lia |]. cbn in Hdj.
      destruct i as [| i].
      * cbn in Hdi. inv Hdi. rewrite Forall_forall in Hall.
        apply (Hall (kr', r)). by eapply list_elem_of_lookup_2.
      * cbn in Hdi. apply (IH i j); [done | done | lia].
Qed.

Lemma key_eqb_refl (a : cell) : key_eqb a a = true.
Proof. unfold key_eqb. destruct (sort_key a); [by apply bool_decide_eq_true_2 | done]. Qed.

Lemma key_eqb_sym (a b : cell) : key_eqb a b = key_eqb b a.
Proof.
  unfold key_eqb. destruct (sort_key a), (sort_key b); try done.
  apply bool_decide_ext. split; congruence.
Qed.

Lemma keys_eqb_refl (k : list cell) : keys_eqb k k = true.
Proof.
  unfold keys_eqb. induction k as [| a k IH]; [done |].
  cbn. by rewrite key_eqb_refl.
Qed.

Lemma keys_eqb_sym (k1 k2 : list cell) : keys_eqb k1 k2 = keys_eqb k2 k1.
Proof.
  unfold keys_eqb. revert k2. induction k1 as [| a k1 IH]; intros [| b k2]; try done.
  cbn. by rewrite key_eqb_sym, IH.
Qed.

Lemma keep_first_sub (subset : list string) (rs : list (gmap string cell)) :
  forall seen u, u ∈ keep_first subset seen rs -> u ∈ rs.
Proof.
  induction rs as [| x rs IH]; intros seen u; [done |].
  cbn [keep_first]. destruct (existsb _ seen).
  - intros Hu. apply elem_of_cons. right. by eapply IH.
  - rewrite !elem_of_cons. intros [-> | Hu]; [by left | right; by eapply IH].
Qed.

Lemma keep_first_unseen (subset : list string) (rs : list (gmap string cell)) :
  forall seen u, u ∈ keep_first subset seen rs ->
                 existsb (keys_eqb (row_key subset u)) seen = false.
Proof.
  induction rs as [| x rs IH]; intros seen u; [by intros ?%elem_of_nil |].
  cbn [keep_first]. destruct (existsb _ seen) eqn:Hseen.
  - apply IH.
  - rewrite elem_of_cons. intros [-> | Hu]; [done |].
    apply IH in Hu. cbn [existsb] in Hu. by apply orb_false_elim in Hu as [_ ?].
Qed.

(** Among the kept rows no two have the same key. *)
Lemma keep_first_distinct (subset : list string) (rs : list (gmap string cell)) :
  forall seen,
    StronglySorted (fun u v => keys_eqb (row_key subset u) (row_key subset v) = false)
                   (keep_first subset seen rs).
Proof.
  induction rs as [| x rs IH]; intros seen; [constructor |].
  cbn [keep_first]. destruct (existsb _ seen); [apply IH |].
  constructor; [apply IH |].
  apply Forall_forall. intros v Hv.
  apply keep_first_unseen in Hv. cbn [existsb] in Hv.
  apply orb_false_elim in Hv as [Hv _]. by rewrite keys_eqb_sym.
Qed.

(** Every row has the key of a kept row that stands at or before it. *)
Lemma keep_first_covers (subset : list string) (rs : list (gmap string cell)) :
  forall seen j r,
    rs !! j = Some r ->
    existsb (keys_eqb (row_key subset r)) seen = false ->
    exists i u, (i <= j)%nat /\ rs !! i = Some u
                /\ u ∈ keep_first subset seen rs
                /\ keys_eqb (row_key subset r) (row_key subset u) = true.
Proof.
  induction rs as [| x rs IH]; intros seen j r Hj Hseen; [done |].
  cbn [keep_first]. destruct (existsb (keys_eqb (row_key subset x)) seen) eqn:Hx.
  - destruct j as [| j]; cbn in Hj.
    + injection Hj as ->. congruence.
    + destruct (IH seen j r Hj Hseen) as (i & u & Hij & Hi & Hu & Heq).
      exists (S i), u. split; [lia |]. by split.
  - destruct (keys_eqb (row_key subset r) (row_key subset x)) eqn:Hrx.
    + exists 0%nat, x. split; [lia |]. split; [done |]. split; [| done].
      apply elem_of_cons. by left.
    + destruct j as [| j]; cbn in Hj.
      * injection Hj as ->. by rewrite keys_eqb_refl in Hrx.
      * destruct (IH (row_key subset x :: seen) j r Hj) as (i & u & Hij & Hi & Hu & Heq).
        { cbn [existsb]. by rewrite Hrx, Hseen. }
        exists (S i), u. split; [lia |]. split; [done |]. split; [| done].
        apply elem_of_cons. by right.
Qed.

Lemma zip_with_map_self {A B C} (f : A -> B -> C) (g : A -> B) (l : list A) :
  zip_with f l (map g l) = map (fun x => f x (g x)) l.
Proof. induction l as [| x l IH]; [done |]. cbn. by rewrite IH. Qed.

Lemma normalized_clusters_of_rows `{Lib} (df : DataFrame) :
  has_column "is_compliant" df = true ->
  normalized_clusters_of df =
    Return {| columns := columns df; rows := map normalized_row (rows df) |}.
Proof.
  intros Hc. unfold normalized_clusters_of.
  rewrite (get_column_present _ _ Hc), obind_return.
  rewrite (set_column_present _ _ _ Hc) by (by rewrite !length_map).
  do 2 f_equal. rewrite map_map.
  apply (zip_with_map_self (fun r v => <["is_compliant" := v]> r)).
Qed.

(** C2.  The compliance report normalises [is_compliant] to lower-case
    text, sorts the rows by descending [job_created_date] and keeps the first
    row of each pair ([job_org_id], [job_cluster_id]): the kept rows are
    normalised rows of the table, no two of them are of the same cluster, and
    every row of the table has a kept row of its cluster that is not older
    than it.  The report is computed from the kept rows.  For the two rows
    of cluster (1, 9) dated 2024-01-01 (not compliant) and 2024-06-01
    (compliant) the row of June is kept and the report shows 1 cluster,
    1 compliant, 100.00%. *)
Theorem one_row_per_cluster `{Lib} (s : state) (df uniq : DataFrame) :
  table s = Some df ->
  empty df = false ->
  has_column "is_compliant" df = true ->
  unique_clusters_of df = Return uniq ->
  (forall u, u ∈ rows uniq -> u ∈ map normalized_row (rows df))
  /\ StronglySorted (fun u v => same_cluster u v = false) (rows uniq)
  /\ (forall r, r ∈ map normalized_row (rows df) ->
      exists u, u ∈ rows uniq /\ same_cluster r u = true /\ not_older u r = true)
  /\ (get_cluster_compliance_summary s).1 = compliance_report uniq
  /\ (forall s', table s' = Some Samples.two_snapshots_of_one_cluster ->
      unique_clusters_of Samples.two_snapshots_of_one_cluster
        = Return Samples.the_later_snapshot
      /\ (get_cluster_compliance_summary s').1 =
         Return ("## Cluster Compliance Summary (Last Year):" +:+ nl +:+ nl
                 +:+ "- Total Unique Clusters Monitored: 1" +:+ nl
                 +:+ "- Compliant Clusters: 1" +:+ nl
                 +:+ "- Non-Compliant Clusters: 0" +:+ nl
                 +:+ "- Compliance Rate: 100.00%" +:+ nl)).
Proof.
  intros Ht Hne Hc Huniq.
  assert ((get_cluster_compliance_summary s).1 = compliance_report uniq) as Hrun.
  { destruct (get_cluster_compliance_summary_run s df Ht) as (s' & -> & _). cbn [fst].
    unfold compliance_summary_of. by rewrite Hne, Hc, Huniq. }
  unfold unique_clusters_of in Huniq.
  rewrite (normalized_clusters_of_rows _ Hc), obind_return in Huniq.
  destruct (sort_values "job_created_date" false _) as [sorted | e] eqn:Hsort; [| done].
  rewrite obind_return in Huniq.
  destruct (sort_values_descending _ _ _ Hsort) as (Hperm & _ & Hdesc).
  cbn [rows] in Hperm.
  unfold drop_duplicates in Huniq.
  destruct (List.filter _ _); [| done]. injection Huniq as <-. cbn [rows].
  split; [| split; [| split; [| split]]].
  - intros u Hu. rewrite <- Hperm. by eapply keep_first_sub.
  - apply keep_first_distinct.
  - intros r Hr. rewrite <- Hperm in Hr.
    apply list_elem_of_lookup in Hr as (j & Hj).
    destruct (keep_first_covers ["job_org_id"; "job_cluster_id"] (rows sorted) [] j r Hj eq_refl)
      as (i & u & Hij & Hi & Hu & Heq).
    exists u. split; [done |]. split; [done |].
    specialize (Hdesc i j u r Hij Hi Hj). unfold not_older.
    destruct (sort_key (row_get "job_created_date" r)); [| done].
    by destruct (sort_key (row_get "job_created_date" u)).
  - exact Hrun.
  - intros s' Ht'. split; [by vm_compute |].
    destruct (get_cluster_compliance_summary_run s' _ Ht') as (s'' & -> & _).
    cbn [fst]. by vm_compute.
Qed.

Lemma one_row_per_cluster_witness :
  let s := loaded Samples.two_snapshots_of_one_cluster 0 in
  table s = Some Samples.two_snapshots_of_one_cluster
  /\ empty Samples.two_snapshots_of_one_cluster = false
  /\ has_column "is_compliant" Samples.two_snapshots_of_one_cluster = true
  /\ unique_clusters_of (H := Samples.lib) Samples.two_snapshots_of_one_cluster
     = Return Samples.the_later_snapshot
  /\ (forall r, r ∈ map (normalized_row (H := Samples.lib))
                        (rows Samples.two_snapshots_of_one_cluster) ->
      exists u, u ∈ rows Samples.the_later_snapshot
                /\ same_cluster r u = true /\ not_older u r = true)
  /\ (get_cluster_compliance_summary (H := Samples.lib) s).1 =
     Return ("## Cluster Compliance Summary (Last Year):" +:+ nl +:+ nl
             +:+ "- Total Unique Clusters Monitored: 1" +:+ nl
             +:+ "- Compliant Clusters: 1" +:+ nl
             +:+ "- Non-Compliant Clusters: 0" +:+ nl
             +:+ "- Compliance Rate: 100.00%" +:+ nl).
Proof.
  intros s.
  assert (table s = Some Samples.two_snapshots_of_one_cluster) as Ht by reflexivity.
  assert (empty Samples.two_snapshots_of_one_cluster = false) as Hne by reflexivity.
  assert (has_column "is_compliant" Samples.two_snapshots_of_one_cluster = true) as Hc
    by reflexivity.
  assert (unique_clusters_of (H := Samples.lib) Samples.two_snapshots_of_one_cluster
          = Return Samples.the_later_snapshot) as Hu by (vm_compute; reflexivity).
  repeat (split; [assumption |]).
  destruct (one_row_per_cluster (H := Samples.lib) s _ _ Ht Hne Hc Hu)
    as (_ & _ & Hcover & _ & Hexample).
  split; [exact Hcover |]. exact (proj2 (Hexample s Ht)).
Defined.

(** * Further properties of the reporter *)

Import Notions.

(** ** What the reports return without computing *)

(** X1.  On a non-empty table that lacks any one of [collection_name],
    [module_name] and [module_invocation_count], the module report returns
    its text about the missing columns; it does not raise. *)
Theorem top_modules_missing_column_message `{Lib}
  (s : state) (df : DataFrame) (top_n : Z) :
  table s = Some df ->
  empty df = false ->
  has_column "collection_name" df = false
  \/ has_column "module_name" df = false
  \/ has_column "module_invocation_count" df = false ->
  (get_top_modules_used top_n s).1 =
    Return "Missing 'collection_name', 'module_name', or 'module_invocation_count' in combined data for module analysis. Check the combined query in get_telesense_data.py.".
Proof.
  intros Ht Hne Hmiss.
  destruct (get_top_modules_used_run top_n s df Ht) as (s' & -> & _). cbn [fst].
  unfold top_modules_summary_of. rewrite Hne.
  destruct Hmiss as [-> | [-> | ->]]; cbn [negb orb]; by rewrite ?orb_true_r.
Qed.

Lemma top_modules_missing_column_message_witness :
  (get_top_modules_used (H := Samples.lib) 10 (loaded Samples.only_is_compliant 0)).1 =
    Return "Missing 'collection_name', 'module_name', or 'module_invocation_count' in combined data for module analysis. Check the combined query in get_telesense_data.py.".
Proof.
  apply (top_modules_missing_column_message (H := Samples.lib)
           (loaded Samples.only_is_compliant 0) Samples.only_is_compliant 10);
    [reflexivity | reflexivity | left; reflexivity].
Defined.

(** X2.  On a non-empty table without [is_compliant] the compliance report
    returns its text about the missing column; it does not raise. *)
Theorem compliance_missing_flag_message `{Lib} (s : state) (df : DataFrame) :
  table s = Some df ->
  empty df = false ->
  has_column "is_compliant" df = false ->
  (get_cluster_compliance_summary s).1 =
    Return "Missing 'is_compliant' column in combined data for compliance analysis. Check query in get_telesense_data.py.".
Proof.
  intros Ht Hne Hmiss.
  destruct (get_cluster_compliance_summary_run s df Ht) as (s' & -> & _). cbn [fst].
  unfold compliance_summary_of. by rewrite Hne, Hmiss.
Qed.

Lemma compliance_missing_flag_message_witness :
  (get_cluster_compliance_summary (H := Samples.lib) (loaded Samples.only_job_status 0)).1 =
    Return "Missing 'is_compliant' column in combined data for compliance analysis. Check query in get_telesense_data.py.".
Proof.
  apply (compliance_missing_flag_message (H := Samples.lib)
           (loaded Samples.only_job_status 0) Samples.only_job_status); reflexivity.
Defined.

(** X3.  On an empty table (no row, or no column) each report returns its
    text about the missing data and leaves the whole interpreter state as it
    was: no copy of the table is made. *)
Theorem reports_on_empty_table `{Lib} (s : state) (df : DataFrame) (n_days top_n : Z) :
  table s = Some df ->
  empty df = true ->
  get_jobs_run_summary n_days s =
    (Return "No combined telemetry data available to analyze for jobs.", s)
  /\ get_top_modules_used top_n s =
     (Return "No combined telemetry data available to analyze for modules.", s)
  /\ get_cluster_compliance_summary s =
     (Return "No combined telemetry data available to analyze for cluster compliance.", s).
Proof.
  intros Ht He.
  unfold get_jobs_run_summary, get_top_modules_used, get_cluster_compliance_summary.
  rewrite !(bind_return global _ s s (df_combined_telemetry s)) by reflexivity.
  rewrite !(bind_return _ _ _ _ _ (deref_run _ _ _ Ht)).
  by rewrite He.
Qed.

Lemma reports_on_empty_table_witness :
  let s := loaded Extractor.empty_frame 0 in
  get_jobs_run_summary (H := Samples.lib) 30 s =
    (Return "No combined telemetry data available to analyze for jobs.", s)
  /\ get_top_modules_used (H := Samples.lib) 10 s =
     (Return "No combined telemetry data available to analyze for modules.", s)
  /\ get_cluster_compliance_summary (H := Samples.lib) s =
     (Return "No combined telemetry data available to analyze for cluster compliance.", s).
Proof.
  intros s.
  apply (reports_on_empty_table (H := Samples.lib) s Extractor.empty_frame 30 10);
    reflexivity.
Defined.

(** ** The cleaning and the grouping of the module report *)

Lemma row_get_insert_ne (c c' : string) (v : cell) (r : gmap string cell) :
  c <> c' -> row_get c' (<[c := v]> r) = row_get c' r.
Proof. intros Hne. unfold row_get. by rewrite lookup_insert_ne. Qed.

Lemma zip_with_map2_self {A B C D} (f : A -> C -> D) (g : B -> C) (h : A -> B)
  (l : list A) :
  zip_with f l (map g (map h l)) = map (fun x => f x (g (h x))) l.
Proof. induction l as [| x l IH]; [done |]. cbn. by rewrite IH. Qed.

Lemma DataFrame_eq (a b : DataFrame) :
  columns a = columns b -> rows a = rows b -> a = b.
Proof. destruct a, b. cbn. by intros -> ->. Qed.

(** The cleaned table, row by row. *)
Lemma clean_modules_of_rows `{Lib} (df : DataFrame) :
  has_column "collection_name" df = true ->
  has_column "module_name" df = true ->
  has_column "module_invocation_count" df = true ->
  clean_modules_of df =
    Return {| columns := columns df;
              rows := List.filter (fun r => valid_module_name (row_get "module_name" r))
                                  (map clean_row (rows df)) |}.
Proof.
  intros Hc Hm Hn. unfold clean_modules_of.
  rewrite (get_column_present _ _ Hc), obind_return.
  rewrite (set_column_present _ _ _ Hc) by (by rewrite !length_map).
  rewrite obind_return.
  rewrite get_column_present by (by rewrite (has_column_columns _ df)).
  rewrite obind_return.
  rewrite set_column_present
    by first [by rewrite (has_column_columns _ df) | by rewrite !length_map].
  rewrite obind_return.
  rewrite get_column_present by (by rewrite (has_column_columns _ df)).
  rewrite obind_return.
  rewrite set_column_present
    by first [by rewrite (has_column_columns _ df) | by rewrite !length_map].
  rewrite obind_return.
  rewrite get_column_present by (by rewrite (has_column_columns _ df)).
  rewrite obind_return. f_equal.
  apply DataFrame_eq; [reflexivity |].
  rewrite filter_mask_column. cbn [rows].
  rewrite !zip_with_map2_self, !map_map. f_equal.
  apply map_ext. intros r. unfold clean_row.
  rewrite (row_get_insert_ne "module_name" "module_invocation_count") by done.
  rewrite (row_get_insert_ne "collection_name" "module_invocation_count") by done.
  by rewrite (row_get_insert_ne "collection_name" "module_name") by done.
Qed.

Lemma row_get_clean_row `{Lib} (r : gmap string cell) :
  row_get "collection_name" (clean_row r) = astype_str (row_get "collection_name" r)
  /\ row_get "module_name" (clean_row r) = astype_str (row_get "module_name" r)
  /\ row_get "module_invocation_count" (clean_row r)
     = count_or_zero (row_get "module_invocation_count" r).
Proof.
  unfold clean_row. split; [| split].
  - rewrite (row_get_insert_ne "module_invocation_count" "collection_name") by done.
    rewrite (row_get_insert_ne "module_name" "collection_name") by done.
    apply row_get_insert.
  - rewrite (row_get_insert_ne "module_invocation_count" "module_name") by done.
    apply row_get_insert.
  - apply row_get_insert.
Qed.

(** X4.  When the module name of every row is a float [nan], empty or the
    text ['nan'], the cleaning leaves no row and the module report returns
    its text about the lack of valid data. *)
Theorem top_modules_no_valid_rows `{Lib} (s : state) (df : DataFrame) (top_n : Z) :
  table s = Some df ->
  empty df = false ->
  has_column "collection_name" df = true ->
  has_column "module_name" df = true ->
  has_column "module_invocation_count" df = true ->
  (forall r, r ∈ rows df ->
             row_get "module_name" r = VNaN
             \/ row_get "module_name" r = VStr ""
             \/ row_get "module_name" r = VStr "nan") ->
  (get_top_modules_used top_n s).1 =
    Return "No valid module usage data after cleaning in combined data.".
Proof.
  intros Ht Hne Hc Hm Hn Hall.
  destruct (get_top_modules_used_run top_n s df Ht) as (s' & -> & _). cbn [fst].
  unfold top_modules_summary_of. rewrite Hne, Hc, Hm, Hn. cbn [negb orb].
  rewrite (clean_modules_of_rows _ Hc Hm Hn), obind_return.
  assert (List.filter (fun r => valid_module_name (row_get "module_name" r))
                      (map clean_row (rows df)) = []) as ->; [| done].
  induction (rows df) as [| r l IH]; [done |].
  cbn [map List.filter].
  destruct (row_get_clean_row r) as (_ & -> & _).
  assert (valid_module_name (astype_str (row_get "module_name" r)) = false) as ->.
  { destruct (Hall r) as [-> | [-> | ->]]; [apply elem_of_cons; by left | done ..]. }
  apply IH. intros r' Hr'. apply Hall, elem_of_cons. by right.
Qed.

Lemma top_modules_no_valid_rows_witness :
  let df := DataFrame_of_records
              [ [("collection_name", VStr "A"); ("module_name", VStr "");
                 ("module_invocation_count", VInt 5)];
                [("collection_name", VStr "A"); ("module_name", VStr "nan");
                 ("module_invocation_count", VInt 7)] ] in
  (get_top_modules_used (H := Samples.lib) 10 (loaded df 0)).1 =
    Return "No valid module usage data after cleaning in combined data.".
Proof.
  intros df.
  apply (top_modules_no_valid_rows (H := Samples.lib) (loaded df 0) df 10);
    try reflexivity.
  intros r Hr. apply list_elem_of_In in Hr.
  destruct Hr as [<- | [<- | []]]; [right; left | right; right]; reflexivity.
Defined.












(** ** Further properties of the jobs report *)

Lemma with_status_mask (status : string) (df : DataFrame) :
  rows (filter_mask (map (eq_str status) (map (row_get "job_status") (rows df))) df)
  = with_status status (rows df).
Proof. apply (filter_mask_column (eq_str status)). Qed.

(** The head of a report on a window: the three counts. *)
Lemma jobs_report_counts `{Lib} (n_days : Z) (df_recent_jobs : DataFrame) (output : string) :
  jobs_report n_days df_recent_jobs = Return output ->
  exists rest,
    output = "## Job Run Summary (Last " +:+ Fmt.str_int n_days +:+ " Days):" +:+ nl +:+ nl
             +:+ "- Total Jobs Run: "
             +:+ Fmt.str_int (Z.of_nat (length (rows df_recent_jobs))) +:+ nl
             +:+ "- Successful Jobs: "
             +:+ Fmt.str_int (Z.of_nat (length (with_status "successful" (rows df_recent_jobs))))
             +:+ nl
             +:+ "- Failed Jobs: "
             +:+ Fmt.str_int (Z.of_nat (length (with_status "failed" (rows df_recent_jobs))))
             +:+ nl +:+ rest.
Proof.
  unfold jobs_report.
  destruct (has_column "job_status" df_recent_jobs) eqn:Hs;
    [| by rewrite (get_column_absent _ _ Hs)].
  rewrite (get_column_present _ _ Hs), obind_return.
  destruct (if has_column "job_host_count" df_recent_jobs then _ else _) as [hosts | e];
    [| discriminate].
  rewrite obind_return.
  destruct (select_columns _ df_recent_jobs) as [sample | e]; [| discriminate].
  rewrite obind_return. intros [= <-].
  unfold shape0. rewrite !with_status_mask.
  destruct (0 <? _); eexists; rewrite !string_app_assoc; reflexivity.
Qed.

(** X7.  In a jobs report the successful and the failed jobs are counted
    among the jobs of the window by their [job_status]; together they are at
    most the total, and fewer as soon as some job has another status. *)
Theorem jobs_status_counts `{Lib} (n_days : Z) (df_recent_jobs : DataFrame)
  (output : string) :
  jobs_report n_days df_recent_jobs = Return output ->
  let total := length (rows df_recent_jobs) in
  let successful := length (with_status "successful" (rows df_recent_jobs)) in
  let failed := length (with_status "failed" (rows df_recent_jobs)) in
  (exists rest,
     output = "## Job Run Summary (Last " +:+ Fmt.str_int n_days +:+ " Days):" +:+ nl +:+ nl
              +:+ "- Total Jobs Run: " +:+ Fmt.str_int (Z.of_nat total) +:+ nl
              +:+ "- Successful Jobs: " +:+ Fmt.str_int (Z.of_nat successful) +:+ nl
              +:+ "- Failed Jobs: " +:+ Fmt.str_int (Z.of_nat failed) +:+ nl +:+ rest)
  /\ (successful + failed <= total)%nat
  /\ ((exists r, In r (rows df_recent_jobs)
                 /\ row_get "job_status" r <> VStr "successful"
                 /\ row_get "job_status" r <> VStr "failed") ->
      (successful + failed < total)%nat).
Proof.
  intros Hout total successful failed.
  split; [by apply jobs_report_counts |].
  destruct (filter_disjoint_length
              (fun r => eq_str "successful" (row_get "job_status" r))
              (fun r => eq_str "failed" (row_get "job_status" r)) (rows df_recent_jobs))
    as (Hle & Hlt).
  { intros r. unfold eq_str. destruct (row_get "job_status" r); try done.
    intros Heq%bool_decide_eq_true. subst. reflexivity. }
  split; [exact Hle |].
  intros (r & Hr & Hs & Hf). apply Hlt. exists r. split; [done |].
  unfold eq_str. destruct (row_get "job_status" r); try done.
  split; apply bool_decide_eq_false; congruence.
Qed.

Lemma jobs_status_counts_witness :
  let window :=
    DataFrame_of_records
      [ [("job_status", VStr "successful")]; [("job_status", VStr "running")] ] in
  exists output,
    jobs_report (H := Samples.lib) 30 window = Return output
    /\ (length (with_status "successful" (rows window))
        + length (with_status "failed" (rows window)) < length (rows window))%nat.
Proof.
  intros window.
  destruct (jobs_report (H := Samples.lib) 30 window) as [output | e] eqn:Hout;
    [| vm_compute in Hout; discriminate].
  exists output. split; [reflexivity |].
  apply (proj2 (proj2 (jobs_status_counts (H := Samples.lib) 30 window output Hout))).
  exists (list_to_map [("job_status"%string, VStr "running")]).
  split; [right; left; reflexivity |]. split; vm_compute; discriminate.
Defined.



Lemma filter_map_sublist {A B} (p q : A -> bool) (f : A -> B) (l : list A) :
  (forall x, p x = true -> q x = true) ->
  sublist (map f (List.filter p l)) (map f (List.filter q l)).
Proof.
  intros Hpq. induction l as [| x l IH]; [constructor |].
  cbn [List.filter]. destruct (p x) eqn:Hp.
  - rewrite (Hpq x Hp). cbn [map]. by constructor.
  - destruct (q x); cbn [map]; [by constructor | done].
Qed.

Lemma in_window_wider (n_days n_days' now : Z) (parsed : option Z) :
  n_days <= n_days' ->
  in_window n_days now parsed = true -> in_window n_days' now parsed = true.
Proof.
  intros Hn. unfold in_window, timedelta_days. destruct parsed as [t |]; [| done].
  rewrite !andb_true_iff, !Z.leb_le. lia.
Qed.

Lemma recent_jobs_of_column `{Lib} (n_days now : Z) (df d : DataFrame) :
  recent_jobs_of n_days now df = Return d ->
  has_column "job_created_timestamp" df = true.
Proof.
  destruct (has_column "job_created_timestamp" df) eqn:Hc; [done |].
  unfold recent_jobs_of. by rewrite (get_column_absent _ _ Hc).
Qed.

(** X9.  A longer window loses no job: at the same time on the same table,
    the rows kept for [n_days] are, in the same order, among the rows kept
    for any [n_days' >= n_days]. *)
Theorem wider_window_keeps_jobs `{Lib} (n_days n_days' now : Z) (df d d' : DataFrame) :
  n_days <= n_days' ->
  recent_jobs_of n_days now df = Return d ->
  recent_jobs_of n_days' now df = Return d' ->
  sublist (rows d) (rows d') /\ (length (rows d) <= length (rows d'))%nat.
Proof.
  intros Hn Hd Hd'.
  pose proof (recent_jobs_of_column _ _ _ _ Hd) as Hc.
  rewrite (recent_jobs_of_window n_days now df Hc) in Hd.
  rewrite (recent_jobs_of_window n_days' now df Hc) in Hd'.
  injection Hd as <-. injection Hd' as <-. cbn [rows].
  assert (sublist (window_rows n_days now df) (window_rows n_days' now df)) as Hsub.
  { unfold window_rows. apply filter_map_sublist.
    intros rp. by apply in_window_wider. }
  split; [exact Hsub | by apply sublist_length].
Qed.

Lemma wider_window_keeps_jobs_witness :
  let now := 1700000000 * 10 ^ 9 in
  exists d d',
    recent_jobs_of (H := Samples.lib) 30 now (Samples.three_jobs now) = Return d
    /\ recent_jobs_of (H := Samples.lib) 60 now (Samples.three_jobs now) = Return d'
    /\ (length (rows d) <= length (rows d'))%nat.
Proof.
  intros now.
  destruct (recent_jobs_of (H := Samples.lib) 30 now (Samples.three_jobs now))
    as [d | e] eqn:Hd; [| vm_compute in Hd; discriminate].
  destruct (recent_jobs_of (H := Samples.lib) 60 now (Samples.three_jobs now))
    as [d' | e] eqn:Hd'; [| vm_compute in Hd'; discriminate].
  exists d, d'. split; [reflexivity |]. split; [reflexivity |].
  apply (wider_window_keeps_jobs (H := Samples.lib) 30 60 now (Samples.three_jobs now) d d');
    [lia | exact Hd | exact Hd'].
Defined.



(** ** Further properties of the compliance report *)

Lemma keep_first_nonempty (subset : list string) (rs : list (gmap string cell)) :
  rs <> [] -> keep_first subset [] rs <> [].
Proof. destruct rs as [| r rs]; [done |]. by cbn. Qed.

Lemma empty_false_inv (df : DataFrame) :
  empty df = false -> rows df <> [] /\ columns df <> [].
Proof. unfold empty. by destruct (rows df), (columns df). Qed.

(** X11.  Whenever the compliance report computes its counts, the table
    being non-empty, at least one cluster is left after the deduplication:
    the total is positive and the line of the compliance rate is part of the
    report. *)
Theorem compliance_rate_always_reported `{Lib} (s : state) (df uniq : DataFrame) :
  table s = Some df ->
  empty df = false ->
  unique_clusters_of df = Return uniq ->
  0 < total_clusters uniq
  /\ forall compliant non_compliant,
       compliance_lines (total_clusters uniq) compliant non_compliant =
         "## Cluster Compliance Summary (Last Year):" +:+ nl +:+ nl
         +:+ "- Total Unique Clusters Monitored: " +:+ Fmt.str_int (total_clusters uniq) +:+ nl
         +:+ "- Compliant Clusters: " +:+ Fmt.str_int compliant +:+ nl
         +:+ "- Non-Compliant Clusters: " +:+ Fmt.str_int non_compliant +:+ nl
         +:+ "- Compliance Rate: "
         +:+ Fmt.pct2 (Fmt.true_div compliant (total_clusters uniq)) +:+ nl.
Proof.
  intros Ht Hne Huniq.
  assert (0 < total_clusters uniq) as Hpos.
  { unfold unique_clusters_of in Huniq.
    destruct (has_column "is_compliant" df) eqn:Hc.
    2: { unfold normalized_clusters_of in Huniq.
         by rewrite (get_column_absent _ _ Hc) in Huniq. }
    rewrite (normalized_clusters_of_rows _ Hc), obind_return in Huniq.
    destruct (sort_values "job_created_date" false _) as [sorted | e] eqn:Hsort; [| done].
    rewrite obind_return in Huniq.
    destruct (sort_values_descending _ _ _ Hsort) as (Hperm & _ & _).
    cbn [rows] in Hperm.
    unfold drop_duplicates in Huniq. destruct (List.filter _ _); [| done].
    injection Huniq as <-. unfold total_clusters, shape0. cbn [rows].
    destruct (empty_false_inv _ Hne) as (Hrows & _).
    assert (rows sorted <> []) as Hsorted.
    { intros Hnil. apply Hrows. apply length_zero_iff_nil.
      rewrite <- (length_map normalized_row), <- (Permutation_length Hperm), Hnil. done. }
    pose proof (keep_first_nonempty ["job_org_id"; "job_cluster_id"] _ Hsorted) as Hkept.
    destruct (keep_first _ [] (rows sorted)); [done | cbn; lia]. }
  split; [exact Hpos |].
  intros compliant non_compliant. unfold compliance_lines.
  rewrite (proj2 (Z.ltb_lt 0 _) Hpos). by rewrite !string_app_assoc.
Qed.

Lemma compliance_rate_always_reported_witness :
  0 < total_clusters Samples.the_later_snapshot.
Proof.
  refine (proj1 (compliance_rate_always_reported (H := Samples.lib)
                   (loaded Samples.two_snapshots_of_one_cluster 0)
                   Samples.two_snapshots_of_one_cluster Samples.the_later_snapshot
                   eq_refl eq_refl _)).
  vm_compute. reflexivity.
Defined.

Lemma lower_str_int_first (z : Z) :
  exists a rest, lower (Fmt.str_int z) = String a rest
                 /\ a <> "t"%char /\ a <> "f"%char.
Proof.
  unfold Fmt.str_int. destruct (Z.to_int z) as [d | d].
  - destruct d; cbn; eexists _, _; (split; [reflexivity |]); split; discriminate.
  - cbn. eexists _, _. split; [reflexivity |]. split; discriminate.
Qed.

Lemma eq_str_number (s : string) (z : Z) (a : ascii) (rest : string) :
  s = String a rest -> a = "t"%char \/ a = "f"%char ->
  eq_str s (VStr (lower (Fmt.str_int z))) = false.
Proof.
  intros -> Ha. cbn. apply bool_decide_eq_false.
  destruct (lower_str_int_first z) as (b & rest' & -> & Ht & Hf).
  intros [= -> _]. by destruct Ha.
Qed.

(** X12.  Which raw values of [is_compliant] the report counts: a row is
    counted as compliant exactly when the value is the boolean [True] or a
    text that reads ['true'] once its ASCII letters are lowered, and as
    non-compliant exactly when it is [False] or such a text for ['false'].
    A number (1 or 0 too) and a missing value are counted as neither. *)
Theorem values_counted_as_compliant `{Lib} (r : gmap string cell) :
  (forall t, row_get "is_compliant" r <> VTime t) ->
  let flag := row_get "is_compliant" (normalized_row r) in
  (eq_str "true" flag = true <->
   row_get "is_compliant" r = VBool true
   \/ exists text, row_get "is_compliant" r = VStr text /\ lower text = "true"%string)
  /\ (eq_str "false" flag = true <->
      row_get "is_compliant" r = VBool false
      \/ exists text, row_get "is_compliant" r = VStr text /\ lower text = "false"%string)
  /\ (forall z, row_get "is_compliant" r = VInt z ->
                eq_str "true" flag = false /\ eq_str "false" flag = false)
  /\ (isna (row_get "is_compliant" r) = true ->
      eq_str "true" flag = false /\ eq_str "false" flag = false).
Proof.
  intros Htime flag. subst flag. unfold normalized_row. rewrite row_get_insert.
  assert (forall s a rest, s = String a rest -> (a = "t"%char \/ a = "f"%char) ->
            eq_str s (str_lower (astype_str (row_get "is_compliant" r))) = true <->
            (exists b, row_get "is_compliant" r = VBool b
                       /\ lower (if b then "True" else "False") = s)
            \/ exists text, row_get "is_compliant" r = VStr text /\ lower text = s)
    as Hwhen.
  { intros s a rest Hs Ha.
    destruct (row_get "is_compliant" r) as [| | | b | z | text | t] eqn:Hraw.
    - subst s. split; [cbn; rewrite bool_decide_eq_true; intros [= <- _]; by destruct Ha |].
      intros [(b & [=] & _) | (text & [=] & _)].
    - subst s. split; [cbn; rewrite bool_decide_eq_true; intros [= <- _]; by destruct Ha |].
      intros [(b & [=] & _) | (text & [=] & _)].
    - subst s. split; [cbn; rewrite bool_decide_eq_true; intros [= <- _]; by destruct Ha |].
      intros [(b & [=] & _) | (text & [=] & _)].
    - split.
      + intros Heq. left. exists b. split; [done |].
        destruct b; cbn in Heq; by apply bool_decide_eq_true in Heq.
      + intros [(b' & [= <-] & Hlow) | (text & [=] & _)].
        destruct b; cbn; by apply bool_decide_eq_true.
    - cbn [astype_str str_lower]. rewrite (eq_str_number _ z a rest Hs Ha).
      split; [done |]. intros [(b & [=] & _) | (text & [=] & _)].
    - cbn [astype_str str_lower eq_str]. rewrite bool_decide_eq_true. split.
      + intros Heq. right. by exists text.
      + by intros [(b & [=] & _) | (text' & [= <-] & Hlow)].
    - by destruct (Htime t). }
  split; [| split; [| split]].
  - rewrite (Hwhen "true"%string "t"%char "rue"%string eq_refl (or_introl eq_refl)).
    split.
    + intros [(b & Hb & Hlow) | Htext]; [left | by right].
      destruct b; [done | by vm_compute in Hlow].
    + intros [Hb | Htext]; [left | by right]. by exists true.
  - rewrite (Hwhen "false"%string "f"%char "alse"%string eq_refl (or_intror eq_refl)).
    split.
    + intros [(b & Hb & Hlow) | Htext]; [left | by right].
      destruct b; [by vm_compute in Hlow | done].
    + intros [Hb | Htext]; [left | by right]. by exists false.
  - intros z Hz. rewrite Hz. cbn [astype_str str_lower].
    split; [by apply (eq_str_number _ z "t"%char "rue"%string); [| left]
           | by apply (eq_str_number _ z "f"%char "alse"%string); [| right]].
  - intros Hna. destruct (row_get "is_compliant" r); try done; by vm_compute.
Qed.

Lemma values_counted_as_compliant_witness :
  let r : gmap string cell := list_to_map [("is_compliant"%string, VInt 1)] in
  eq_str "true" (row_get "is_compliant" (normalized_row (H := Samples.lib) r)) = false
  /\ eq_str "false" (row_get "is_compliant" (normalized_row (H := Samples.lib) r)) = false.
Proof.
  intros r.
  assert (forall t, row_get "is_compliant" r <> VTime t) as Htime by (intros t; discriminate).
  destruct (values_counted_as_compliant (H := Samples.lib) r Htime) as (_ & _ & Hnum & _).
  apply (Hnum 1). reflexivity.
Defined.
(** ** Number formatting in the reports *)

Lemma div_half_even_exact (a q : Z) : 0 < q -> Fmt.div_half_even (a * q) q = a.
Proof.
  intros Hq. unfold Fmt.div_half_even.
  rewrite Z.div_mul, Z.mod_mul by lia.
  change (2 * 0) with 0. by rewrite (proj2 (Z.compare_lt_iff 0 q) Hq).
Qed.

Lemma div_half_even_1 (a : Z) : Fmt.div_half_even a 1 = a.
Proof. rewrite <- (Z.mul_1_r a) at 1. by apply div_half_even_exact. Qed.

Lemma round_b64_same (n : Z) :
  0 < n -> Fmt.round_b64 n n = {| Fmt.mant := 2 ^ 52; Fmt.expo := -52 |}.
Proof.
  intros Hn. unfold Fmt.round_b64.
  rewrite (proj2 (Z.eqb_neq n 0)) by lia.
  rewrite Z.sub_diag. cbn [Z.leb Z.compare Z.pow Z.pow_pos Pos.iter].
  rewrite Z.mul_1_r, Z.leb_refl.
  change (0 - 52) with (-52). cbn [Z.leb Z.compare Z.opp].
  rewrite (Z.mul_comm n), div_half_even_exact by lia.
  reflexivity.
Qed.

Lemma round_b64_whole (n : Z) :
  0 < n < 2 ^ 53 ->
  Fmt.round_b64 n 1
  = {| Fmt.mant := n * 2 ^ (52 - Z.log2 n); Fmt.expo := Z.log2 n - 52 |}.
Proof.
  intros [Hpos Hlt]. unfold Fmt.round_b64.
  rewrite (proj2 (Z.eqb_neq n 0)) by lia.
  change (Z.log2 1) with 0. rewrite Z.sub_0_r.
  pose proof (Z.log2_nonneg n) as Hk0.
  pose proof (Z.log2_spec n Hpos) as [Hlo Hhi].
  assert (Z.log2 n < 53) as Hk by (by apply Z.log2_lt_pow2).
  rewrite (proj2 (Z.leb_le 0 (Z.log2 n)) Hk0).
  rewrite Z.mul_1_l, (proj2 (Z.leb_le _ _) Hlo).
  assert (n * 2 ^ (52 - Z.log2 n) < 2 ^ 53) as Hm.
  { replace (2 ^ 53) with (2 ^ Z.succ (Z.log2 n) * 2 ^ (52 - Z.log2 n)).
    - apply Z.mul_lt_mono_pos_r; [apply Z.pow_pos_nonneg; lia | exact Hhi].
    - rewrite <- Z.pow_add_r by lia. f_equal. lia. }
  destruct (0 <=? Z.log2 n - 52) eqn:He.
  - apply Z.leb_le in He. assert (Z.log2 n = 52) as Hk52 by lia.
    rewrite Hk52 in *. change (52 - 52) with 0 in *. change (2 ^ 0) with 1 in *.
    rewrite Z.mul_1_r in *. rewrite !div_half_even_1.
    rewrite (proj2 (Z.eqb_neq n (2 ^ 53))) by lia. by rewrite Z.mul_1_r.
  - replace (- (Z.log2 n - 52)) with (52 - Z.log2 n) by lia.
    rewrite !div_half_even_1.
    rewrite (proj2 (Z.eqb_neq _ (2 ^ 53))) by lia. reflexivity.
Qed.

Lemma fixed_0_whole (n : Z) :
  0 < n < 2 ^ 53 -> Fmt.fixed 0 (Fmt.round_b64 n 1) = Fmt.str_int n.
Proof.
  intros Hn. rewrite (round_b64_whole n Hn). destruct Hn as [Hpos Hlt].
  assert (Z.log2 n < 53) as Hk by (by apply Z.log2_lt_pow2).
  unfold Fmt.fixed, Fmt.b64_num, Fmt.b64_den. cbn [Fmt.mant Fmt.expo].
  change (10 ^ Z.of_nat 0) with 1. rewrite Z.div_1_r.
  destruct (0 <=? Z.log2 n - 52) eqn:He.
  - apply Z.leb_le in He. assert (Z.log2 n = 52) as Hk52 by lia.
    rewrite Hk52. change (52 - 52) with 0. change (2 ^ 0) with 1.
    rewrite !Z.mul_1_r. rewrite div_half_even_1. reflexivity.
  - rewrite Z.mul_1_r.
    replace (- (Z.log2 n - 52)) with (52 - Z.log2 n) by lia.
    rewrite div_half_even_exact; [done |]. apply Z.pow_pos_nonneg; lia.
Qed.

Lemma str_int_negative (n : Z) : n < 0 -> Fmt.str_int n = "-" +:+ Fmt.str_int (- n).
Proof. intros Hn. destruct n as [| p | p]; [lia | lia |]. reflexivity. Qed.

(** X13.  The rate printed when every counted row is of the kind counted
    (all jobs successful, all clusters compliant) is [100.00%], and when
    none is it is [0.00%], whatever the total. *)
Theorem rate_of_all_and_of_none (total : Z) :
  0 < total ->
  Fmt.pct2 (Fmt.true_div total total) = "100.00%"%string
  /\ Fmt.pct2 (Fmt.true_div 0 total) = "0.00%"%string.
Proof.
  intros Hpos. unfold Fmt.true_div. by rewrite (round_b64_same total Hpos).
Qed.

Lemma rate_of_all_and_of_none_witness :
  Fmt.pct2 (Fmt.true_div 7 7) = "100.00%"%string
  /\ Fmt.pct2 (Fmt.true_div 0 7) = "0.00%"%string.
Proof. apply (rate_of_all_and_of_none 7). lia. Defined.

(** X14.  The total of hosts is printed exactly: below [2 ^ 53] in absolute
    value the [.0f] format of a whole number is its decimal writing.  From
    [2 ^ 53 + 1] on the conversion to a float may change the number. *)
Theorem host_total_printed_exactly (n : Z) :
  - 2 ^ 53 < n < 2 ^ 53 -> Fmt.f0_int n = Fmt.str_int n.
Proof.
  intros [Hlo Hhi]. unfold Fmt.f0_int. destruct (n <? 0) eqn:Hneg.
  - apply Z.ltb_lt in Hneg. rewrite fixed_0_whole by lia.
    by rewrite (str_int_negative n Hneg).
  - apply Z.ltb_ge in Hneg. destruct (decide (n = 0)) as [-> | Hnz]; [reflexivity |].
    apply fixed_0_whole. lia.
Qed.

Lemma host_total_printed_exactly_witness :
  Fmt.f0_int 1234567 = "1234567"%string
  /\ Fmt.f0_int (2 ^ 53 + 1) <> Fmt.str_int (2 ^ 53 + 1).
Proof.
  split.
  - rewrite (host_total_printed_exactly 1234567); [reflexivity | lia].
  - vm_compute. discriminate.
Defined.
(** * Properties of the reporter as a script *)

Import Script.

(** ** The loader *)

Lemma say_run (line : string) (out : list string) :
  say line out = (Return tt, out ++ [line]).
Proof. reflexivity. Qed.

Lemma shape0_DataFrame_of_records (records : list (list (string * cell))) :
  shape0 (DataFrame_of_records records) = Z.of_nat (length records).
Proof. unfold shape0, DataFrame_of_records. cbn [rows]. by rewrite !length_map. Qed.

Lemma find_absent (key : string) (fields : list (string * json)) :
  key ∉ map fst fields ->
  List.find (fun kv => bool_decide (kv.1 = key)) fields = None.
Proof.
  induction fields as [| [k v] fields IH]; [done |].
  cbn. intros Hnot. apply not_elem_of_cons in Hnot as [Hk Hrest].
  rewrite bool_decide_eq_false_2 by congruence. by apply IH.
Qed.

Lemma find_app_absent (key : string) (l1 l2 : list (string * json)) :
  key ∉ map fst l1 ->
  List.find (fun kv => bool_decide (kv.1 = key)) (l1 ++ l2)
  = List.find (fun kv => bool_decide (kv.1 = key)) l2.
Proof.
  induction l1 as [| [k v] l1 IH]; [done |].
  cbn. intros Hnot. apply not_elem_of_cons in Hnot as [Hk Hrest].
  rewrite bool_decide_eq_false_2 by congruence. by apply IH.
Qed.

Lemma subscript_last (key : string) (before after : list (string * json)) (v : json) :
  key ∉ map fst after ->
  subscript key (JObj (before ++ (key, v) :: after)) = Return v.
Proof.
  intros Hnot. unfold subscript.
  rewrite reverse_app, reverse_cons, <- app_assoc.
  rewrite find_app_absent.
  - cbn. by rewrite bool_decide_eq_true_2.
  - intros Hin. apply Hnot. apply list_elem_of_fmap in Hin as (kv & -> & Hkv).
    rewrite elem_of_reverse in Hkv. by apply (list_elem_of_fmap_2 fst).
Qed.

Lemma data_records_of_last (before after : list (string * json)) (v : json) :
  "data_records" ∉ map fst after ->
  data_records_of (JObj (before ++ ("data_records", v) :: after))
  = Return (match v with JArr items => Some items | _ => None end).
Proof.
  intros Hnot. unfold data_records_of. cbn [contains].
  rewrite bool_decide_eq_true_2.
  - cbn [mbind outcome_bind obind]. by rewrite (subscript_last _ _ _ _ Hnot).
  - rewrite map_app. apply elem_of_app. right. cbn. apply list_elem_of_here.
Qed.

Lemma data_records_of_bare_list (items : list json) :
  JStr "data_records" ∉ items -> data_records_of (JArr items) = Return None.
Proof.
  intros Hnot. unfold data_records_of. cbn [contains].
  assert (existsb (fun j => match j with
                            | JStr s => bool_decide (s = "data_records"%string)
                            | _ => false
                            end) items = false) as ->; [| reflexivity].
  induction items as [| j items IH]; [done |].
  apply not_elem_of_cons in Hnot as [Hj Hrest]. cbn. rewrite (IH Hrest).
  destruct j as [| | | | s | |]; try done.
  rewrite bool_decide_eq_false_2; [done |]. by intros ->.
Qed.

Lemma empty_empty_frame : empty Extractor.empty_frame = true.
Proof. reflexivity. Qed.

(** X15.  The loader never raises: whatever is on the disk it binds a
    table and prints exactly one line; the table has rows only when that
    line is the one that tells how many rows were loaded. *)
Theorem loader_always_binds_a_table `{Disk} (out : list string) :
  exists df line,
    load_table out = (Return df, out ++ [line])
    /\ (empty df = false ->
        line = "Successfully loaded " +:+ Fmt.str_int (shape0 df) +:+ " rows from "
               +:+ COMBINED_JSON_PATH).
Proof.
  unfold load_table.
  destruct (path_exists COMBINED_JSON_PATH); [| by eexists _, _].
  destruct (read_json COMBINED_JSON_PATH) as [doc | | e]; [| by eexists _, _ ..].
  unfold try_except.
  change (mbind ?k ?m) with (Py.bind m k). unfold Py.bind at 1, lift at 1.
  destruct (data_records_of doc) as [[items |] | e]; [| by eexists _, _ ..].
  unfold Py.bind at 1, lift at 1.
  destruct (DataFrame_of_items items) as [df | e]; [| by eexists _, _].
  eexists df, _. split; [reflexivity |]. intros _. reflexivity.
Qed.

(** X16.  A file that holds an object whose last field [data_records] is a
    list of flat records is loaded: the table has one row per record, and the
    line printed gives that number. *)
Theorem loader_reads_flat_records `{Disk}
    (before after : list (string * json)) (items : list json)
    (records : list (list (string * cell))) (out : list string) :
  path_exists COMBINED_JSON_PATH = true ->
  read_json COMBINED_JSON_PATH
    = Loaded (JObj (before ++ ("data_records"%string, JArr items) :: after)) ->
  "data_records" ∉ map fst after ->
  mapM flat_record items = Some records ->
  load_table out
  = (Return (DataFrame_of_records records),
     out ++ ["Successfully loaded " +:+ Fmt.str_int (Z.of_nat (length records))
             +:+ " rows from " +:+ COMBINED_JSON_PATH])
  /\ shape0 (DataFrame_of_records records) = Z.of_nat (length items).
Proof.
  intros Hexists Hread Hlast Hflat. split.
  - unfold load_table. rewrite Hexists, Hread. unfold try_except.
    change (mbind ?k ?m) with (Py.bind m k). unfold Py.bind at 1, lift at 1.
    rewrite (data_records_of_last _ _ _ Hlast).
    unfold Py.bind at 1, lift at 1. unfold DataFrame_of_items. rewrite Hflat.
    cbv [mbind M_bind Py.bind say modify mret M_ret Py.ret lift].
    by rewrite shape0_DataFrame_of_records.
  - rewrite shape0_DataFrame_of_records. f_equal.
    by rewrite (length_mapM _ _ _ Hflat).
Qed.

(** X17.  Without a list under [data_records] nothing is loaded and the
    warning is printed: when the document is an object without that field,
    or whose last such field is not a list, and also when the document is
    itself a list (of records, say) none of whose elements is the text
    [data_records]. *)
Theorem loader_warns_without_record_list `{Disk} (doc : json) (out : list string) :
  path_exists COMBINED_JSON_PATH = true ->
  read_json COMBINED_JSON_PATH = Loaded doc ->
  (exists fields, doc = JObj fields /\ "data_records" ∉ map fst fields)
  \/ (exists before v after,
        doc = JObj (before ++ ("data_records"%string, v) :: after)
        /\ ("data_records" ∉ map fst after) /\ forall items, v <> JArr items)
  \/ (exists items, doc = JArr items /\ JStr "data_records" ∉ items) ->
  load_table out
  = (Return Extractor.empty_frame,
     out ++ ["Warning: 'data_records' key not found or not a list in "
             +:+ COMBINED_JSON_PATH +:+ ". Check JSON structure."]).
Proof.
  intros Hexists Hread Hdoc.
  assert (data_records_of doc = Return None) as Hnone.
  { destruct Hdoc as [(fields & -> & Hnot) | [(before & v & after & -> & Hnot & Hv)
                                             | (items & -> & Hnot)]].
    - unfold data_records_of. cbn [contains]. by rewrite bool_decide_eq_false_2.
    - rewrite (data_records_of_last _ _ _ Hnot). destruct v; try done. by destruct (Hv items).
    - by apply data_records_of_bare_list. }
  unfold load_table. rewrite Hexists, Hread. unfold try_except.
  change (mbind ?k ?m) with (Py.bind m k). unfold Py.bind at 1, lift at 1.
  by rewrite Hnone.
Qed.

Lemma loader_reads_flat_records_witness :
  exists df,
    load_table (H0 := Disks.holding Disks.snapshot_document) []
    = (Return df,
       ["Successfully loaded 1 rows from telemetry_json_output/ansible_all_telemetry_combined_reliable_data.json"%string])
    /\ shape0 df = 1.
Proof.
  destruct (mapM flat_record [Disks.one_record]) as [records |] eqn:Hflat;
    [| vm_compute in Hflat; discriminate].
  exists (DataFrame_of_records records).
  destruct (loader_reads_flat_records (H := Disks.holding Disks.snapshot_document)
              [ ("table_name"%string, JStr "ansible_all_telemetry_combined_reliable");
                ("description"%string, JStr "Combined telemetry");
                ("data_schema"%string, JObj [("job_status"%string, JStr "object")]) ]
              [] [Disks.one_record] records [])
    as [Hrun Hrows].
  - reflexivity.
  - reflexivity.
  - apply not_elem_of_nil.
  - exact Hflat.
  - rewrite Hrun, Hrows. rewrite <- (length_mapM _ _ _ Hflat). split; reflexivity.
Defined.

Lemma loader_warns_without_record_list_witness :
  load_table (H0 := Disks.holding Disks.bare_list) []
  = (Return Extractor.empty_frame,
     ["Warning: 'data_records' key not found or not a list in telemetry_json_output/ansible_all_telemetry_combined_reliable_data.json. Check JSON structure."%string]).
Proof.
  apply (loader_warns_without_record_list (H := Disks.holding Disks.bare_list) Disks.bare_list []).
  - reflexivity.
  - reflexivity.
  - right. right. exists [Disks.one_record]. split; [reflexivity |].
    intros Hin. apply list_elem_of_singleton in Hin. discriminate.
Defined.

(** ** The main block *)

Lemma same_table_table (s s' : state) (df : DataFrame) :
  same_table s s' -> table s = Some df -> table s' = Some df.
Proof. intros (_ & Ht & _) <-. exact Ht. Qed.

Lemma same_table_trans (s1 s2 s3 : state) :
  same_table s1 s2 -> same_table s2 s3 -> same_table s1 s3.
Proof. intros (A1 & A2 & A3) (B1 & B2 & B3). repeat split; congruence. Qed.

Lemma script_main_empty `{Lib} (s : state) (df : DataFrame) (out : list string) :
  table s = Some df -> empty df = true ->
  Script.main (s, out)
  = (Return tt,
     (s, out ++ ["--- Ansible Telemetry Analysis Tool ---";
                 "Please ensure 'get_telesense_data.py' was run successfully to create "
                 +:+ "'" +:+ COMBINED_JSON_PATH +:+ "' before running analysis.";
                 nl +:+ "--- Analysis Complete ---"])).
Proof.
  intros Ht Hempty. unfold table in Ht. unfold Script.main.
  cbv [mbind M_bind Py.bind Script.print modify call global deref fst snd].
  rewrite Ht, Hempty. by rewrite <- !app_assoc.
Qed.

Lemma script_main_run `{Lib} (s : state) (df : DataFrame) (out : list string) :
  table s = Some df -> empty df = false ->
  exists s1 s2 s3,
    same_table s s1 /\ same_table s s2 /\ same_table s s3
    /\ Script.main (s, out)
       = match (get_jobs_run_summary 30 s).1 with
         | Raise e => (Raise e, (s1, out ++ ["--- Ansible Telemetry Analysis Tool ---"]))
         | Return r1 =>
             match (get_top_modules_used 5 s).1 with
             | Raise e => (Raise e, (s2, out ++ ["--- Ansible Telemetry Analysis Tool ---"; r1]))
             | Return r2 =>
                 match (get_cluster_compliance_summary s).1 with
                 | Raise e =>
                     (Raise e, (s3, out ++ ["--- Ansible Telemetry Analysis Tool ---"; r1; r2]))
                 | Return r3 =>
                     (Return tt,
                      (s3, out ++ ["--- Ansible Telemetry Analysis Tool ---"; r1; r2; r3;
                                   nl +:+ "--- Analysis Complete ---"]))
                 end
             end
         end.
Proof.
  intros Ht Hne.
  destruct (get_jobs_run_summary_run 30 s df Ht) as (s1 & H1 & Hs1).
  pose proof (same_table_table _ _ _ Hs1 Ht) as Ht1.
  destruct (get_top_modules_used_run 5 s1 df Ht1) as (s2 & H2 & Hs2).
  pose proof (same_table_table _ _ _ Hs2 Ht1) as Ht2.
  destruct (get_cluster_compliance_summary_run s2 df Ht2) as (s3 & H3 & Hs3).
  destruct (get_top_modules_used_run 5 s df Ht) as (s2' & H2' & _).
  destruct (get_cluster_compliance_summary_run s df Ht) as (s3' & H3' & _).
  exists s1, s2, s3.
  split; [exact Hs1 |]. split; [exact (same_table_trans _ _ _ Hs1 Hs2) |].
  split; [exact (same_table_trans _ _ _ (same_table_trans _ _ _ Hs1 Hs2) Hs3) |].
  rewrite H2', H3'. cbn [fst].
  unfold table in Ht. unfold Script.main.
  cbv [mbind M_bind Py.bind Script.print modify call global deref fst snd].
  rewrite Ht, Hne, H1.
  destruct (jobs_summary_of 30 (clock s) df) as [r1 | e]; [| reflexivity].
  rewrite H2.
  destruct (top_modules_summary_of 5 df) as [r2 | e]; [| by rewrite <- !app_assoc].
  rewrite H3.
  destruct (compliance_summary_of df) as [r3 | e]; by rewrite <- !app_assoc.
Qed.

(** X18.  When the loader bound a table without rows or without columns
    (no file, an unreadable file, no list of records, an empty list), the
    script prints the loader's line, the title, the request to run the
    extractor first and the closing line; no report is computed. *)
Theorem script_without_data `{Lib} `{Disk} (now : Z) (df : DataFrame) (lines : list string) :
  load_table [] = (Return df, lines) ->
  empty df = true ->
  script now
  = (Return tt,
     (loaded df now,
      lines ++ ["--- Ansible Telemetry Analysis Tool ---";
                "Please ensure 'get_telesense_data.py' was run successfully to create "
                +:+ "'" +:+ COMBINED_JSON_PATH +:+ "' before running analysis.";
                nl +:+ "--- Analysis Complete ---"])).
Proof.
  intros Hload Hempty. unfold script. rewrite Hload.
  by apply (script_main_empty _ df).
Qed.

Lemma script_without_data_witness :
  script (H := Samples.lib) (H0 := Disks.no_file) 0
  = (Return tt,
     (loaded Extractor.empty_frame 0,
      ["Error: Combined JSON file 'telemetry_json_output/ansible_all_telemetry_combined_reliable_data.json' not found. Please run 'get_telesense_data.py' first.";
       "--- Ansible Telemetry Analysis Tool ---";
       "Please ensure 'get_telesense_data.py' was run successfully to create 'telemetry_json_output/ansible_all_telemetry_combined_reliable_data.json' before running analysis.";
       nl +:+ "--- Analysis Complete ---"]%string)).
Proof.
  apply (script_without_data (H := Samples.lib) (H0 := Disks.no_file) 0
           Extractor.empty_frame
           ["Error: Combined JSON file 'telemetry_json_output/ansible_all_telemetry_combined_reliable_data.json' not found. Please run 'get_telesense_data.py' first."%string]);
    reflexivity.
Defined.

(** X19.  On a loaded table with rows the main block prints the title,
    then the texts of the jobs report (30 days), the module report (top 5)
    and the compliance report, in this order, each as the report returns it
    when called alone on the loaded state, then the closing line; the
    loaded table is the same afterwards. *)
Theorem main_prints_reports_in_order `{Lib} (s : state) (df : DataFrame)
    (out : list string) (r1 r2 r3 : string) :
  table s = Some df -> empty df = false ->
  (get_jobs_run_summary 30 s).1 = Return r1 ->
  (get_top_modules_used 5 s).1 = Return r2 ->
  (get_cluster_compliance_summary s).1 = Return r3 ->
  exists s',
    Script.main (s, out)
    = (Return tt,
       (s', out ++ ["--- Ansible Telemetry Analysis Tool ---"; r1; r2; r3;
                    nl +:+ "--- Analysis Complete ---"]))
    /\ same_table s s'.
Proof.
  intros Ht Hne H1 H2 H3.
  destruct (script_main_run s df out Ht Hne) as (s1 & s2 & s3 & _ & _ & Hs3 & Hrun).
  rewrite H1, H2, H3 in Hrun. by exists s3.
Qed.

Lemma main_prints_reports_in_order_witness :
  exists s' r1 r2 r3,
    Script.main (H := Samples.lib) (loaded Disks.one_record_table 0, [])
    = (Return tt,
       (s', ["--- Ansible Telemetry Analysis Tool ---"%string; r1; r2; r3;
             nl +:+ "--- Analysis Complete ---"])).
Proof.
  destruct (get_jobs_run_summary (H := Samples.lib) 30 (loaded Disks.one_record_table 0)).1
    as [r1 | e] eqn:H1; [| vm_compute in H1; discriminate].
  destruct (get_top_modules_used (H := Samples.lib) 5 (loaded Disks.one_record_table 0)).1
    as [r2 | e] eqn:H2; [| vm_compute in H2; discriminate].
  destruct (get_cluster_compliance_summary (H := Samples.lib)
              (loaded Disks.one_record_table 0)).1
    as [r3 | e] eqn:H3; [| vm_compute in H3; discriminate].
  destruct (main_prints_reports_in_order (H := Samples.lib)
              (loaded Disks.one_record_table 0) Disks.one_record_table [] r1 r2 r3
              eq_refl eq_refl H1 H2 H3) as (s' & Hrun & _).
  by exists s', r1, r2, r3.
Defined.

(** X20.  The main block catches nothing.  On a table with rows and
    without the column [job_created_timestamp] it ends in [KeyError] after
    the title alone: no report and no closing line is printed.  If the first
    two reports return and the compliance report raises, it ends in that
    exception after the title and the two texts. *)
Theorem main_stops_at_failing_report `{Lib} (s : state) (df : DataFrame) (out : list string) :
  table s = Some df -> empty df = false ->
  (has_column "job_created_timestamp" df = false ->
   exists s',
     Script.main (s, out)
     = (Raise (KeyError "job_created_timestamp"),
        (s', out ++ ["--- Ansible Telemetry Analysis Tool ---"])))
  /\ (forall r1 r2 e,
        (get_jobs_run_summary 30 s).1 = Return r1 ->
        (get_top_modules_used 5 s).1 = Return r2 ->
        (get_cluster_compliance_summary s).1 = Raise e ->
        exists s',
          Script.main (s, out)
          = (Raise e, (s', out ++ ["--- Ansible Telemetry Analysis Tool ---"; r1; r2]))).
Proof.
  intros Ht Hne.
  destruct (script_main_run s df out Ht Hne) as (s1 & s2 & s3 & _ & _ & _ & Hrun).
  split.
  - intros Hcol.
    destruct (get_jobs_run_summary_run 30 s df Ht) as (s' & H1 & _).
    rewrite H1 in Hrun. cbn [fst] in Hrun.
    unfold jobs_summary_of, recent_jobs_of, get_column in Hrun.
    rewrite Hne, Hcol in Hrun. by exists s1.
  - intros r1 r2 e H1 H2 H3. rewrite H1, H2, H3 in Hrun. by exists s3.
Qed.

Lemma main_stops_at_failing_report_witness :
  exists s',
    Script.main (H := Samples.lib) (loaded Samples.only_job_status 0, [])
    = (Raise (KeyError "job_created_timestamp"),
       (s', ["--- Ansible Telemetry Analysis Tool ---"%string])).
Proof.
  apply (main_stops_at_failing_report (H := Samples.lib)
           (loaded Samples.only_job_status 0) Samples.only_job_status []);
    reflexivity.
Defined.
(** * Further properties of the extractor *)

Import Extractor.

Lemma fetch_chunks_all `{Outside} (table_name : string) (chunks : list DataFrame) :
  forall (i : Z) (acc : list DataFrame) (w : world),
    fetch_chunks table_name i (map inr chunks) acc w
    = (Return (acc ++ chunks),
       printed (imap (fun j chunk =>
                        "  Fetched chunk " +:+ Fmt.str_int (i + Z.of_nat j + 1) +:+ ": "
                        +:+ Fmt.str_int (shape0 chunk) +:+ " rows.") chunks) w).
Proof.
  induction chunks as [| chunk chunks IH]; intros i acc w.
  - cbn. by rewrite printed_nil, app_nil_r.
  - cbn [map fetch_chunks].
    rewrite (bind_return _ _ _ _ _ (print_run _ w)).
    rewrite IH, printed_printed, <- app_assoc. cbn [imap app].
    rewrite Z.add_0_r. do 3 f_equal.
    apply imap_ext. intros j c _. cbn. do 3 f_equal. lia.
Qed.

Lemma shape0_concat_frames (chunks : list DataFrame) :
  shape0 (concat_frames chunks) = sum_list (map shape0 chunks).
Proof.
  unfold shape0, concat_frames. cbn [rows].
  induction chunks as [| chunk chunks IH]; [done |].
  cbn [map concat sum_list foldr]. rewrite length_app, Nat2Z.inj_add.
  unfold sum_list in IH. by rewrite IH.
Qed.

(** X21.  A fetch whose connection opens and whose query yields the
    chunks [chunks] (at least one) without failing returns them put
    together in the order received; its rows are as many as those of the
    chunks together.  It prints the opening line and then one line per
    chunk, numbered from 1, with the rows of that chunk, and nothing else. *)
Theorem fetch_returns_all_chunks `{Outside}
    (query_sql table_name : string) (chunk_size : Z) (chunks : list DataFrame) (w : world) :
  connect_error the_connect_args = None ->
  read_sql query_sql chunk_size = map inr chunks ->
  chunks <> [] ->
  fetch_data_from_redshift query_sql table_name chunk_size w
  = (Return (concat_frames chunks),
     printed (("Fetching data for '" +:+ table_name +:+ "' in chunks of "
               +:+ Fmt.str_int chunk_size +:+ "...")
              :: imap (fun j chunk =>
                         "  Fetched chunk " +:+ Fmt.str_int (Z.of_nat j + 1) +:+ ": "
                         +:+ Fmt.str_int (shape0 chunk) +:+ " rows.") chunks) w)
  /\ rows (concat_frames chunks) = concat (map rows chunks)
  /\ shape0 (concat_frames chunks) = sum_list (map shape0 chunks).
Proof.
  intros Hconn Hread Hsome. split; [| split; [reflexivity | apply shape0_concat_frames]].
  unfold fetch_data_from_redshift.
  unfold try_finally, try_except.
  unfold mbind, M_bind, Py.bind, in_world, connect.
  change ({| host := DB_HOST; port := DB_PORT; database := DB_NAME; user := DB_USER;
             password := DB_PASSWORD; connect_timeout := CONNECT_TIMEOUT_SECONDS;
             options := "-c statement_timeout=" +:+ Fmt.str_int STATEMENT_TIMEOUT_MS |})
    with the_connect_args.
  cbn [fst snd]. rewrite Hconn, Hread.
  cbn [set_local modify fst snd print open_conns stdout dirs files].
  pose proof (is_fresh (open_conns w)) as Hfresh.
  set (c := fresh (open_conns w)) in *.
  rewrite fetch_chunks_all. cbn [app].
  destruct chunks as [| chunk chunks]; [done |].
  cbn [mret M_ret Py.ret get_local fst snd close modify printed open_conns stdout dirs files].
  rewrite <- !app_assoc. rewrite closed_again by exact Hfresh.
  do 3 f_equal.
Qed.

Lemma fetch_returns_all_chunks_witness :
  fetch_data_from_redshift (H := Samples.answering_warehouse)
    configured_sql "ansible_all_telemetry_combined_reliable" 50000 Samples.world_with_snapshot
  = (Return (concat_frames [Samples.three_module_rows]),
     printed ["Fetching data for 'ansible_all_telemetry_combined_reliable' in chunks of 50000...";
              "  Fetched chunk 1: 3 rows."]%string Samples.world_with_snapshot).
Proof.
  apply (fetch_returns_all_chunks (H := Samples.answering_warehouse)
           configured_sql "ansible_all_telemetry_combined_reliable" 50000
           [Samples.three_module_rows] Samples.world_with_snapshot);
    [reflexivity | reflexivity | discriminate].
Defined.

Lemma process_query_world `{Outside} (output_dir : string) (entry : string * query_details)
    (w : world) :
  let df := fetched (query entry.2) 50000 in
  let path := path_join output_dir (entry.1 +:+ "_data.json") in
  exists lines,
    process_query output_dir entry w
    = (Return tt,
       {| open_conns := open_conns w;
          stdout := stdout w
                    ++ [nl +:+ "--- Processing query: " +:+ entry.1 +:+ " ---"] ++ lines
                    ++ [if empty df then
                          "No data fetched for '" +:+ entry.1
                          +:+ "' or an error occurred. Skipping file creation."
                        else
                          match write_outcome path (json_dump (snapshot_of entry.1 entry.2 df)) with
                          | Written =>
                              "Saved data for '" +:+ entry.1 +:+ "' to '" +:+ path
                              +:+ "' successfully."
                          | OpenFailed e | DumpFailed e _ =>
                              "Error saving data for '" +:+ entry.1 +:+ "' to file: "
                              +:+ message e
                          end];
          dirs := dirs w;
          files := files_after output_dir entry (files w) |}).
Proof.
  intros df path. unfold process_query, files_after. fold df. fold path.
  rewrite (bind_return _ _ _ _ _ (print_run _ w)).
  destruct (fetch_run (query entry.2) entry.1 50000
              (printed [(nl +:+ "--- Processing query: " +:+ entry.1 +:+ " ---")] w))
    as (lines & Hfetch & _).
  rewrite (bind_return _ _ _ _ _ Hfetch). fold df.
  destruct (empty df); cbn [negb].
  - exists lines. rewrite print_run. unfold printed. cbn [open_conns stdout dirs files].
    by rewrite <- !app_assoc.
  - exists (lines ++ ["Finished fetching all " +:+ Fmt.str_int (shape0 df)
                      +:+ " rows for '" +:+ entry.1 +:+ "'."]).
    rewrite (bind_return _ _ _ _ _ (print_run _ _)).
    unfold try_except, write_json, mbind, M_bind, Py.bind.
    fold path.
    destruct (write_outcome _ _); unfold print, modify, printed;
      cbn [open_conns stdout dirs files]; by rewrite <- !app_assoc.
Qed.

Lemma main_world `{Outside} (w : world) (entry : string * query_details) :
  TABLE_QUERIES = [entry] ->
  makedirs_error "telemetry_json_output" = None ->
  let df := fetched (query entry.2) 50000 in
  let path := path_join "telemetry_json_output" (entry.1 +:+ "_data.json") in
  exists lines,
    main w
    = (Return tt,
       {| open_conns := open_conns w;
          stdout := stdout w
                    ++ ["Starting Redshift data extraction...";
                        "Output will be saved to 'telemetry_json_output' directory.";
                        nl +:+ "--- Processing query: " +:+ entry.1 +:+ " ---"] ++ lines
                    ++ [if empty df then
                          "No data fetched for '" +:+ entry.1
                          +:+ "' or an error occurred. Skipping file creation."
                        else
                          match write_outcome path (json_dump (snapshot_of entry.1 entry.2 df)) with
                          | Written =>
                              "Saved data for '" +:+ entry.1 +:+ "' to '" +:+ path
                              +:+ "' successfully."
                          | OpenFailed e | DumpFailed e _ =>
                              "Error saving data for '" +:+ entry.1 +:+ "' to file: "
                              +:+ message e
                          end;
                        nl +:+ "Data extraction process complete."];
          dirs := {[ "telemetry_json_output"%string ]} ∪ dirs w;
          files := files_after "telemetry_json_output" entry (files w) |}).
Proof.
  intros Hentry Hdir df path. unfold main, makedirs.
  unfold mbind at 1. unfold M_bind, Py.bind at 1. rewrite Hdir.
  rewrite (bind_return _ _ _ _ _ (print_run _ _)).
  rewrite (bind_return _ _ _ _ _ (print_run _ _)).
  rewrite Hentry. cbn [for_each].
  match goal with
  | |- context [(_ ≫= _) ?w1] =>
      destruct (process_query_world "telemetry_json_output" entry w1) as (lines & Hrun)
  end.
  unfold mbind, M_bind. unfold Py.bind at 1 2. rewrite Hrun. cbn [Py.ret].
  exists lines. rewrite print_run. unfold printed.
  cbn [open_conns stdout dirs files]. fold df. fold path.
  by rewrite <- !app_assoc.
Qed.

Lemma configured_key (entry : string * query_details) :
  TABLE_QUERIES = [entry] -> entry.1 = "ansible_all_telemetry_combined_reliable"%string.
Proof. unfold TABLE_QUERIES. by intros [= <-]. Qed.

(** X22.  The extractor script raises only when the output directory
    cannot be made, and then before it prints anything or opens a
    connection.  Otherwise it returns whatever the warehouse and the disk
    do: it has printed its two opening lines and the line of the one
    configured query first and its closing line last, the directory exists,
    and the connections open are those open before. *)
Theorem extractor_main_outcome `{Outside} (w : world) :
  (forall msg, makedirs_error "telemetry_json_output" = Some msg ->
               main w = (Raise (OSError msg), w))
  /\ (makedirs_error "telemetry_json_output" = None ->
      exists w' lines,
        main w = (Return tt, w')
        /\ open_conns w' = open_conns w
        /\ dirs w' = {[ "telemetry_json_output"%string ]} ∪ dirs w
        /\ stdout w'
           = stdout w
             ++ ["Starting Redshift data extraction...";
                 "Output will be saved to 'telemetry_json_output' directory.";
                 nl +:+ "--- Processing query: ansible_all_telemetry_combined_reliable ---"]
             ++ lines ++ [nl +:+ "Data extraction process complete."]).
Proof.
  split.
  - intros msg Hdir. unfold main, makedirs.
    unfold mbind at 1. unfold M_bind, Py.bind at 1. rewrite Hdir. reflexivity.
  - intros Hdir.
    destruct TABLE_QUERIES as [| entry [| ? ?]] eqn:Hentry; [discriminate | | discriminate].
    destruct (main_world w entry Hentry Hdir) as (lines & Hrun).
    rewrite (configured_key entry Hentry) in Hrun.
    match type of Hrun with
    | _ = (_, {| stdout := _ ++ _ ++ _ ++ [?closing; _] |}) =>
        exists (main w).2, (lines ++ [closing])
    end.
    rewrite Hrun. cbn [snd open_conns dirs stdout].
    split; [reflexivity |]. split; [reflexivity |]. split; [reflexivity |].
    rewrite <- !app_assoc. reflexivity.
Qed.

Lemma extractor_main_outcome_witness :
  main (H := Disks.read_only) Samples.world_with_snapshot
  = (Raise (OSError "Read-only file system"), Samples.world_with_snapshot).
Proof.
  apply (proj1 (extractor_main_outcome (H := Disks.read_only) Samples.world_with_snapshot)).
  reflexivity.
Defined.

Lemma configured_path (entry : string * query_details) :
  TABLE_QUERIES = [entry] ->
  path_join "telemetry_json_output" (entry.1 +:+ "_data.json") = Script.COMBINED_JSON_PATH.
Proof. intros Hentry. by rewrite (configured_key entry Hentry). Qed.

(** X23.  When the fetched table has a row and the file is written, the
    file the extractor leaves is the very file the reporter loads.  It
    holds the dump of a document with one record per row of the table, each
    record with the table's columns in order, and one schema entry per
    column; no other file is touched, and the line before the closing line
    tells that the data was saved. *)
Theorem snapshot_written_where_reporter_reads `{Outside} (w : world)
    (entry : string * query_details) :
  TABLE_QUERIES = [entry] ->
  let df := fetched (query entry.2) 50000 in
  let doc := snapshot_of entry.1 entry.2 df in
  makedirs_error "telemetry_json_output" = None ->
  empty df = false ->
  write_outcome Script.COMBINED_JSON_PATH (json_dump doc) = Written ->
  exists w' lines,
    main w = (Return tt, w')
    /\ files w' = <[Script.COMBINED_JSON_PATH := json_dump doc]> (files w)
    /\ length (data_records doc) = length (rows df)
    /\ Forall (fun record => map fst record = columns df) (data_records doc)
    /\ map fst (data_schema doc) = columns df
    /\ stdout w'
       = stdout w ++ lines
         ++ ["Saved data for '" +:+ entry.1 +:+ "' to '" +:+ Script.COMBINED_JSON_PATH
             +:+ "' successfully.";
             nl +:+ "Data extraction process complete."].
Proof.
  intros Hentry df doc Hdir Hne Hwrite.
  destruct (main_world w entry Hentry Hdir) as (lines & Hrun).
  unfold files_after in Hrun. rewrite (configured_path entry Hentry) in Hrun.
  fold df in Hrun. fold doc in Hrun. rewrite Hne, Hwrite in Hrun.
  exists (main w).2,
         (["Starting Redshift data extraction...";
           "Output will be saved to 'telemetry_json_output' directory.";
           nl +:+ "--- Processing query: " +:+ entry.1 +:+ " ---"]%string ++ lines).
  rewrite Hrun. cbn [snd files stdout].
  split; [reflexivity |]. split; [reflexivity |].
  split; [unfold doc, snapshot_of, to_dict_records; cbn [data_records]; by rewrite length_map |].
  split.
  { unfold doc, snapshot_of, to_dict_records. cbn [data_records].
    apply Forall_forall. intros record Hin.
    apply list_elem_of_fmap in Hin as (r & -> & _).
    rewrite map_map. cbn [fst]. apply map_id. }
  split.
  { unfold doc, snapshot_of. cbn [data_schema]. rewrite map_map. cbn [fst]. apply map_id. }
  rewrite <- !app_assoc. reflexivity.
Qed.

Lemma snapshot_written_where_reporter_reads_witness :
  files (main (H := Samples.answering_warehouse) Samples.world_with_snapshot).2
  = {[ Script.COMBINED_JSON_PATH := "ansible_all_telemetry_combined_reliable"%string ]}.
Proof.
  destruct TABLE_QUERIES as [| entry [| ? ?]] eqn:Hentry; [discriminate | | discriminate].
  destruct (snapshot_written_where_reporter_reads (H := Samples.answering_warehouse)
              Samples.world_with_snapshot entry Hentry)
    as (w' & lines & Hrun & Hfiles & _).
  - reflexivity.
  - injection Hentry as <-. reflexivity.
  - reflexivity.
  - rewrite Hrun. cbn [snd]. rewrite Hfiles.
    injection Hentry as <-. vm_compute. reflexivity.
Defined.

(** X24.  A failure to write the snapshot does not stop the run: the
    script returns, and the line before its closing line gives the error.
    If the file could not be opened the files are as before; if the dump
    failed after the file was opened, the file holds what was written until
    then, and what an earlier run left there is lost. *)
Theorem write_failure_is_reported `{Outside} (w : world)
    (entry : string * query_details) (e : exn) :
  TABLE_QUERIES = [entry] ->
  let df := fetched (query entry.2) 50000 in
  let doc := snapshot_of entry.1 entry.2 df in
  makedirs_error "telemetry_json_output" = None ->
  empty df = false ->
  (write_outcome Script.COMBINED_JSON_PATH (json_dump doc) = OpenFailed e ->
   exists w' lines,
     main w = (Return tt, w')
     /\ files w' = files w
     /\ stdout w'
        = stdout w ++ lines
          ++ ["Error saving data for '" +:+ entry.1 +:+ "' to file: " +:+ message e;
              nl +:+ "Data extraction process complete."])
  /\ (forall partial,
        write_outcome Script.COMBINED_JSON_PATH (json_dump doc) = DumpFailed e partial ->
        exists w' lines,
          main w = (Return tt, w')
          /\ files w' = <[Script.COMBINED_JSON_PATH := partial]> (files w)
          /\ stdout w'
             = stdout w ++ lines
               ++ ["Error saving data for '" +:+ entry.1 +:+ "' to file: " +:+ message e;
                   nl +:+ "Data extraction process complete."]).
Proof.
  intros Hentry df doc Hdir Hne.
  destruct (main_world w entry Hentry Hdir) as (lines & Hrun).
  unfold files_after in Hrun. rewrite (configured_path entry Hentry) in Hrun.
  fold df in Hrun. fold doc in Hrun. rewrite Hne in Hrun.
  split.
  - intros Hwrite. rewrite Hwrite in Hrun.
    exists (main w).2,
           (["Starting Redshift data extraction...";
             "Output will be saved to 'telemetry_json_output' directory.";
             nl +:+ "--- Processing query: " +:+ entry.1 +:+ " ---"]%string ++ lines).
    rewrite Hrun. cbn [snd files stdout].
    split; [reflexivity |]. split; [reflexivity |].
    rewrite <- !app_assoc. reflexivity.
  - intros partial Hwrite. rewrite Hwrite in Hrun.
    exists (main w).2,
           (["Starting Redshift data extraction...";
             "Output will be saved to 'telemetry_json_output' directory.";
             nl +:+ "--- Processing query: " +:+ entry.1 +:+ " ---"]%string ++ lines).
    rewrite Hrun. cbn [snd files stdout].
    split; [reflexivity |]. split; [reflexivity |].
    rewrite <- !app_assoc. reflexivity.
Qed.

Lemma write_failure_is_reported_witness :
  exists w' lines,
    main (H := Disks.full_disk) Samples.world_with_snapshot = (Return tt, w')
    /\ files w' = <[Script.COMBINED_JSON_PATH := "{"%string]> (files Samples.world_with_snapshot)
    /\ stdout w'
       = lines
         ++ ["Error saving data for 'ansible_all_telemetry_combined_reliable' to file: No space left on device";
             nl +:+ "Data extraction process complete."]%string.
Proof.
  destruct TABLE_QUERIES as [| entry [| ? ?]] eqn:Hentry; [discriminate | | discriminate].
  destruct (write_failure_is_reported (H := Disks.full_disk)
              Samples.world_with_snapshot entry (OSError "No space left on device") Hentry)
    as [_ Hdump].
  - reflexivity.
  - injection Hentry as <-. reflexivity.
  - destruct (Hdump "{"%string eq_refl) as (w' & lines & Hrun & Hfiles & Hout).
    exists w', lines. split; [exact Hrun |]. split; [exact Hfiles |].
    rewrite Hout. injection Hentry as <-. reflexivity.
Defined.
(** ** The host total and the samples of the reports *)




(** The end of a jobs report: the host total and the sample. *)
Lemma jobs_report_tail `{Lib} (n_days : Z) (df_recent_jobs : DataFrame) (output : string) :
  jobs_report n_days df_recent_jobs = Return output ->
  exists before total sample,
    (if has_column "job_host_count" df_recent_jobs
     then series_sum (map (row_get "job_host_count") (rows df_recent_jobs))
     else Return 0) = Return total
    /\ select_columns
         (List.filter (fun col => has_column col df_recent_jobs)
            ["job_created_date"; "job_name"; "job_status"; "job_elapsed_seconds"; "job_org_id"])
         df_recent_jobs = Return sample
    /\ output = ((before +:+ "- Total Hosts Touched by These Jobs: " +:+ Fmt.f0_int total
                  +:+ nl +:+ nl)
                 +:+ "### Sample Job Data:" +:+ nl)
                +:+ to_markdown (head 5 sample).
Proof.
  unfold jobs_report.
  destruct (has_column "job_status" df_recent_jobs) eqn:Hs;
    [| by rewrite (get_column_absent _ _ Hs)].
  rewrite (get_column_present _ _ Hs), obind_return.
  destruct (has_column "job_host_count" df_recent_jobs) eqn:Hh.
  - rewrite (get_column_present _ _ Hh), obind_return.
    destruct (series_sum _) as [total | e]; [| discriminate].
    rewrite obind_return.
    destruct (select_columns _ df_recent_jobs) as [sample | e]; [| discriminate].
    rewrite obind_return. intros [= <-]. by eexists _, total, sample.
  - rewrite obind_return.
    destruct (select_columns _ df_recent_jobs) as [sample | e]; [| discriminate].
    rewrite obind_return. intros [= <-]. by eexists _, 0, sample.
Qed.



(** The columns of a list that a table has can be selected from any table
    with the same columns. *)
Lemma select_columns_value (cols : list string) (df df' : DataFrame) :
  columns df' = columns df ->
  select_columns (List.filter (fun c => has_column c df) cols) df'
  = Return {| columns := List.filter (fun c => has_column c df) cols;
              rows := map (fun r => list_to_map
                                      (map (fun c => (c, row_get c r))
                                           (List.filter (fun c => has_column c df) cols)))
                          (rows df') |}.
Proof.
  intros Hcols. unfold select_columns.
  assert (List.filter (fun c => negb (has_column c df'))
            (List.filter (fun c => has_column c df) cols) = []) as ->; [| reflexivity].
  induction cols as [| c cols IH]; [reflexivity |].
  change (List.filter (fun c => has_column c df) (c :: cols))
    with (if has_column c df then c :: List.filter (fun c => has_column c df) cols
          else List.filter (fun c => has_column c df) cols).
  destruct (has_column c df) eqn:Hc; [| exact IH].
  change (List.filter ?f (c :: ?l)) with (if f c then c :: List.filter f l else List.filter f l).
  cbv beta. by rewrite (has_column_columns c df df' Hcols), Hc.
Qed.

(** X26.  The sample under a jobs report shows the first five jobs of the
    window, or all of them if they are fewer, in the order of the table, with
    those of the columns [job_created_date], [job_name], [job_status],
    [job_elapsed_seconds] and [job_org_id] that the table has, in this
    order; a column that is missing is left out, not an error. *)
Theorem jobs_sample_rows `{Lib} (n_days : Z) (df_recent_jobs : DataFrame) (output : string) :
  jobs_report n_days df_recent_jobs = Return output ->
  let shown :=
    List.filter (fun col => has_column col df_recent_jobs)
      ["job_created_date"; "job_name"; "job_status"; "job_elapsed_seconds"; "job_org_id"] in
  exists before sample,
    output = before +:+ "### Sample Job Data:" +:+ nl +:+ to_markdown sample
    /\ columns sample = shown
    /\ rows sample
       = map (fun r => list_to_map (map (fun c => (c, row_get c r)) shown))
             (take 5 (rows df_recent_jobs))
    /\ (length (rows sample) <= 5)%nat.
Proof.
  intros Hout shown.
  destruct (jobs_report_tail _ _ _ Hout) as (before & total & sample & _ & Hsel & ->).
  fold shown in Hsel.
  unfold shown in Hsel at 1. rewrite (select_columns_value _ df_recent_jobs) in Hsel by done.
  fold shown in Hsel. injection Hsel as <-.
  eexists _, _. split; [by rewrite string_app_assoc |].
  unfold head. cbn [columns rows Z.leb Z.compare Z.to_nat Pos.to_nat Pos.iter_op Nat.add].
  split; [reflexivity |]. split; [by rewrite fmap_take |].
  rewrite length_take. lia.
Qed.

Lemma jobs_sample_rows_witness :
  exists output before sample,
    jobs_report (H := Samples.lib) 30 Disks.one_record_table = Return output
    /\ output = before +:+ "### Sample Job Data:" +:+ nl +:+ @to_markdown Samples.lib sample
    /\ columns sample = ["job_created_date"; "job_name"; "job_status"; "job_org_id"]%string.
Proof.
  destruct (jobs_report (H := Samples.lib) 30 Disks.one_record_table)
    as [output | e] eqn:Hout; [| vm_compute in Hout; discriminate].
  destruct (jobs_sample_rows (H := Samples.lib) 30 Disks.one_record_table output Hout)
    as (before & sample & Htext & Hcols & _).
  exists output, before, sample. split; [reflexivity |]. split; [exact Htext |].
  rewrite Hcols. reflexivity.
Defined.

Lemma string_app_empty (s : string) : s +:+ EmptyString = s.
Proof.
  induction s as [| a s IH]; [done |].
  change (String a (s +:+ EmptyString) = String a s). by rewrite IH.
Qed.

(** X27.  The compliance report shows a sample only when some cluster is
    counted as non-compliant: without one the text ends with the summary
    lines; with one it goes on with the first three non-compliant clusters,
    shown with those of the columns [job_org_id], [job_cluster_id],
    [tower_version] and [cluster_url] that the table has. *)
Theorem compliance_sample_rows `{Lib} (df_unique_clusters : DataFrame) (output : string) :
  compliance_report df_unique_clusters = Return output ->
  let clusters := rows df_unique_clusters in
  let good := List.filter (fun r => eq_str "true" (row_get "is_compliant" r)) clusters in
  let bad := List.filter (fun r => eq_str "false" (row_get "is_compliant" r)) clusters in
  let lines :=
    compliance_lines (Z.of_nat (length clusters)) (Z.of_nat (length good))
                     (Z.of_nat (length bad)) in
  let shown :=
    List.filter (fun col => has_column col df_unique_clusters)
      ["job_org_id"; "job_cluster_id"; "tower_version"; "cluster_url"] in
  (bad = [] -> output = lines)
  /\ (bad <> [] ->
      exists sample,
        output = lines +:+ nl +:+ "### Sample Non-Compliant Clusters:" +:+ nl
                 +:+ to_markdown sample
        /\ columns sample = shown
        /\ rows sample
           = map (fun r => list_to_map (map (fun c => (c, row_get c r)) shown)) (take 3 bad)).
Proof.
  intros Hout clusters good bad lines shown. revert Hout.
  unfold compliance_report, compliant_count, non_compliant_count.
  destruct (has_column "is_compliant" df_unique_clusters) eqn:Hc;
    [| by rewrite (get_column_absent _ _ Hc)].
  rewrite (get_column_present _ _ Hc), !obind_return.
  unfold total_clusters, shape0. rewrite !filter_mask_column.
  fold clusters. fold good. fold bad. fold lines.
  unfold non_compliant_sample.
  destruct bad as [| r bad'] eqn:Hbad.
  - change (0 <? Z.of_nat (length (@nil (gmap string cell)))) with false. cbv iota.
    rewrite obind_return. intros [= <-]. split; [| done]. intros _.
    apply string_app_empty.
  - replace (0 <? Z.of_nat (length (r :: bad'))) with true
      by (symmetry; apply Z.ltb_lt; cbn [length]; lia).
    rewrite (get_column_present _ _ Hc), obind_return.
    fold shown. unfold shown at 1.
    rewrite (select_columns_value _ df_unique_clusters) by done.
    rewrite filter_mask_column. fold clusters. fold bad. rewrite Hbad.
    fold shown. rewrite !obind_return. intros [= <-].
    split; [done |]. intros _. eexists. split; [reflexivity |].
    unfold head. cbn [columns rows Z.leb Z.compare Z.to_nat Pos.to_nat Pos.iter_op Nat.add].
    split; [reflexivity |].
    by rewrite fmap_take.
Qed.

Lemma compliance_sample_rows_witness :
  exists output,
    compliance_report (H := Samples.lib) Samples.the_later_snapshot = Return output
    /\ output = compliance_lines 1 1 0.
Proof.
  destruct (compliance_report (H := Samples.lib) Samples.the_later_snapshot)
    as [output | e] eqn:Hout; [| vm_compute in Hout; discriminate].
  exists output. split; [reflexivity |].
  apply (proj1 (compliance_sample_rows (H := Samples.lib) Samples.the_later_snapshot
                  output Hout)).
  reflexivity.
Defined.
(** * The extractor and the reporter together *)

Lemma has_column_in (c : string) (df : DataFrame) (cols : list string) :
  columns df = cols -> has_column c df = bool_decide (c ∈ cols).
Proof. intros <-. reflexivity. Qed.

(** X28.  The configured query names the compliance flag of a cluster
    [cluster_is_compliant], the compliance report reads [is_compliant]: on a
    table with the columns the query returns the report never computes its
    counts, it returns its text about the missing column.  The columns the
    other two reports read are all among those the query returns, and no
    two columns of the query have the same name. *)
Theorem extracted_table_has_no_compliance_flag `{Lib} (s : state) (df : DataFrame) :
  table s = Some df ->
  empty df = false ->
  columns df = Sql.result_columns Extractor.configured_sql ->
  (get_cluster_compliance_summary s).1
  = Return "Missing 'is_compliant' column in combined data for compliance analysis. Check query in get_telesense_data.py."
  /\ has_column "cluster_is_compliant" df = true
  /\ Forall (fun c => has_column c df = true)
            ["job_created_timestamp"; "job_status"; "job_host_count";
             "collection_name"; "module_name"; "module_invocation_count"]
  /\ NoDup (columns df).
Proof.
  intros Ht Hne Hcols. split; [| split; [| split]].
  - destruct (get_cluster_compliance_summary_run s df Ht) as (s' & -> & _). cbn [fst].
    unfold compliance_summary_of. rewrite Hne, (has_column_in _ _ _ Hcols).
    vm_compute. reflexivity.
  - rewrite (has_column_in _ _ _ Hcols). vm_compute. reflexivity.
  - repeat (apply Forall_cons; split;
            [rewrite (has_column_in _ _ _ Hcols); vm_compute; reflexivity |]).
    apply Forall_nil. exact I.
  - rewrite Hcols. apply (bool_decide_unpack _). vm_compute. exact I.
Qed.

Lemma extracted_table_has_no_compliance_flag_witness :
  (get_cluster_compliance_summary (H := Samples.lib)
     (loaded {| columns := Sql.result_columns Extractor.configured_sql; rows := [∅] |} 0)).1
  = Return "Missing 'is_compliant' column in combined data for compliance analysis. Check query in get_telesense_data.py.".
Proof.
  apply (extracted_table_has_no_compliance_flag (H := Samples.lib)
           (loaded {| columns := Sql.result_columns Extractor.configured_sql; rows := [∅] |} 0)
           {| columns := Sql.result_columns Extractor.configured_sql; rows := [∅] |});
    [reflexivity | vm_compute; reflexivity | reflexivity].
Defined.
